(** * Cross-modal finding reconciliation and risk aggregation

    A shallow embedding of the reconciliation, risk and confidence code of
    the radiology discrepancy checker:

    - [backend/main.py]          class [RadiologyAnalyzer]          (module [Main])
    - [backend/run_analysis.py]  class [ComprehensiveRadiologySystem] (module [RunAnalysis])
    - [backend/ml_models.py]     class [RadiologyMLModels]          (module [MLModels])

    Conventions of the embedding.

    - Python numbers (ints and floats) are exact rationals [Q]; equality of
      computed numbers is [Qeq] ([==]).  Binary floating-point rounding error
      is not modelled; [round(x, 1)] is modelled by [py_round1] (round half to
      even on the exact value).
    - Python [str] is [string]; [str.lower] maps the ASCII capitals to small
      letters; [a in b] on strings is [str_in a b].
    - The finding dictionaries are records holding the keys the code reads;
      a key read with [.get] is an [option] field.
    - A [for] loop that appends to result lists is a [fold_left] over the
      loop state; an inner loop that stops at the first hit is [List.find].
    - The classifier feature dictionary and the prediction dictionaries of
      [ml_models.py] are [gmap string _]. *)

From Stdlib Require Import Ascii String List QArith Qround Qminmax Lqa Lia.
From stdpp Require Import base option list strings pretty gmap.

Local Open Scope Q_scope.

(** ** Python primitives *)

(** [str.lower] on one ASCII character. *)
Definition lower_char (c : ascii) : ascii :=
  let n := nat_of_ascii c in
  if (65 <=? n)%nat && (n <=? 90)%nat then ascii_of_nat (n + 32) else c.

Fixpoint lower (s : string) : string :=
  match s with
  | EmptyString => EmptyString
  | String c s' => String (lower_char c) (lower s')
  end.

(** [needle in hay] for two strings. *)
Fixpoint str_in (needle hay : string) : bool :=
  String.prefix needle hay ||
  match hay with
  | EmptyString => false
  | String _ hay' => str_in needle hay'
  end.

(** [len(l)] as a Python number. *)
Definition Qlen {A : Type} (l : list A) : Q := inject_Z (Z.of_nat (length l)).

(** Python's [min(a, b)] returns [b] only when [b < a]; [max(a, b)] returns
    [b] only when [b > a]. *)
Definition py_min (a b : Q) : Q := if Qlt_le_dec b a then b else a.
Definition py_max (a b : Q) : Q := if Qlt_le_dec a b then b else a.

(** [x < y] on numbers, as a boolean. *)
Definition Qltb (x y : Q) : bool := if Qlt_le_dec x y then true else false.

(** Rounding to the nearest integer, ties to the even neighbour. *)
Definition round_half_even (x : Q) : Z :=
  let f := Qfloor x in
  match Qcompare (x - inject_Z f) (1 # 2) with
  | Lt => f
  | Gt => (f + 1)%Z
  | Eq => if Z.even f then f else (f + 1)%Z
  end.

(** [round(x, 1)]. *)
Definition py_round1 (x : Q) : Q := inject_Z (round_half_even (x * 10)) / 10.

(** [sum(l) / len(l)] and [np.mean(l)]. *)
Definition Qsum (l : list Q) : Q := fold_left Qplus l 0.
Definition mean (l : list Q) : Q := Qsum l / Qlen l.

(** ** More string primitives *)

(** The ASCII characters [str.isspace] accepts. *)
Definition is_space (c : ascii) : bool :=
  let n := nat_of_ascii c in
  ((9 <=? n)%nat && (n <=? 13)%nat) || ((28 <=? n)%nat && (n <=? 32)%nat).

Definition is_empty (s : string) : bool :=
  match s with EmptyString => true | String _ _ => false end.

(** [s.split()]: the maximal runs of characters that are not white space. *)
Fixpoint split_ws_from (cur s : string) : list string :=
  match s with
  | EmptyString => if is_empty cur then [] else [cur]
  | String c s' =>
      if is_space c
      then if is_empty cur then split_ws_from EmptyString s'
           else cur :: split_ws_from EmptyString s'
      else split_ws_from (cur +:+ String c EmptyString) s'
  end.

Definition split_ws (s : string) : list string := split_ws_from EmptyString s.

(** [s.split(sep)] for a separator of one character. *)
Fixpoint split_on_from (sep : ascii) (cur s : string) : list string :=
  match s with
  | EmptyString => [cur]
  | String c s' =>
      if Ascii.eqb c sep then cur :: split_on_from sep EmptyString s'
      else split_on_from sep (cur +:+ String c EmptyString) s'
  end.

Definition split_on (sep : ascii) (s : string) : list string :=
  split_on_from sep EmptyString s.

Fixpoint lstrip (s : string) : string :=
  match s with
  | EmptyString => EmptyString
  | String c s' => if is_space c then lstrip s' else s
  end.

(** [s.strip()] *)
Definition strip (s : string) : string :=
  String.rev (lstrip (String.rev (lstrip s))).

(** [s.replace(c, '')] for one character [c]. *)
Fixpoint remove_char (old : ascii) (s : string) : string :=
  match s with
  | EmptyString => EmptyString
  | String c s' =>
      if Ascii.eqb c old then remove_char old s'
      else String c (remove_char old s')
  end.

(** [s.replace(old, new)] for two single characters. *)
Fixpoint replace_char (old new : ascii) (s : string) : string :=
  match s with
  | EmptyString => EmptyString
  | String c s' =>
      String (if Ascii.eqb c old then new else c) (replace_char old new s')
  end.

Definition upper_char (c : ascii) : ascii :=
  let n := nat_of_ascii c in
  if (97 <=? n)%nat && (n <=? 122)%nat then ascii_of_nat (n - 32) else c.

(** [s.capitalize()]: first character in upper case, the rest in lower case. *)
Definition capitalize (s : string) : string :=
  match s with
  | EmptyString => EmptyString
  | String c s' => String (upper_char c) (lower s')
  end.

(** [not l] for a list. *)
Definition is_nil {A : Type} (l : list A) : bool :=
  match l with [] => true | _ :: _ => false end.

(** [len(s)] of a string. *)
Definition str_len (s : string) : nat := String.length s.

(** The double quote character, as a string. *)
Definition dquote : string := String (ascii_of_nat 34) EmptyString.

(** [str(n)] of a natural number. *)
Definition str_of_nat (n : nat) : string := pretty n.

(** [sum(1 for t in terms if t in text)] *)
Definition count_terms (terms : list string) (text : string) : nat :=
  length (List.filter (fun t => str_in t text) terms).

(** ** Data model *)

(** A finding of the text extractor.  The reconcilers read [type] and
    [severity] with [.get] and [finding] and [confidence] by subscript. *)
Record TextFinding := mkTextFinding {
  tf_type : option string;
  tf_finding : string;
  tf_severity : option string;
  tf_confidence : Q;
  tf_context : string
}.

(** A pathology finding of the image extractor. *)
Record ImageFinding := mkImageFinding {
  if_type : string;
  if_severity : option string;
  if_confidence : Q;
  if_description : string
}.

Inductive DiscrepancyType := false_positive | false_negative.

Global Instance DiscrepancyType_eq_dec : EqDecision DiscrepancyType.
Proof. solve_decision. Defined.

Record Discrepancy := mkDiscrepancy {
  d_type : DiscrepancyType;
  d_description : string;
  d_severity : string;
  d_confidence : Q;
  d_source : option string
}.

(** [f.get('type') == 'pathological'] *)
Definition is_pathological (f : TextFinding) : bool :=
  match tf_type f with
  | Some t => bool_decide (t = "pathological"%string)
  | None => false
  end.

Definition is_false_positive (d : Discrepancy) : bool :=
  bool_decide (d_type d = false_positive).

(** The three risk states, with their order low < medium < high. *)
Inductive RiskLevel := low | medium | high.

Definition risk_rank (r : RiskLevel) : nat :=
  match r with low => 0 | medium => 1 | high => 2 end.

(** The loop state of the two reconcilers: the two result lists. *)
Record Lists (Agreement : Type) := mkLists {
  acc_discrepancies : list Discrepancy;
  acc_agreements : list Agreement
}.
Arguments mkLists {_} _ _.
Arguments acc_discrepancies {_} _.
Arguments acc_agreements {_} _.

(** The dictionary both reconcilers return. *)
Record Comparison (Agreement : Type) := mkComparison {
  discrepancies : list Discrepancy;
  agreements : list Agreement;
  agreement_percentage : Q;
  total_discrepancies : nat;
  cross_modal_confidence : Q
}.
Arguments mkComparison {_} _ _ _ _ _.
Arguments discrepancies {_} _.
Arguments agreements {_} _.
Arguments agreement_percentage {_} _.
Arguments total_discrepancies {_} _.
Arguments cross_modal_confidence {_} _.

(** [risk_factors] is a list of labels; both [run_analysis.py] and
    [ml_models.py] derive the level with the same expression
    ['high' if len(risk_factors) >= 2 else 'medium' if risk_factors else 'low']. *)
Definition risk_by_count (risk_factors : list string) : RiskLevel :=
  if (2 <=? length risk_factors)%nat then high
  else match risk_factors with
       | [] => low
       | _ :: _ => medium
       end.

(** [if c: risk_factors.append(label)] *)
Definition append_if (c : bool) (label : string) (risk_factors : list string)
    : list string :=
  if c then risk_factors ++ [label] else risk_factors.

(** ** Python values held in the prediction dictionaries *)

Inductive pyval :=
  | PBool (b : bool)
  | PNum (q : Q)
  | PStr (s : string)
  | PDict (d : list (string * Q)).

(** A prediction dictionary of [ml_models.py]. *)
Abbreviation pred := (gmap string pyval).

(** Truth value of [d.get(k)] / [d.get(k, False)]. *)
Definition truthy (v : option pyval) : bool :=
  match v with
  | None => false
  | Some (PBool b) => b
  | Some (PNum q) => negb (Qeq_bool q 0)
  | Some (PStr s) => negb (bool_decide (s = ""%string))
  | Some (PDict d) => negb (bool_decide (d = []))
  end.

(** [d.get(k) == s] for a string [s]. *)
Definition get_is_str (v : option pyval) (s : string) : bool :=
  match v with
  | Some (PStr s') => bool_decide (s' = s)
  | _ => false
  end.

(** ** [ml_models.py]: [RadiologyMLModels] *)

Module MLModels.

(** What a call returns: a value, or an exception that leaves the call. *)
Inductive outcome (A : Type) :=
  | Returned (a : A)
  | Raised (exc : string).
Arguments Returned {_} _.
Arguments Raised {_} _.

(** [p.get('confidence', 0)] as a number for [np.mean]; a boolean counts as
    0 or 1, any other value makes [np.mean] fail. *)
Definition get_confidence (p : pred) : option Q :=
  match p !! "confidence"%string with
  | None => Some 0
  | Some (PNum q) => Some q
  | Some (PBool b) => Some (if b then 1 else 0)
  | Some _ => None
  end.

(** The dictionary [comprehensive_analysis] returns. *)
Record Analysis := mkAnalysis {
  pathology_analysis : pred;
  severity_analysis : pred;
  quality_analysis : pred;
  discrepancy_analysis : pred;
  overall_confidence : Q;
  overall_risk_level : RiskLevel;
  risk_factors : list string;
  ml_summary : string
}.

Definition quality_is_poor_or_fair (quality_pred : pred) : bool :=
  get_is_str (quality_pred !! "quality"%string) "poor"
  || get_is_str (quality_pred !! "quality"%string) "fair".

(** The risk factors [comprehensive_analysis] collects. *)
Definition collect_risk_factors
    (pathology_pred severity_pred quality_pred discrepancy_pred : pred)
    : list string :=
  let risk_factors := [] in
  let risk_factors :=
    append_if (truthy (pathology_pred !! "has_pathology"%string))
              "pathology_detected" risk_factors in
  let risk_factors :=
    append_if (get_is_str (severity_pred !! "severity"%string) "severe")
              "severe_findings" risk_factors in
  let risk_factors :=
    append_if (quality_is_poor_or_fair quality_pred)
              "quality_issues" risk_factors in
  append_if (truthy (discrepancy_pred !! "has_discrepancy"%string))
            "discrepancies_found" risk_factors.

Section Sklearn.

(** The scikit-learn objects are external: estimators, scalers, the training
    table and their methods are parameters of the model. *)
Variables Model Scaler TrainingData : Type.
(** [scaler.transform([v])] *)
Variable transform : Scaler -> list Q -> list Q.
(** [model.predict(X)[0]], a class index *)
Variable predict : Model -> list Q -> nat.
(** [model.predict_proba(X)[0]] *)
Variable predict_proba : Model -> list Q -> list Q.
(** [generate_synthetic_training_data(n)] and its ['feature_names'] *)
Variable generate_synthetic_training_data : nat -> TrainingData.
Variable training_feature_names : TrainingData -> list string.
(** [scaler.fit_transform] and [model.fit] on the split of one target *)
Variable fit_scaler : Scaler -> TrainingData -> string -> Scaler.
Variable fit_model : Model -> Scaler -> TrainingData -> string -> Model.
(** String formatting is Python's: [f"{x:.1%}"] of a number and [f"{v}"] of
    a value. *)
Variable format_percent : Q -> string.
Variable format_value : pyval -> string.

(** The attributes of [self]. *)
Record RadiologyMLModels := mkModels {
  models : gmap string Model;
  scalers : gmap string Scaler;
  feature_names : list string;
  is_trained : bool
}.

(** Methods of the class: state passing over [self], with exceptions. *)
Definition M (A : Type) : Type :=
  RadiologyMLModels -> outcome A * RadiologyMLModels.

Definition ret {A} (a : A) : M A := fun self => (Returned a, self).
Definition raise {A} (exc : string) : M A := fun self => (Raised exc, self).
Definition bind {A B} (m : M A) (k : A -> M B) : M B :=
  fun self =>
    match m self with
    | (Returned a, self') => k a self'
    | (Raised exc, self') => (Raised exc, self')
    end.
Definition get_self : M RadiologyMLModels := fun self => (Returned self, self).
Definition put_self (s : RadiologyMLModels) : M unit := fun _ => (Returned tt, s).

Notation "x <- m ;; k" := (bind m (fun x => k))
  (at level 100, m at next level, right associativity).

(** [d[k]]: [KeyError] when the key is absent. *)
Definition subscript {A} (d : gmap string A) (k : string) : M A :=
  match d !! k with
  | Some a => ret a
  | None => raise "KeyError"
  end.

(** [l[i]]: [IndexError] when out of range. *)
Definition index {A} (l : list A) (i : nat) : M A :=
  match l !! i with
  | Some a => ret a
  | None => raise "IndexError"
  end.

Definition default_values : gmap string Q :=
  list_to_map
    [ ("contrast", 50); ("brightness", 128); ("sharpness", 75);
      ("symmetry_score", 8 # 10); ("edge_density", 1 # 10);
      ("word_count", 80); ("medical_term_count", 12);
      ("sentence_count", 8); ("completeness_score", 80);
      ("clarity_score", 80); ("text_image_agreement", 8 # 10);
      ("finding_count_text", 3); ("finding_count_image", 3);
      ("confidence_variance", 10) ]%string.

Definition _prepare_feature_vector (self : RadiologyMLModels)
    (features : gmap string Q) : list Q :=
  List.map
    (fun feature_name =>
       default (default 0 (default_values !! feature_name))
               (features !! feature_name))
    (feature_names self).

Definition _get_risk_level (probability : Q) : string :=
  if negb (Qltb probability (7 # 10)) then "high"
  else if negb (Qltb probability (4 # 10)) then "medium"
  else "low".

Definition not_trained : pred :=
  {[ "error"%string := PStr "Models not trained yet" ]}.

(** The common start of the four predictors once trained: feature vector,
    scaling, class index and class probabilities. *)
Definition run_model (name : string) (features : gmap string Q)
    : M (nat * list Q) :=
  self <- get_self ;;
  let feature_vector := _prepare_feature_vector self features in
  scaler <- subscript (scalers self) name ;;
  let feature_vector_scaled := transform scaler feature_vector in
  model <- subscript (models self) name ;;
  ret (predict model feature_vector_scaled,
       predict_proba model feature_vector_scaled).

Definition predict_pathology (features : gmap string Q) : M pred :=
  self <- get_self ;;
  if negb (is_trained self) then ret not_trained
  else
    r <- run_model "pathology_detector" features ;;
    let '(prediction, probability) := r in
    confidence <- index probability (if (prediction =? 0)%nat then 0 else 1)%nat ;;
    p1 <- index probability 1 ;;
    p0 <- index probability 0 ;;
    ret (<[ "has_pathology"%string := PBool (negb (prediction =? 0)%nat) ]>
         (<[ "confidence"%string := PNum confidence ]>
         (<[ "probability_pathology"%string := PNum p1 ]>
         (<[ "probability_normal"%string := PNum p0 ]> ∅)))).

(** The dictionary comprehension [{labels[i]: prob for i, prob in
    enumerate(probabilities)}]. *)
Fixpoint label_probabilities (labels : list string) (i : nat)
    (probabilities : list Q) : M (list (string * Q)) :=
  match probabilities with
  | [] => ret []
  | prob :: rest =>
      label <- index labels i ;;
      tl <- label_probabilities labels (S i) rest ;;
      ret ((label, prob) :: tl)
  end.

Definition severity_labels : list string := ["mild"; "moderate"; "severe"]%string.
Definition quality_labels : list string :=
  ["poor"; "fair"; "good"; "excellent"]%string.

Definition predict_severity (features : gmap string Q) : M pred :=
  self <- get_self ;;
  if negb (is_trained self) then ret not_trained
  else
    r <- run_model "severity_classifier" features ;;
    let '(prediction, probabilities) := r in
    severity <- index severity_labels prediction ;;
    confidence <- index probabilities prediction ;;
    probs <- label_probabilities severity_labels 0 probabilities ;;
    ret (<[ "severity"%string := PStr severity ]>
         (<[ "confidence"%string := PNum confidence ]>
         (<[ "probabilities"%string := PDict probs ]> ∅))).

Definition predict_quality (features : gmap string Q) : M pred :=
  self <- get_self ;;
  if negb (is_trained self) then ret not_trained
  else
    r <- run_model "quality_assessor" features ;;
    let '(prediction, probabilities) := r in
    quality <- index quality_labels prediction ;;
    confidence <- index probabilities prediction ;;
    probs <- label_probabilities quality_labels 0 probabilities ;;
    ret (<[ "quality"%string := PStr quality ]>
         (<[ "confidence"%string := PNum confidence ]>
         (<[ "score"%string :=
               PNum (inject_Z (Z.of_nat (prediction + 1)) * 25) ]>
         (<[ "probabilities"%string := PDict probs ]> ∅)))).

Definition predict_discrepancy (features : gmap string Q) : M pred :=
  self <- get_self ;;
  if negb (is_trained self) then ret not_trained
  else
    r <- run_model "discrepancy_detector" features ;;
    let '(prediction, probability) := r in
    confidence <- index probability (if (prediction =? 0)%nat then 0 else 1)%nat ;;
    p1 <- index probability 1 ;;
    ret (<[ "has_discrepancy"%string := PBool (negb (prediction =? 0)%nat) ]>
         (<[ "confidence"%string := PNum confidence ]>
         (<[ "risk_level"%string := PStr (_get_risk_level p1) ]> ∅))).

(** One round of the training loop of [train_models]: the scaler of the
    name is fitted (in place) before the model of the name is looked up. *)
Definition train_one (training_data : TrainingData)
    (names : string * string) : M unit :=
  let '(model_name, target_name) := names in
  self <- get_self ;;
  scaler <- subscript (scalers self) model_name ;;
  let scaler' := fit_scaler scaler training_data target_name in
  _ <- put_self
         {| models := models self;
            scalers := <[ model_name := scaler' ]> (scalers self);
            feature_names := feature_names self;
            is_trained := is_trained self |} ;;
  model <- subscript (models self) model_name ;;
  let model' := fit_model model scaler' training_data target_name in
  put_self
    {| models := <[ model_name := model' ]> (models self);
       scalers := <[ model_name := scaler' ]> (scalers self);
       feature_names := feature_names self;
       is_trained := is_trained self |}.

Fixpoint for_each {A} (body : A -> M unit) (l : list A) : M unit :=
  match l with
  | [] => ret tt
  | a :: rest => _ <- body a ;; for_each body rest
  end.

(** [train_models(training_data=None)]; the returned scores are not kept. *)
Definition train_models (training_data : option TrainingData) : M unit :=
  let training_data :=
    default (generate_synthetic_training_data 2000) training_data in
  self <- get_self ;;
  _ <- put_self
         {| models := models self; scalers := scalers self;
            feature_names := training_feature_names training_data;
            is_trained := is_trained self |} ;;
  _ <- for_each (train_one training_data)
         [ ("pathology_detector", "pathology");
           ("severity_classifier", "severity");
           ("quality_assessor", "quality");
           ("discrepancy_detector", "discrepancy") ]%string ;;
  self <- get_self ;;
  put_self
    {| models := models self; scalers := scalers self;
       feature_names := feature_names self; is_trained := true |}.

(** [f"{pathology['confidence']:.1%}"]: the key must be there and hold a
    number. *)
Definition confidence_percent (pathology : pred) : outcome string :=
  match pathology !! "confidence"%string with
  | None => Raised "KeyError"
  | Some (PNum q) => Returned (format_percent q)
  | Some (PBool b) => Returned (format_percent (if b then 1 else 0))
  | Some _ => Raised "ValueError"
  end.

(** [if d.get(k): summary_parts.append(f"{prefix}{d[k]}")] *)
Definition append_value (prefix : string) (v : option pyval)
    (summary_parts : list string) : list string :=
  match v with
  | Some x => if truthy v then summary_parts ++ [prefix +:+ format_value x]
              else summary_parts
  | None => summary_parts
  end.

Definition _generate_ml_summary (pathology severity quality discrepancy : pred)
    : outcome string :=
  let summary_parts := [] in
  let first :=
    if truthy (pathology !! "has_pathology"%string)
    then match confidence_percent pathology with
         | Returned pct =>
             Returned (summary_parts
                         ++ ["ML models detected pathology with " +:+ pct
                               +:+ " confidence"])
         | Raised exc => Raised exc
         end
    else Returned (summary_parts ++ ["ML models suggest normal findings"%string]) in
  match first with
  | Raised exc => Raised exc
  | Returned summary_parts =>
      let summary_parts :=
        append_value "Severity classified as "
                     (severity !! "severity"%string) summary_parts in
      let summary_parts :=
        append_value "Overall quality assessed as "
                     (quality !! "quality"%string) summary_parts in
      let summary_parts :=
        append_if (truthy (discrepancy !! "has_discrepancy"%string))
                  "Potential discrepancies detected" summary_parts in
      Returned (String.concat ". " summary_parts +:+ ".")
  end.

(** [comprehensive_analysis] after the four predictions are made. *)
Definition aggregate
    (pathology_pred severity_pred quality_pred discrepancy_pred : pred)
    : outcome Analysis :=
  match get_confidence pathology_pred, get_confidence severity_pred,
        get_confidence quality_pred, get_confidence discrepancy_pred with
  | Some c1, Some c2, Some c3, Some c4 =>
      let overall_confidence := mean [c1; c2; c3; c4] in
      let risk_factors :=
        collect_risk_factors pathology_pred severity_pred quality_pred
                             discrepancy_pred in
      let overall_risk := risk_by_count risk_factors in
      match _generate_ml_summary pathology_pred severity_pred quality_pred
                                 discrepancy_pred with
      | Returned summary =>
          Returned
            {| pathology_analysis := pathology_pred;
               severity_analysis := severity_pred;
               quality_analysis := quality_pred;
               discrepancy_analysis := discrepancy_pred;
               overall_confidence := overall_confidence;
               overall_risk_level := overall_risk;
               risk_factors := risk_factors;
               ml_summary := summary |}
      | Raised exc => Raised exc
      end
  | _, _, _, _ => Raised "TypeError"
  end.

Definition comprehensive_analysis (features : gmap string Q) : M Analysis :=
  self <- get_self ;;
  _ <- (if negb (is_trained self) then train_models None else ret tt) ;;
  pathology_pred <- predict_pathology features ;;
  severity_pred <- predict_severity features ;;
  quality_pred <- predict_quality features ;;
  discrepancy_pred <- predict_discrepancy features ;;
  match aggregate pathology_pred severity_pred quality_pred discrepancy_pred with
  | Returned a => ret a
  | Raised exc => raise exc
  end.

End Sklearn.

Arguments RadiologyMLModels : clear implicits.
Arguments mkModels {_ _} _ _ _ _.
Arguments models {_ _} _.
Arguments scalers {_ _} _.
Arguments feature_names {_ _} _.
Arguments is_trained {_ _} _.
Arguments predict_pathology {_ _} _ _ _ _ _.
Arguments predict_severity {_ _} _ _ _ _ _.
Arguments predict_quality {_ _} _ _ _ _ _.
Arguments predict_discrepancy {_ _} _ _ _ _ _.

Section Lifecycle.

Variables Model Scaler : Type.
(** The estimators [_initialize_models] constructs and [StandardScaler()]. *)
Variables pathology_detector0 severity_classifier0 quality_assessor0
  discrepancy_detector0 : Model.
Variable standard_scaler0 : Scaler.

(** [_initialize_models]: the four estimators, and one scaler per model
    name. *)
Definition _initialize_models (self : RadiologyMLModels Model Scaler)
    : RadiologyMLModels Model Scaler :=
  let models : gmap string Model :=
    <[ "pathology_detector"%string := pathology_detector0 ]>
    (<[ "severity_classifier"%string := severity_classifier0 ]>
    (<[ "quality_assessor"%string := quality_assessor0 ]>
    (<[ "discrepancy_detector"%string := discrepancy_detector0 ]> ∅))) in
  {| models := models;
     scalers := ((fun _ => standard_scaler0) <$> models) ∪ scalers self;
     feature_names := feature_names self;
     is_trained := is_trained self |}.

(** [RadiologyMLModels()] *)
Definition init : RadiologyMLModels Model Scaler :=
  _initialize_models
    {| models := ∅; scalers := ∅; feature_names := []; is_trained := false |}.

(** The dictionary [save_models] hands to [joblib.dump]. *)
Record ModelData := mkModelData {
  md_models : gmap string Model;
  md_scalers : gmap string Scaler;
  md_feature_names : list string;
  md_is_trained : bool
}.

(** The files [joblib] writes and reads: a path holds what was dumped
    there last. *)
Definition Files : Type := gmap string ModelData.

Definition save_models (filepath : string)
    (self : RadiologyMLModels Model Scaler) (files : Files)
    : outcome unit * Files :=
  if negb (is_trained self)
  then (Raised "ValueError", files)
  else
    let model_data :=
      {| md_models := models self; md_scalers := scalers self;
         md_feature_names := feature_names self;
         md_is_trained := is_trained self |} in
    (Returned tt, <[ filepath := model_data ]> files).

(** [load_models]: any exception of [joblib.load] is caught and the object
    is left as it is. *)
Definition load_models (filepath : string)
    (self : RadiologyMLModels Model Scaler) (files : Files)
    : RadiologyMLModels Model Scaler :=
  match files !! filepath with
  | Some model_data =>
      {| models := md_models model_data;
         scalers := md_scalers model_data;
         feature_names := md_feature_names model_data;
         is_trained := md_is_trained model_data |}
  | None => self
  end.

End Lifecycle.

Arguments init {_ _} _ _ _ _ _.
Arguments save_models {_ _} _ _ _.
Arguments load_models {_ _} _ _ _.
Arguments train_models {_ _ _} _ _ _ _ _.
Arguments comprehensive_analysis {_ _ _} _ _ _ _ _ _ _ _ _ _.

End MLModels.

(** ** [medical_nlp.py]: [MedicalNLP] *)

Module MedicalNLP.

(** One entry of [pathology_keywords]. *)
Record Keyword := mkKeyword {
  kw_severity : string;
  kw_urgency : string;
  kw_location : string
}.

Definition pathology_keywords : list (string * Keyword) :=
  [ ("pneumonia", mkKeyword "moderate" "high" "lung");
    ("consolidation", mkKeyword "moderate" "medium" "lung");
    ("opacity", mkKeyword "mild" "low" "lung");
    ("infiltrate", mkKeyword "moderate" "medium" "lung");
    ("effusion", mkKeyword "moderate" "medium" "pleural");
    ("pneumothorax", mkKeyword "high" "high" "pleural");
    ("fracture", mkKeyword "high" "high" "bone");
    ("dislocation", mkKeyword "high" "high" "joint");
    ("nodule", mkKeyword "moderate" "medium" "lung");
    ("mass", mkKeyword "high" "high" "various");
    ("lesion", mkKeyword "moderate" "medium" "various");
    ("cardiomegaly", mkKeyword "moderate" "medium" "heart");
    ("atelectasis", mkKeyword "mild" "low" "lung") ]%string.

Definition normal_indicators : list string :=
  [ "normal"; "unremarkable"; "clear"; "intact"; "stable";
    "no acute"; "no evidence"; "negative"; "within normal limits" ]%string.

Definition severity_modifiers : list (string * Z) :=
  [ ("mild", 1); ("small", 1); ("minimal", 1); ("slight", 1);
    ("moderate", 2); ("medium", 2);
    ("severe", 3); ("large", 3); ("extensive", 3); ("massive", 3);
    ("acute", 3); ("chronic", 2) ]%string%Z.

Definition anatomical_locations : list string :=
  [ "right upper lobe"; "right middle lobe"; "right lower lobe";
    "left upper lobe"; "left lower lobe"; "bilateral";
    "heart"; "mediastinum"; "pleural"; "costophrenic";
    "hilum"; "apex"; "base"; "periphery" ]%string.

(** A finding dictionary; the keys a normal finding lacks are [None]. *)
Record Finding := mkFinding {
  type : string;
  finding : string;
  location : option string;
  severity : option string;
  confidence : Q;
  context : string;
  urgency : option string
}.

(** The loop of [_extract_severity]: the first modifier found decides. *)
Fixpoint _extract_severity_loop (modifiers : list (string * Z))
    (sentence default_severity : string) : string :=
  match modifiers with
  | [] => default_severity
  | (modifier, level) :: rest =>
      if str_in modifier sentence
      then if (level =? 1)%Z then "mild"
           else if (level =? 2)%Z then "moderate"
           else "severe"
      else _extract_severity_loop rest sentence default_severity
  end.

Definition _extract_severity (sentence default_severity : string) : string :=
  _extract_severity_loop severity_modifiers sentence default_severity.

(** [any(term in sentence for term in terms)] *)
Definition any_in (terms : list string) (sentence : string) : bool :=
  existsb (fun term => str_in term sentence) terms.

Definition _calculate_finding_confidence (sentence finding : string) : Q :=
  let base_confidence := 80 in
  let base_confidence :=
    if any_in ["consistent with"; "suggestive of"; "compatible with"]%string
              sentence
    then base_confidence + 10 else base_confidence in
  let base_confidence :=
    if any_in ["possible"; "probable"; "likely"; "suspicious";
               "questionable"]%string sentence
    then base_confidence - 15 else base_confidence in
  let base_confidence :=
    if any_in ["definite"; "clear"; "obvious"; "evident"]%string sentence
    then base_confidence + 15 else base_confidence in
  let base_confidence :=
    if any_in ["no"; "not"; "without"; "absent"; "negative"]%string sentence
    then if str_in finding sentence then base_confidence - 20
         else base_confidence
    else base_confidence in
  py_max 30 (py_min 95 base_confidence).

Definition anatomical_terms : list string :=
  [ "heart"; "lungs"; "lung fields"; "mediastinum"; "bones";
    "ribs"; "spine"; "diaphragm"; "pleura"; "cardiac silhouette" ]%string.

Definition _extract_normal_structure (sentence indicator : string) : string :=
  default "structure"%string
    (List.find (fun term => str_in term sentence) anatomical_terms).

(** [_extract_normal_findings]: the loop stops at the first indicator. *)
Definition _extract_normal_findings (sentence : string) : list Finding :=
  match List.find (fun indicator => str_in indicator sentence)
                  normal_indicators with
  | Some indicator =>
      let normal_structure := _extract_normal_structure sentence indicator in
      [ {| type := "normal";
           finding := normal_structure +:+ " appears " +:+ indicator;
           location := None;
           severity := None;
           confidence := 90;
           context := strip sentence;
           urgency := None |} ]
  | None => []
  end.

(** [f"{finding['finding']}_{finding.get('location', '')}"] *)
Definition finding_key (f : Finding) : string :=
  finding f +:+ "_" +:+ default ""%string (location f).

(** One round of the loop of [_merge_similar_findings]; the state is
    [merged_findings] and the set [processed_findings]. *)
Definition merge_step (st : list Finding * gset string) (f : Finding)
    : list Finding * gset string :=
  let finding_key := finding_key f in
  if bool_decide (finding_key ∈ snd st) then st
  else (fst st ++ [f], snd st ∪ {[ finding_key ]}).

Definition _merge_similar_findings (findings : list Finding) : list Finding :=
  fst (fold_left merge_step findings ([], ∅)).

(** The [section_indicators] table of [_identify_report_sections]. *)
Definition section_indicators : list (string * list string) :=
  [ ("clinical_history", ["clinical history"; "history"; "indication"]);
    ("technique", ["technique"; "method"; "protocol"]);
    ("findings", ["findings"; "observations"; "results"]);
    ("impression", ["impression"; "conclusion"; "diagnosis"; "assessment"]) ]%string.

Definition _identify_report_sections (text : string) : list string :=
  let text_lower := lower text in
  fold_left
    (fun sections entry =>
       if any_in (snd entry) text_lower then sections ++ [fst entry]
       else sections)
    section_indicators [].

Definition medical_terms : list string :=
  List.map fst pathology_keywords
  ++ [ "radiograph"; "ct"; "mri"; "ultrasound"; "contrast";
       "anterior"; "posterior"; "lateral"; "medial"; "superior";
       "inferior" ]%string.

Definition _count_medical_terms (text : string) : nat :=
  count_terms medical_terms (lower text).

(** [x in l] for a list of strings. *)
Definition mem (x : string) (l : list string) : bool :=
  existsb (fun y => bool_decide (y = x)) l.

Definition _assess_completeness (sections : list string) (word_count : nat) : Q :=
  let score := 0 in
  let score :=
    fold_left (fun score section => if mem section sections then score + 40 else score)
              ["findings"; "impression"]%string score in
  let score :=
    fold_left (fun score section => if mem section sections then score + 10 else score)
              ["clinical_history"; "technique"]%string score in
  let score :=
    if (50 <=? word_count)%nat then score + 10
    else if (30 <=? word_count)%nat then score + 5
    else score in
  py_min 100 score.

(** [lo <= x <= hi] *)
Definition between (lo x hi : Q) : bool := negb (Qltb x lo) && negb (Qltb hi x).

Definition _assess_clarity (text : string) (sentence_count word_count : nat) : Q :=
  let score := 70 in
  let score :=
    if (0 <? sentence_count)%nat
    then
      let avg_words_per_sentence :=
        inject_Z (Z.of_nat word_count) / inject_Z (Z.of_nat sentence_count) in
      if between 8 avg_words_per_sentence 25 then score + 15 else score - 10
    else score in
  let score :=
    if any_in ["thing"; "stuff"; "something"; "maybe"; "perhaps"]%string
              (lower text)
    then score - 15 else score in
  let score :=
    if (3 <=? _count_medical_terms text)%nat then score + 10 else score in
  py_max 0 (py_min 100 score).

Definition _get_quality_assessment (score : Q) : string :=
  if negb (Qltb score 85) then "Excellent"
  else if negb (Qltb score 75) then "Good"
  else if negb (Qltb score 65) then "Fair"
  else "Poor".

(** The dictionary of [assess_report_quality]. *)
Record ReportQuality := mkReportQuality {
  overall_score : Q;
  completeness_score : Q;
  clarity_score : Q;
  readability_score : Q;
  word_count : nat;
  sentence_count : nat;
  medical_term_count : nat;
  sections_identified : list string;
  assessment : string
}.

Section Regex.

(** The regular-expression engine is external: [re.sub(pattern, repl, s)],
    [re.split(pattern, s)] and [re.search(pattern, s)] with [.group(0)] of
    the match ([None] when there is none). *)
Variable re_sub : string -> string -> string -> string.
Variable re_split : string -> string -> list string.
Variable re_search : string -> string -> option string.

Definition _split_into_sentences (text : string) : list string :=
  let text := re_sub "\bDr\." "Dr" text in
  let text := re_sub "\bMr\." "Mr" text in
  let text := re_sub "\bMrs\." "Mrs" text in
  let sentences := re_split "\.(?!\d)" text in
  List.map strip (List.filter (fun s => negb (is_empty (strip s))) sentences).

Definition location_patterns : list string :=
  [ "(right|left)\s+(upper|middle|lower)\s+(lobe|lung)";
    "(bilateral|both)\s+(lung|lungs)";
    "(heart|cardiac|mediastinal|pleural)" ]%string.

(** The loop over [location_patterns]. *)
Fixpoint search_patterns (patterns : list string) (sentence : string)
    : option string :=
  match patterns with
  | [] => None
  | pattern :: rest =>
      match re_search pattern sentence with
      | Some m => Some m
      | None => search_patterns rest sentence
      end
  end.

Definition _extract_location (sentence : string) : option string :=
  match List.find (fun location => str_in location sentence)
                  anatomical_locations with
  | Some location => Some location
  | None => search_patterns location_patterns sentence
  end.

(** [location or details['location']] *)
Definition location_or (location : option string) (fallback : string) : string :=
  match location with
  | Some l => if is_empty l then fallback else l
  | None => fallback
  end.

Definition _extract_pathology_from_sentence (sentence : string) : list Finding :=
  fold_left
    (fun findings entry =>
       let '(pathology, details) := entry in
       if str_in pathology sentence
       then
         let location := _extract_location sentence in
         let severity := _extract_severity sentence (kw_severity details) in
         let confidence := _calculate_finding_confidence sentence pathology in
         findings
           ++ [ {| type := "pathological";
                   finding := capitalize pathology;
                   location := Some (location_or location (kw_location details));
                   severity := Some severity;
                   confidence := confidence;
                   context := strip sentence;
                   urgency := Some (kw_urgency details) |} ]
       else findings)
    pathology_keywords [].

Definition extract_clinical_findings (text : string) : list Finding :=
  let sentences := _split_into_sentences text in
  let findings :=
    fold_left
      (fun findings sentence =>
         let sentence_lower := lower sentence in
         let findings :=
           findings ++ _extract_pathology_from_sentence sentence_lower in
         findings ++ _extract_normal_findings sentence_lower)
      sentences [] in
  _merge_similar_findings findings.

Definition _calculate_readability (text : string) : Q :=
  let words := split_ws text in
  let sentences := _split_into_sentences text in
  if is_nil sentences then 0
  else
    let avg_words_per_sentence :=
      inject_Z (Z.of_nat (length words))
        / inject_Z (Z.of_nat (length sentences)) in
    if between 10 avg_words_per_sentence 20 then 85
    else if between 8 avg_words_per_sentence 25 then 75
    else 60.

Definition assess_report_quality (text : string) : ReportQuality :=
  let word_count := length (split_ws text) in
  let sentence_count := length (_split_into_sentences text) in
  let sections := _identify_report_sections text in
  let readability_score := _calculate_readability text in
  let medical_term_count := _count_medical_terms text in
  let completeness_score := _assess_completeness sections word_count in
  let clarity_score := _assess_clarity text sentence_count word_count in
  let overall_score :=
    (completeness_score + clarity_score + readability_score) / 3 in
  {| overall_score := py_round1 overall_score;
     completeness_score := py_round1 completeness_score;
     clarity_score := py_round1 clarity_score;
     readability_score := py_round1 readability_score;
     word_count := word_count;
     sentence_count := sentence_count;
     medical_term_count := medical_term_count;
     sections_identified := sections;
     assessment := _get_quality_assessment overall_score |}.

End Regex.

End MedicalNLP.

(** ** [computer_vision.py]: [MedicalImageProcessor], the arithmetic *)

Module ComputerVision.

Definition _calculate_overall_quality_score (contrast sharpness snr : Q) : Q :=
  let contrast_score := py_min 100 ((contrast / 64) * 100) in
  let sharpness_score := py_min 100 ((sharpness / 1000) * 100) in
  let snr_score := py_min 100 snr in
  contrast_score * (4 # 10) + sharpness_score * (4 # 10) + snr_score * (2 # 10).

Definition _get_quality_assessment (score : Q) : string :=
  if negb (Qltb score 85) then "Excellent"
  else if negb (Qltb score 75) then "Good"
  else if negb (Qltb score 65) then "Fair"
  else if negb (Qltb score 50) then "Poor"
  else "Very Poor".

Definition _assess_consolidation_severity (area : Q) : string :=
  if Qltb area 500 then "mild"
  else if Qltb area 1500 then "moderate"
  else "severe".

(** What [process_medical_image] returns: the record the reconciler reads,
    and the ['features'] dictionary (empty when [success] is false). *)
Record ProcessedImage := mkProcessedImage {
  pi_success : bool;
  pi_features : gmap string Q;
  pi_pathology_findings : list ImageFinding;
  pi_overall_quality_score : option Q
}.

End ComputerVision.

(** ** [run_analysis.py]: [ComprehensiveRadiologySystem] *)

Module RunAnalysis.

(** One result of [MedicalImageProcessor.process_medical_image]; a failed
    image is [{'success': False, 'error': ...}]. *)
Record ImageResult := mkImageResult {
  success : bool;
  pathology_findings : list ImageFinding;
  overall_quality_score : option Q
}.

Record Agreement := mkAgreement {
  text_finding : string;
  image_finding : string;
  confidence_text : Q;
  confidence_image : Q
}.

(** The [synonyms] dictionary of [_findings_match], in insertion order. *)
Definition synonyms : list (string * list string) :=
  [ ("pneumonia", ["consolidation"; "opacity"; "infiltrate"]);
    ("consolidation", ["pneumonia"; "opacity"]);
    ("opacity", ["consolidation"; "pneumonia"; "infiltrate"]);
    ("effusion", ["fluid"]);
    ("pneumothorax", ["air"; "collapse"]) ]%string.

(** The loop over [synonyms.items()]. *)
Fixpoint synonym_loop (syns : list (string * list string))
    (text_term image_term : string) : bool :=
  match syns with
  | [] => false
  | (term, synonym_list) :: rest =>
      if str_in term text_term
         && existsb (fun syn => str_in syn image_term) synonym_list
      then true
      else if str_in term image_term
              && existsb (fun syn => str_in syn text_term) synonym_list
      then true
      else synonym_loop rest text_term image_term
  end.

(** The body of [_findings_match] once the two terms are read. *)
Definition terms_match (text_term image_term : string) : bool :=
  if str_in text_term image_term || str_in image_term text_term then true
  else synonym_loop synonyms text_term image_term.

Definition _findings_match (tf : TextFinding) (imf : ImageFinding) : bool :=
  let text_term := lower (tf_finding tf) in
  let image_term := lower (if_type imf) in
  terms_match text_term image_term.

Definition severity_or_unknown (s : option string) : string :=
  default "unknown"%string s.

Definition false_positive_of (tf : TextFinding) : Discrepancy :=
  {| d_type := false_positive;
     d_description :=
       ("'" +:+ tf_finding tf
            +:+ "' mentioned in report but not detected in images")%string;
     d_severity := severity_or_unknown (tf_severity tf);
     d_confidence := 100 - tf_confidence tf;
     d_source := None |}.

Definition false_negative_of (imf : ImageFinding) : Discrepancy :=
  {| d_type := false_negative;
     d_description :=
       ("'" +:+ if_type imf
            +:+ "' detected in images but not mentioned in report")%string;
     d_severity := severity_or_unknown (if_severity imf);
     d_confidence := if_confidence imf;
     d_source := None |}.

Definition agreement_of (tf : TextFinding) (imf : ImageFinding) : Agreement :=
  {| text_finding := tf_finding tf;
     image_finding := if_type imf;
     confidence_text := tf_confidence tf;
     confidence_image := if_confidence imf |}.

(** Body of the first loop ([for text_finding in text_pathology]). *)
Definition text_step (image_pathology : list ImageFinding)
    (st : Lists Agreement) (tf : TextFinding) : Lists Agreement :=
  match List.find (_findings_match tf) image_pathology with
  | Some imf =>
      mkLists (acc_discrepancies st) (acc_agreements st ++ [agreement_of tf imf])
  | None =>
      mkLists (acc_discrepancies st ++ [false_positive_of tf]) (acc_agreements st)
  end.

(** Body of the second loop ([for img_finding in image_pathology]). *)
Definition image_step (text_pathology : list TextFinding)
    (st : Lists Agreement) (imf : ImageFinding) : Lists Agreement :=
  match List.find (fun tf => _findings_match tf imf) text_pathology with
  | Some _ => st
  | None =>
      mkLists (acc_discrepancies st ++ [false_negative_of imf]) (acc_agreements st)
  end.

(** [image_pathology]: the findings of the successful images, in order. *)
Definition collect_image_pathology (image_results : list ImageResult)
    : list ImageFinding :=
  fold_left
    (fun acc r => if success r then acc ++ pathology_findings r else acc)
    image_results [].

Definition _perform_cross_modal_analysis
    (nlp_results : list TextFinding) (image_results : list ImageResult)
    : Comparison Agreement :=
  let text_pathology := List.filter is_pathological nlp_results in
  let image_pathology := collect_image_pathology image_results in
  let st1 := fold_left (text_step image_pathology) text_pathology (mkLists [] []) in
  let st2 := fold_left (image_step text_pathology) image_pathology st1 in
  let total_findings := (length text_pathology + length image_pathology)%nat in
  let agreement_score :=
    (Qlen (acc_agreements st2) * 2
       / inject_Z (Z.of_nat (Nat.max total_findings 1))) * 100 in
  {| discrepancies := acc_discrepancies st2;
     agreements := acc_agreements st2;
     agreement_percentage := py_min 100 agreement_score;
     total_discrepancies := length (acc_discrepancies st2);
     cross_modal_confidence :=
       py_max 0 (100 - Qlen (acc_discrepancies st2) * 15) |}.

(** The keys of [MedicalNLP.assess_report_quality] the report reads. *)
Record ReportQuality := mkReportQuality {
  overall_score : Q;
  completeness_score : Q;
  clarity_score : Q
}.

(** [img.get('quality_metrics', {}).get('overall_quality_score', 100)] *)
Definition quality_score_or_100 (img : ImageResult) : Q :=
  default 100 (overall_quality_score img).

Definition any_image_quality_issue (image_results : list ImageResult) : bool :=
  existsb (fun img => Qltb (quality_score_or_100 img) 60)
          (List.filter success image_results).

(** The risk factors of [_generate_comprehensive_report]. *)
Definition report_risk_factors (report_quality : ReportQuality)
    (image_results : list ImageResult) (ml_analysis : MLModels.Analysis)
    (cross_modal_analysis : Comparison Agreement) : list string :=
  let risk_factors := [] in
  let risk_factors :=
    append_if
      (truthy (MLModels.pathology_analysis ml_analysis !! "has_pathology"%string))
      "ML detected pathology" risk_factors in
  let risk_factors :=
    append_if (0 <? total_discrepancies cross_modal_analysis)%nat
      "Cross-modal discrepancies found" risk_factors in
  let risk_factors :=
    append_if (Qltb (overall_score report_quality) 70)
      "Report quality issues" risk_factors in
  append_if (any_image_quality_issue image_results)
    "Image quality issues" risk_factors.

(** [overall_confidence] of [_generate_comprehensive_report], before the
    final [round(_, 1)]. *)
Definition report_overall_confidence (report_quality : ReportQuality)
    (ml_analysis : MLModels.Analysis)
    (cross_modal_analysis : Comparison Agreement) : Q :=
  let confidences :=
    [ MLModels.overall_confidence ml_analysis;
      cross_modal_confidence cross_modal_analysis / 100;
      overall_score report_quality / 100 ] in
  (Qsum confidences / Qlen confidences) * 100.

(** The risk and confidence entries of the report dictionary, with the
    reconciliation lists it copies. *)
Record Report := mkReport {
  risk_level : RiskLevel;
  confidence : Q;
  risk_factors : list string;
  report_discrepancies : list Discrepancy;
  report_agreements : list Agreement
}.

Definition _generate_comprehensive_report (report_quality : ReportQuality)
    (image_results : list ImageResult) (ml_analysis : MLModels.Analysis)
    (cross_modal_analysis : Comparison Agreement) : Report :=
  let risk_factors :=
    report_risk_factors report_quality image_results ml_analysis
                        cross_modal_analysis in
  let overall_risk := risk_by_count risk_factors in
  let overall_confidence :=
    report_overall_confidence report_quality ml_analysis cross_modal_analysis in
  {| risk_level := overall_risk;
     confidence := py_round1 overall_confidence;
     risk_factors := risk_factors;
     report_discrepancies := discrepancies cross_modal_analysis;
     report_agreements := agreements cross_modal_analysis |}.

(** *** Features, recommendations and the whole case *)

(** A dictionary of the text extractor as the reconciler reads it. *)
Definition to_text_finding (f : MedicalNLP.Finding) : TextFinding :=
  {| tf_type := Some (MedicalNLP.type f);
     tf_finding := MedicalNLP.finding f;
     tf_severity := MedicalNLP.severity f;
     tf_confidence := MedicalNLP.confidence f;
     tf_context := MedicalNLP.context f |}.

(** The report-quality dictionary as the report reads it. *)
Definition to_report_quality (q : MedicalNLP.ReportQuality) : ReportQuality :=
  {| overall_score := MedicalNLP.overall_score q;
     completeness_score := MedicalNLP.completeness_score q;
     clarity_score := MedicalNLP.clarity_score q |}.

(** An image dictionary as the reconciler reads it. *)
Definition to_image_result (img : ComputerVision.ProcessedImage) : ImageResult :=
  {| success := ComputerVision.pi_success img;
     pathology_findings := ComputerVision.pi_pathology_findings img;
     overall_quality_score := ComputerVision.pi_overall_quality_score img |}.

Definition _prepare_ml_features (nlp_results : list MedicalNLP.Finding)
    (report_quality : MedicalNLP.ReportQuality)
    (image_features : gmap string Q) (image_count : nat) : gmap string Q :=
  let pathological_findings :=
    List.filter (fun f => bool_decide (MedicalNLP.type f = "pathological"%string))
                nlp_results in
  let num (n : nat) : Q := inject_Z (Z.of_nat n) in
  list_to_map
    [ ("contrast", default 50 (image_features !! "mean_intensity"%string));
      ("brightness", default 128 (image_features !! "mean_intensity"%string));
      ("sharpness",
         default (75 # 100) (image_features !! "texture_score"%string) * 100);
      ("symmetry_score",
         default (8 # 10) (image_features !! "symmetry_score"%string));
      ("edge_density",
         default (1 # 10) (image_features !! "edge_density"%string));
      ("word_count", num (MedicalNLP.word_count report_quality));
      ("medical_term_count", num (MedicalNLP.medical_term_count report_quality));
      ("sentence_count", num (MedicalNLP.sentence_count report_quality));
      ("completeness_score", MedicalNLP.completeness_score report_quality);
      ("clarity_score", MedicalNLP.clarity_score report_quality);
      ("text_image_agreement",
         if (0 <? image_count)%nat then 8 # 10 else 5 # 10);
      ("finding_count_text", num (length pathological_findings));
      ("finding_count_image", num (image_count * 2)%nat);
      ("confidence_variance", 10) ]%string.

(** One round of the image loop of [_generate_recommendations]. *)
Definition image_recommendation_step (st : list string * nat)
    (img_result : ImageResult) : list string * nat :=
  (if success img_result && Qltb (quality_score_or_100 img_result) 60
   then fst st
          ++ [ "Image " +:+ str_of_nat (snd st + 1)
                 +:+ " quality suboptimal - consider repeat imaging" ]
   else fst st,
   S (snd st)).

Definition _generate_recommendations (ml_analysis : MLModels.Analysis)
    (cross_modal_analysis : Comparison Agreement)
    (report_quality : ReportQuality) (image_results : list ImageResult)
    : list string :=
  let recommendations := [] in
  let recommendations :=
    append_if
      (truthy (MLModels.pathology_analysis ml_analysis !! "has_pathology"%string))
      "ML models suggest pathology present - clinical correlation recommended"
      recommendations in
  let recommendations :=
    append_if
      (get_is_str (MLModels.severity_analysis ml_analysis !! "severity"%string)
                  "severe")
      "Severe findings detected - urgent clinical review recommended"
      recommendations in
  let recommendations :=
    append_if (0 <? total_discrepancies cross_modal_analysis)%nat
      (str_of_nat (total_discrepancies cross_modal_analysis)
         +:+ " discrepancies found between image and text - manual review required")
      recommendations in
  let recommendations :=
    append_if (Qltb (overall_score report_quality) 70)
      "Report quality below optimal - consider revision for clarity"
      recommendations in
  let recommendations :=
    fst (fold_left image_recommendation_step image_results
           (recommendations, 0%nat)) in
  let recommendations :=
    append_if (is_nil recommendations)
      "Analysis shows good correlation between findings - routine follow-up as clinically indicated"
      recommendations in
  recommendations
    ++ ["All AI findings require radiologist verification before clinical use"%string].

(** The scores [_get_average_image_quality] averages: those of the
    successful images that carry one. *)
Definition image_quality_scores (image_results : list ImageResult) : list Q :=
  fold_left
    (fun quality_scores img_result =>
       if success img_result
       then match overall_quality_score img_result with
            | Some score => quality_scores ++ [score]
            | None => quality_scores
            end
       else quality_scores)
    image_results [].

Definition _get_average_image_quality (image_results : list ImageResult)
    : option Q :=
  let quality_scores := image_quality_scores image_results in
  if is_nil quality_scores then None
  else Some (Qsum quality_scores / Qlen quality_scores).

Definition image_confidences (image_results : list ImageResult) : list Q :=
  fold_left
    (fun confidences img_result =>
       if success img_result
       then fold_left (fun confidences finding => confidences ++ [if_confidence finding])
                      (pathology_findings img_result) confidences
       else confidences)
    image_results [].

Definition _get_average_image_confidence (image_results : list ImageResult) : Q :=
  let confidences := image_confidences image_results in
  if is_nil confidences then 0 else Qsum confidences / Qlen confidences.

(** One entry of [_format_false_findings]. *)
Record FalseFinding := mkFalseFinding {
  ff_finding : string;
  ff_likelihood : string;
  ff_reasoning : string;
  ff_source : string;
  ff_ml_confidence : Q
}.

Definition type_name (t : DiscrepancyType) : string :=
  match t with
  | false_positive => "false_positive"
  | false_negative => "false_negative"
  end.

Definition _format_false_findings (cross_modal_analysis : Comparison Agreement)
    : list FalseFinding :=
  fold_left
    (fun false_findings discrepancy =>
       false_findings
         ++ [ {| ff_finding := d_description discrepancy;
                 ff_likelihood := capitalize (d_severity discrepancy);
                 ff_reasoning :=
                   "Cross-modal analysis detected "
                     +:+ replace_char "_" " " (type_name (d_type discrepancy));
                 ff_source := "cross_modal_comparison";
                 ff_ml_confidence := d_confidence discrepancy |} ])
    (discrepancies cross_modal_analysis) [].

Definition _generate_executive_summary (pathological_findings : list string)
    (image_findings : list string)
    (cross_modal_analysis : Comparison Agreement)
    (ml_analysis : MLModels.Analysis) : string :=
  let summary_parts := [] in
  let summary_parts :=
    if is_nil pathological_findings
    then summary_parts ++ ["No pathological findings identified in text"%string]
    else summary_parts
           ++ [ "Text analysis identified "
                  +:+ str_of_nat (length pathological_findings)
                  +:+ " pathological findings" ] in
  let summary_parts :=
    if is_nil image_findings
    then summary_parts ++ ["No obvious abnormalities detected in images"%string]
    else summary_parts
           ++ [ "Computer vision detected "
                  +:+ str_of_nat (length image_findings)
                  +:+ " potential abnormalities" ] in
  let summary_parts :=
    if truthy (MLModels.pathology_analysis ml_analysis !! "has_pathology"%string)
    then summary_parts ++ ["ML models confirm pathology presence"%string]
    else summary_parts ++ ["ML models suggest normal findings"%string] in
  let discrepancy_count := total_discrepancies cross_modal_analysis in
  let summary_parts :=
    if (0 <? discrepancy_count)%nat
    then summary_parts
           ++ [ str_of_nat discrepancy_count
                  +:+ " discrepancies found requiring review" ]
    else summary_parts
           ++ ["Good correlation between all analysis methods"%string] in
  String.concat ". " summary_parts +:+ ".".

(** The report of one case: the entries of [Report] with the
    recommendations, the formatted discrepancies, the summary and the
    counts. *)
Record CaseReport := mkCaseReport {
  cr_report : Report;
  cr_recommendations : list string;
  cr_potential_false_findings : list FalseFinding;
  cr_summary : string;
  cr_pathological_findings : list string;
  cr_normal_findings : list string;
  cr_image_findings : list string;
  cr_image_quality : option Q;
  cr_image_analysis_confidence : Q;
  cr_image_count : nat;
  cr_nlp_findings_count : nat
}.

Section System.

Context {Model Scaler TrainingData : Type}.
Variable transform : Scaler -> list Q -> list Q.
Variable predict : Model -> list Q -> nat.
Variable predict_proba : Model -> list Q -> list Q.
Variable generate_synthetic_training_data : nat -> TrainingData.
Variable training_feature_names : TrainingData -> list string.
Variable fit_scaler : Scaler -> TrainingData -> string -> Scaler.
Variable fit_model : Model -> Scaler -> TrainingData -> string -> Model.
Variable format_percent : Q -> string.
Variable format_value : pyval -> string.
Variable re_sub : string -> string -> string -> string.
Variable re_split : string -> string -> list string.
Variable re_search : string -> string -> option string.
(** [MedicalImageProcessor.process_medical_image]: decoding and OpenCV are
    external; the method catches every exception and then returns a record
    whose [success] is false. *)
Variable process_medical_image : string -> ComputerVision.ProcessedImage.

Abbreviation M := (MLModels.M Model Scaler).

(** The image loop of [analyze_complete_case]: [image_results] and
    [all_image_features]. *)
Definition image_loop_step
    (st : list ComputerVision.ProcessedImage * gmap string (list Q))
    (image_data : string)
    : list ComputerVision.ProcessedImage * gmap string (list Q) :=
  let img_result := process_medical_image image_data in
  (fst st ++ [img_result],
   if ComputerVision.pi_success img_result
   then union_with (fun old new => Some (old ++ new)) (snd st)
          ((fun value => [value]) <$> ComputerVision.pi_features img_result)
   else snd st).

Definition average_features (all_image_features : gmap string (list Q))
    : gmap string Q :=
  (fun values => if is_nil values then 0 else Qsum values / Qlen values)
    <$> all_image_features.

(** The report [_generate_comprehensive_report] builds, with the entries
    left out of [Report]. *)
Definition full_report (nlp_results : list MedicalNLP.Finding)
    (report_quality : MedicalNLP.ReportQuality)
    (image_results : list ImageResult) (ml_analysis : MLModels.Analysis)
    (cross_modal_analysis : Comparison Agreement) : CaseReport :=
  let names_of (t : string) :=
    List.map MedicalNLP.finding
      (List.filter (fun f => bool_decide (MedicalNLP.type f = t)) nlp_results) in
  let pathological_findings := names_of "pathological"%string in
  let normal_findings := names_of "normal"%string in
  let all_image_findings :=
    List.map if_description (collect_image_pathology image_results) in
  {| cr_report :=
       _generate_comprehensive_report (to_report_quality report_quality)
         image_results ml_analysis cross_modal_analysis;
     cr_recommendations :=
       _generate_recommendations ml_analysis cross_modal_analysis
         (to_report_quality report_quality) image_results;
     cr_potential_false_findings := _format_false_findings cross_modal_analysis;
     cr_summary :=
       _generate_executive_summary pathological_findings all_image_findings
         cross_modal_analysis ml_analysis;
     cr_pathological_findings := pathological_findings;
     cr_normal_findings := normal_findings;
     cr_image_findings := all_image_findings;
     cr_image_quality := _get_average_image_quality image_results;
     cr_image_analysis_confidence := _get_average_image_confidence image_results;
     cr_image_count := length image_results;
     cr_nlp_findings_count := length nlp_results |}.

(** [analyze_complete_case]; [images] is [None] when the argument is left
    out.  [len(images)] raises [TypeError] on [None]. *)
Definition analyze_complete_case (report_text : string)
    (images : option (list string)) : M CaseReport :=
  let nlp_results :=
    MedicalNLP.extract_clinical_findings re_sub re_split re_search report_text in
  let report_quality :=
    MedicalNLP.assess_report_quality re_sub re_split report_text in
  let '(image_results, all_image_features) :=
    if negb (is_nil (default [] images))
    then fold_left image_loop_step (default [] images) ([], ∅)
    else ([], ∅) in
  let avg_image_features := average_features all_image_features in
  match images with
  | None => MLModels.raise Model Scaler "TypeError"
  | Some l =>
      let ml_features :=
        _prepare_ml_features nlp_results report_quality avg_image_features
          (length l) in
      MLModels.bind Model Scaler
        (MLModels.comprehensive_analysis transform predict predict_proba
           generate_synthetic_training_data training_feature_names fit_scaler
           fit_model format_percent format_value ml_features)
        (fun ml_analysis =>
           let image_results := List.map to_image_result image_results in
           let cross_modal_analysis :=
             _perform_cross_modal_analysis
               (List.map to_text_finding nlp_results) image_results in
           MLModels.ret Model Scaler
             (full_report nlp_results report_quality image_results ml_analysis
                cross_modal_analysis))
  end.

End System.

End RunAnalysis.

(** ** [main.py]: [RadiologyAnalyzer] *)

Module Main.

Record Agreement := mkAgreement {
  finding : string;
  text_confidence : Q;
  image_confidence : Q
}.

(** The test both loops of [compare_image_and_text] apply to a pair. *)
Definition terms_match (text_term image_term : string) : bool :=
  str_in text_term image_term || str_in image_term text_term.

Definition findings_match (tf : TextFinding) (imf : ImageFinding) : bool :=
  terms_match (lower (tf_finding tf)) (lower (if_type imf)).

Definition false_positive_of (tf : TextFinding) : Discrepancy :=
  {| d_type := false_positive;
     d_description :=
       ("'" +:+ tf_finding tf
            +:+ "' mentioned in report but not detected in image")%string;
     d_severity := "medium";
     d_confidence := 100 - tf_confidence tf;
     d_source := Some "text_only"%string |}.

Definition false_negative_of (imf : ImageFinding) : Discrepancy :=
  {| d_type := false_negative;
     d_description :=
       ("'" +:+ if_type imf
            +:+ "' detected in image but not mentioned in report")%string;
     d_severity := "high";
     d_confidence := if_confidence imf;
     d_source := Some "image_only"%string |}.

Definition agreement_of (tf : TextFinding) (imf : ImageFinding) : Agreement :=
  {| finding := tf_finding tf;
     text_confidence := tf_confidence tf;
     image_confidence := if_confidence imf |}.

(** Body of the first loop.  [matching_image_finding] is a dictionary that
    holds the key ['type'], so [not matching_image_finding] is true exactly
    when the inner loop found nothing. *)
Definition text_step (image_findings : list ImageFinding)
    (st : Lists Agreement) (tf : TextFinding) : Lists Agreement :=
  match List.find (findings_match tf) image_findings with
  | None =>
      mkLists (acc_discrepancies st ++ [false_positive_of tf]) (acc_agreements st)
  | Some imf =>
      mkLists (acc_discrepancies st) (acc_agreements st ++ [agreement_of tf imf])
  end.

(** Body of the second loop. *)
Definition image_step (text_pathology : list TextFinding)
    (st : Lists Agreement) (imf : ImageFinding) : Lists Agreement :=
  match List.find (fun tf => findings_match tf imf) text_pathology with
  | None =>
      mkLists (acc_discrepancies st ++ [false_negative_of imf]) (acc_agreements st)
  | Some _ => st
  end.

Definition compare_image_and_text
    (image_findings : list ImageFinding) (text_findings : list TextFinding)
    : Comparison Agreement :=
  let text_pathology := List.filter is_pathological text_findings in
  let st1 := fold_left (text_step image_findings) text_pathology (mkLists [] []) in
  let st2 := fold_left (image_step text_pathology) image_findings st1 in
  let total_findings := (length text_pathology + length image_findings)%nat in
  let agreement_percentage :=
    if (0 <? total_findings)%nat
    then (Qlen (acc_agreements st2) * 2
            / inject_Z (Z.of_nat (Nat.max total_findings 1))) * 100
    else 100 in
  {| discrepancies := acc_discrepancies st2;
     agreements := acc_agreements st2;
     agreement_percentage := py_round1 agreement_percentage;
     total_discrepancies := length (acc_discrepancies st2);
     cross_modal_confidence :=
       py_round1 (100 - Qlen (acc_discrepancies st2) * 15) |}.

(** [_assess_report_completeness] result, the keys read downstream. *)
Record Completeness := mkCompleteness {
  score : Q;
  sections_missing : list string
}.

(** One entry of [_detect_text_inconsistencies]. *)
Record Inconsistency := mkInconsistency {
  i_type : string;
  i_description : string
}.

(** The dictionary of [analyze_report_text]. *)
Record TextAnalysis := mkTextAnalysis {
  findings : list TextFinding;
  completeness : Completeness;
  inconsistencies : list Inconsistency;
  confidence : Q
}.

(** [_calculate_image_quality] result. *)
Record QualityMetrics := mkQualityMetrics {
  contrast : Q;
  brightness : Q;
  sharpness : Q;
  overall_quality : Q
}.

(** The dictionary of [preprocess_medical_image]; [quality_metrics] is the
    empty dictionary ([None]) when preprocessing failed. *)
Record ImageAnalysis := mkImageAnalysis {
  quality_metrics : option QualityMetrics;
  pathology_findings : list ImageFinding;
  processed_successfully : bool
}.

(** [img_analysis.get('quality_metrics', {}).get('overall_quality', 100)] *)
Definition overall_quality_or_100 (img_analysis : ImageAnalysis) : Q :=
  match quality_metrics img_analysis with
  | Some qm => overall_quality qm
  | None => 100
  end.

(** The image loop of [_calculate_risk_level]. *)
Definition image_risk_step (risk_score : Z) (img_analysis : ImageAnalysis) : Z :=
  if Qltb (overall_quality_or_100 img_analysis) 60
  then (risk_score + 20)%Z else risk_score.

Definition risk_score_of (comparison_result : Comparison Agreement)
    (text_analysis : TextAnalysis) (image_analysis : list ImageAnalysis) : Z :=
  let risk_score := 0%Z in
  let risk_score :=
    (risk_score + Z.of_nat (length (discrepancies comparison_result)) * 20)%Z in
  let risk_score :=
    (risk_score + Z.of_nat (length (inconsistencies text_analysis)) * 15)%Z in
  let risk_score :=
    if Qltb (score (completeness text_analysis)) 70
    then (risk_score + 25)%Z else risk_score in
  fold_left image_risk_step image_analysis risk_score.

Definition _calculate_risk_level (comparison_result : Comparison Agreement)
    (text_analysis : TextAnalysis) (image_analysis : list ImageAnalysis)
    : RiskLevel :=
  let risk_score := risk_score_of comparison_result text_analysis image_analysis in
  if (60 <=? risk_score)%Z then high
  else if (30 <=? risk_score)%Z then medium
  else low.

(** The image loop of [_calculate_overall_confidence]. *)
Definition confidence_step (confidences : list Q) (img_analysis : ImageAnalysis)
    : list Q :=
  match quality_metrics img_analysis with
  | Some qm => confidences ++ [overall_quality qm]
  | None => confidences
  end.

Definition _calculate_overall_confidence (text_analysis : TextAnalysis)
    (image_analysis : list ImageAnalysis)
    (comparison_result : Comparison Agreement) : Q :=
  let confidences :=
    fold_left confidence_step image_analysis [confidence text_analysis] in
  let base_confidence :=
    match confidences with
    | [] => 70
    | _ :: _ => mean confidences
    end in
  let agreement_bonus := agreement_percentage comparison_result * (2 # 10) in
  py_min 95
    (py_max 30
       (base_confidence + agreement_bonus
        - Qlen (discrepancies comparison_result) * 5)).

(** *** Report text analysis *)

Definition technical_terms : list string :=
  [ "radiograph"; "opacity"; "consolidation"; "pneumonia"; "effusion";
    "pneumothorax"; "atelectasis"; "cardiomegaly"; "infiltrate";
    "nodule"; "mass"; "lesion"; "fracture"; "dislocation" ]%string.

Definition _count_technical_terms (text : string) : nat :=
  count_terms technical_terms text.

Definition _calculate_text_confidence (text : string) : Q :=
  let confidence := 70 in
  let word_count := length (split_ws text) in
  let confidence :=
    if (50 <? word_count)%nat then confidence + 10
    else if (word_count <? 20)%nat then confidence - 15
    else confidence in
  let confidence :=
    if existsb (fun section => str_in section (lower text))
               ["findings:"; "impression:"; "technique:"]%string
    then confidence + 10 else confidence in
  let medical_terms :=
    ["radiograph"; "opacity"; "consolidation"; "pneumonia"; "effusion"]%string in
  let term_count := count_terms medical_terms (lower text) in
  let confidence := confidence + inject_Z (Z.of_nat term_count) * 2 in
  py_min 95 (py_max 30 confidence).

(** The [required_sections] table of [_assess_report_completeness]. *)
Definition required_sections : list (string * list string) :=
  [ ("chest-xray", ["clinical history"; "technique"; "findings"; "impression"]);
    ("ct-scan", ["clinical history"; "technique"; "findings"; "impression"]);
    ("mri", ["clinical history"; "technique"; "findings"; "impression"]) ]%string.

(** [d.get(k)] on a dictionary held as an association list. *)
Fixpoint assoc {V : Type} (k : string) (d : list (string * V)) : option V :=
  match d with
  | [] => None
  | (k', v) :: rest => if bool_decide (k' = k) then Some v else assoc k rest
  end.

(** All the keys of the dictionary [_assess_report_completeness] returns. *)
Record CompletenessReport := mkCompletenessReport {
  cr_score : Q;
  cr_sections_found : list string;
  cr_sections_missing : list string;
  cr_assessment : string
}.

(** One round of the loop over the required sections: the state is the pair
    ([sections_found], [sections_missing]). *)
Definition section_step (text : string) (st : list string * list string)
    (section : string) : list string * list string :=
  if str_in section text || str_in (remove_char " " section) text
  then (fst st ++ [section], snd st)
  else (fst st, snd st ++ [section]).

Definition _assess_report_completeness (text study_type : string)
    : CompletenessReport :=
  let st :=
    match assoc study_type required_sections with
    | Some sections => fold_left (section_step text) sections ([], [])
    | None => ([], [])
    end in
  let completeness_score :=
    Qlen (fst st)
      / Qlen (default ["findings"%string] (assoc study_type required_sections))
      * 100 in
  {| cr_score := py_round1 completeness_score;
     cr_sections_found := fst st;
     cr_sections_missing := snd st;
     cr_assessment :=
       if Qltb completeness_score 80 then "Incomplete" else "Complete" |}.

(** The two keys of that dictionary the analysis reads later. *)
Definition completeness_of (r : CompletenessReport) : Completeness :=
  {| score := cr_score r; sections_missing := cr_sections_missing r |}.

(** One round of the loop over [text.split('.')]. *)
Definition sentence_step (acc : list Inconsistency) (sentence : string)
    : list Inconsistency :=
  if (str_len (strip sentence) <? 10)%nat && negb (is_empty (strip sentence))
  then acc ++ [ {| i_type := "incomplete_sentence";
                   i_description :=
                     "Potentially incomplete sentence: " +:+ dquote
                       +:+ strip sentence +:+ dquote |} ]
  else acc.

Definition _detect_text_inconsistencies (text : string) : list Inconsistency :=
  let inconsistencies := [] in
  let inconsistencies :=
    if str_in "normal" text
       && existsb (fun term => str_in term text)
                  ["pneumonia"; "consolidation"; "opacity"]%string
    then inconsistencies
           ++ [ {| i_type := "contradiction";
                   i_description :=
                     "Report mentions both normal findings and pathology" |} ]
    else inconsistencies in
  let sentences := split_on "." text in
  fold_left sentence_step sentences inconsistencies.

(** The [pathology_terms] table of [_extract_findings_from_text]: term,
    severity, location. *)
Definition pathology_terms : list (string * (string * string)) :=
  [ ("pneumonia", ("moderate", "lung"));
    ("consolidation", ("moderate", "lung"));
    ("opacity", ("mild", "lung"));
    ("effusion", ("moderate", "pleural space"));
    ("pneumothorax", ("high", "pleural space"));
    ("fracture", ("high", "bone"));
    ("nodule", ("moderate", "lung"));
    ("mass", ("high", "various")) ]%string.

Definition normal_terms : list (string * Q) :=
  [ ("normal", 95); ("clear", 90); ("unremarkable", 92); ("intact", 88) ]%string.

Section TextExtraction.

(** [randint k] is the value the [k]-th call of [np.random.randint(-10, 15)]
    returns in the run at hand. *)
Variable randint : nat -> Z.

(** One round of the loop over [pathology_terms]; the state is the list of
    findings and the number of random draws made so far. *)
Definition pathology_step (text : string) (st : list TextFinding * nat)
    (entry : string * (string * string)) : list TextFinding * nat :=
  let '(term, (severity, location)) := entry in
  if str_in term text
  then (fst st
          ++ [ {| tf_type := Some "pathological"%string;
                  tf_finding := capitalize term;
                  tf_severity := Some severity;
                  tf_confidence := 85 + inject_Z (randint (snd st));
                  tf_context := ""%string |} ],
        S (snd st))
  else st.

Definition normal_step (text : string) (acc : list TextFinding)
    (entry : string * Q) : list TextFinding :=
  let '(term, confidence) := entry in
  if str_in term text
  then acc ++ [ {| tf_type := Some "normal"%string;
                   tf_finding := capitalize term +:+ " appearance";
                   tf_severity := None;
                   tf_confidence := confidence;
                   tf_context := ""%string |} ]
  else acc.

(** [_extract_findings_from_text], started after [draws] random draws; it
    returns the findings and the number of draws made. *)
Definition _extract_findings_from_text (text : string) (draws : nat)
    : list TextFinding * nat :=
  let st := fold_left (pathology_step text) pathology_terms ([], draws) in
  (fold_left (normal_step text) normal_terms (fst st), snd st).

(** The dictionary of [analyze_report_text] with all its keys. *)
Record ReportAnalysis := mkReportAnalysis {
  ra_analysis : TextAnalysis;
  ra_completeness : CompletenessReport;
  ra_word_count : nat;
  ra_technical_terms : nat
}.

Definition analyze_report_text (report_text study_type : string) (draws : nat)
    : ReportAnalysis * nat :=
  let text_lower := lower report_text in
  let '(findings, draws') := _extract_findings_from_text text_lower draws in
  let completeness := _assess_report_completeness text_lower study_type in
  let inconsistencies := _detect_text_inconsistencies text_lower in
  let text_confidence := _calculate_text_confidence report_text in
  ({| ra_analysis :=
        {| findings := findings;
           completeness := completeness_of completeness;
           inconsistencies := inconsistencies;
           confidence := text_confidence |};
      ra_completeness := completeness;
      ra_word_count := length (split_ws report_text);
      ra_technical_terms := _count_technical_terms text_lower |},
   draws').

End TextExtraction.

(** *** Recommendations and averages *)

(** One round of the image loop of [_generate_recommendations]; the state
    is the list of recommendations and the index [i] of [enumerate]. *)
Definition image_recommendation_step (st : list string * nat)
    (img_analysis : ImageAnalysis) : list string * nat :=
  (if Qltb (overall_quality_or_100 img_analysis) 70
   then fst st
          ++ [ "Image " +:+ str_of_nat (snd st + 1)
                 +:+ " quality may affect diagnostic accuracy - consider repeat imaging" ]
   else fst st,
   S (snd st)).

Definition _generate_recommendations (comparison_result : Comparison Agreement)
    (text_analysis : TextAnalysis) (image_analysis : list ImageAnalysis)
    : list string :=
  let recommendations := [] in
  let recommendations :=
    append_if (negb (is_nil (discrepancies comparison_result)))
      "Manual review recommended due to detected discrepancies between image and text"
      recommendations in
  let recommendations :=
    append_if (Qltb (score (completeness text_analysis)) 80)
      ("Report appears incomplete - missing: "
         +:+ String.concat ", " (sections_missing (completeness text_analysis)))
      recommendations in
  let recommendations :=
    append_if (negb (is_nil (inconsistencies text_analysis)))
      "Review report for internal inconsistencies" recommendations in
  let recommendations :=
    fst (fold_left image_recommendation_step image_analysis
           (recommendations, 0%nat)) in
  let recommendations :=
    append_if (is_nil recommendations)
      "Analysis shows good correlation between image and text findings"
      recommendations in
  recommendations ++ ["Consider clinical correlation for final diagnosis"%string].

(** The loop both averages share: the quality scores that are there. *)
Definition quality_scores (image_analysis : list ImageAnalysis) : list Q :=
  fold_left confidence_step image_analysis [].

(** [_get_average_image_quality]; [None] is Python's [None]. *)
Definition _get_average_image_quality (image_analysis : list ImageAnalysis)
    : option Q :=
  if is_nil image_analysis then None
  else
    let quality_scores := quality_scores image_analysis in
    if is_nil quality_scores then None else Some (mean quality_scores).

Definition finding_confidences (image_analysis : list ImageAnalysis) : list Q :=
  fold_left
    (fun confidences img_analysis =>
       fold_left (fun confidences finding => confidences ++ [if_confidence finding])
                 (pathology_findings img_analysis) confidences)
    image_analysis [].

Definition _get_average_image_confidence (image_analysis : list ImageAnalysis)
    : Q :=
  if is_nil image_analysis then 0
  else
    let confidences := finding_confidences image_analysis in
    if is_nil confidences then 0 else mean confidences.

(** One entry of [_format_potential_false_findings]. *)
Record FalseFinding := mkFalseFinding {
  ff_finding : string;
  ff_likelihood : string;
  ff_reasoning : string;
  ff_source : string;
  ff_ml_confidence : Q
}.

(** The value of the key ['type'] of a discrepancy. *)
Definition type_name (t : DiscrepancyType) : string :=
  match t with
  | false_positive => "false_positive"
  | false_negative => "false_negative"
  end.

Definition _format_potential_false_findings
    (comparison_result : Comparison Agreement) : list FalseFinding :=
  fold_left
    (fun false_findings discrepancy =>
       false_findings
         ++ [ {| ff_finding := d_description discrepancy;
                 ff_likelihood := capitalize (d_severity discrepancy);
                 ff_reasoning :=
                   "Discrepancy detected: "
                     +:+ replace_char "_" " " (type_name (d_type discrepancy));
                 ff_source := default "comparison"%string (d_source discrepancy);
                 ff_ml_confidence := d_confidence discrepancy |} ])
    (discrepancies comparison_result) [].

Definition _generate_analysis_summary (text_analysis : TextAnalysis)
    (image_analysis : list ImageAnalysis)
    (comparison_result : Comparison Agreement) : string :=
  let summary_parts := [] in
  let finding_count :=
    length (List.filter is_pathological (findings text_analysis)) in
  let summary_parts :=
    summary_parts
      ++ [ "Text analysis identified " +:+ str_of_nat finding_count
             +:+ " pathological findings" ] in
  let summary_parts :=
    if is_nil image_analysis then summary_parts
    else
      let total_image_findings :=
        fold_left (fun n img => (n + length (pathology_findings img))%nat)
                  image_analysis 0%nat in
      summary_parts
        ++ [ "Image analysis detected " +:+ str_of_nat total_image_findings
               +:+ " potential abnormalities" ] in
  let discrepancy_count := length (discrepancies comparison_result) in
  let summary_parts :=
    if (0 <? discrepancy_count)%nat
    then summary_parts
           ++ [ str_of_nat discrepancy_count
                  +:+ " discrepancies found between image and text" ]
    else summary_parts
           ++ [ "Good correlation between image and text findings"%string ] in
  String.concat ". " summary_parts +:+ ".".

(** *** The whole analysis *)

(** The entries of the dictionary [generate_comprehensive_analysis] returns,
    but for the echoed arguments, the clock entries and the comparison
    sentence (which formats a float). *)
Record AnalysisResult := mkAnalysisResult {
  ar_analysis_type : string;
  ar_report_completeness : string;
  ar_summary : string;
  ar_risk_level : RiskLevel;
  ar_confidence : Q;
  ar_findings : list string;
  ar_image_findings : list string;
  ar_discrepancies : list Discrepancy;
  ar_text_analysis_confidence : Q;
  ar_image_analysis_confidence : Q;
  ar_cross_modal_agreement : Q;
  ar_image_quality : option Q;
  ar_recommendations : list string;
  ar_potential_false_findings : list FalseFinding;
  ar_image_count : nat
}.

Section Analyzer.

Variable randint : nat -> Z.
(** [preprocess_medical_image]: decoding and OpenCV are external; the method
    catches every exception and then returns a record with
    [processed_successfully] false. *)
Variable preprocess_medical_image : string -> ImageAnalysis.

(** The image loop: [image_analysis] and [all_image_findings]. *)
Definition image_loop_step (st : list ImageAnalysis * list ImageFinding)
    (image_data : string) : list ImageAnalysis * list ImageFinding :=
  let img_result := preprocess_medical_image image_data in
  (fst st ++ [img_result],
   if processed_successfully img_result
   then snd st ++ pathology_findings img_result else snd st).

(** The state of the analyzer: [analysis_history] and the number of random
    draws made. *)
Record Analyzer := mkAnalyzer {
  analysis_history : list AnalysisResult;
  draws : nat
}.

(** [f.get('finding')] is true for a finding whose name is not empty. *)
Definition finding_names (fs : list TextFinding) : list string :=
  List.map tf_finding (List.filter (fun f => negb (is_empty (tf_finding f))) fs).

Definition generate_comprehensive_analysis (study_type report_text : string)
    (images : option (list string)) (self : Analyzer)
    : AnalysisResult * Analyzer :=
  let '(report, draws') :=
    analyze_report_text randint report_text study_type (draws self) in
  let text_analysis := ra_analysis report in
  let given := negb (is_nil (default [] images)) in
  let '(image_analysis, all_image_findings) :=
    if given
    then fold_left image_loop_step (default [] images) ([], [])
    else ([], []) in
  let comparison_result :=
    compare_image_and_text all_image_findings (findings text_analysis) in
  let risk_level :=
    _calculate_risk_level comparison_result text_analysis image_analysis in
  let recommendations :=
    _generate_recommendations comparison_result text_analysis image_analysis in
  let overall_confidence :=
    _calculate_overall_confidence text_analysis image_analysis
      comparison_result in
  let analysis_result :=
    {| ar_analysis_type :=
         if given then "multimodal_deep_learning" else "text_only_nlp";
       ar_report_completeness := cr_assessment (ra_completeness report);
       ar_summary :=
         _generate_analysis_summary text_analysis image_analysis
           comparison_result;
       ar_risk_level := risk_level;
       ar_confidence := overall_confidence;
       ar_findings := finding_names (findings text_analysis);
       ar_image_findings := List.map if_description all_image_findings;
       ar_discrepancies := discrepancies comparison_result;
       ar_text_analysis_confidence := confidence text_analysis;
       ar_image_analysis_confidence :=
         _get_average_image_confidence image_analysis;
       ar_cross_modal_agreement := agreement_percentage comparison_result;
       ar_image_quality :=
         if is_nil image_analysis then None
         else _get_average_image_quality image_analysis;
       ar_recommendations := recommendations;
       ar_potential_false_findings :=
         _format_potential_false_findings comparison_result;
       ar_image_count := length (default [] images) |} in
  (analysis_result,
   {| analysis_history := analysis_history self ++ [analysis_result];
      draws := draws' |}).

End Analyzer.

End Main.

(** ** Vocabulary of the specification

    The quantities the specification names, written as the specification
    writes them; the code is compared with them below. *)

(** Text findings for which no image finding matches, and conversely. *)
Definition unmatched_text (matches : TextFinding -> ImageFinding -> bool)
    (image : list ImageFinding) (text : list TextFinding) : list TextFinding :=
  List.filter (fun tf => negb (existsb (matches tf) image)) text.

Definition unmatched_image (matches : TextFinding -> ImageFinding -> bool)
    (text : list TextFinding) (image : list ImageFinding) : list ImageFinding :=
  List.filter (fun imf => negb (existsb (fun tf => matches tf imf) text)) image.

(** The agreements: each text finding with the first image finding that
    matches it. *)
Definition first_matches {A : Type}
    (matches : TextFinding -> ImageFinding -> bool)
    (agree : TextFinding -> ImageFinding -> A)
    (image : list ImageFinding) (text : list TextFinding) : list A :=
  omap (fun tf => agree tf <$> List.find (matches tf) image) text.

(** [(2 × |agreements|) / max(|text| + |image|, 1) × 100] *)
Definition agreement_ratio (n_agreements n_text n_image : nat) : Q :=
  inject_Z (2 * Z.of_nat n_agreements)
    / inject_Z (Z.max (Z.of_nat n_text + Z.of_nat n_image) 1) * 100.

Definition spec_agreement_percentage (n_agreements n_text n_image : nat) : Q :=
  Qmin 100 (agreement_ratio n_agreements n_text n_image).

(** [max(0, 100 − 15 × |discrepancies|)] *)
Definition spec_cross_modal_confidence (n_discrepancies : nat) : Q :=
  Qmax 0 (100 - 15 * inject_Z (Z.of_nat n_discrepancies)).

Definition clamp (lo hi x : Q) : Q := Qmin hi (Qmax lo x).

(** Mean of the inputs plus [0.2 × agreement] minus [5 × |discrepancies|],
    clamped to [30, 95]. *)
Definition spec_overall_confidence (inputs : list Q) (agreement : Q)
    (n_discrepancies : nat) : Q :=
  clamp 30 95
    (mean inputs + (2 # 10) * agreement
     - 5 * inject_Z (Z.of_nat n_discrepancies)).

(** The weighted risk score and its thresholds. *)
Definition spec_risk_score (n_discrepancies n_inconsistencies : nat)
    (incomplete : bool) (n_poor_images : nat) : Z :=
  (20 * Z.of_nat n_discrepancies + 15 * Z.of_nat n_inconsistencies
   + (if incomplete then 25 else 0) + 20 * Z.of_nat n_poor_images)%Z.

Definition spec_risk_level (risk_score : Z) : RiskLevel :=
  if (60 <=? risk_score)%Z then high
  else if (30 <=? risk_score)%Z then medium
  else low.

(** The image-quality scores that are available in [main.py]: one per image
    whose [quality_metrics] is not empty. *)
Definition available_image_qualities (image_analysis : list Main.ImageAnalysis)
    : list Q :=
  omap (fun img => Main.overall_quality <$> Main.quality_metrics img)
       image_analysis.

(** The image analyses that carry quality metrics with an overall quality
    below 60; an analysis without quality metrics is not one of them. *)
Definition poor_images (image_analysis : list Main.ImageAnalysis)
    : list Main.ImageAnalysis :=
  List.filter
    (fun img =>
       match Main.quality_metrics img with
       | Some qm => Qltb (Main.overall_quality qm) 60
       | None => false
       end)
    image_analysis.

(** Sample findings used in the examples below. *)
Definition sample_text (term severity : string) (conf : Q) : TextFinding :=
  {| tf_type := Some "pathological"%string; tf_finding := term;
     tf_severity := Some severity; tf_confidence := conf;
     tf_context := ""%string |}.

Definition sample_image (term severity : string) (conf : Q) : ImageFinding :=
  {| if_type := term; if_severity := Some severity; if_confidence := conf;
     if_description := ""%string |}.

Definition sample_result (l : list ImageFinding) : RunAnalysis.ImageResult :=
  {| RunAnalysis.success := true; RunAnalysis.pathology_findings := l;
     RunAnalysis.overall_quality_score := Some 80 |}.

(** Sample inputs of the report: seven unmatched image findings
    (cross-modal confidence 0), a report scored 35, a report scored 80 and a
    classifier confidence of one half. *)
Definition seven_nodules : list RunAnalysis.ImageResult :=
  [sample_result (List.repeat (sample_image "Nodule" "mild" 60) 7)].

Definition weak_ml_analysis : MLModels.Analysis :=
  {| MLModels.pathology_analysis := ∅;
     MLModels.severity_analysis := ∅;
     MLModels.quality_analysis := ∅;
     MLModels.discrepancy_analysis := ∅;
     MLModels.overall_confidence := 1 # 2;
     MLModels.overall_risk_level := low;
     MLModels.risk_factors := [];
     MLModels.ml_summary := "ML models suggest normal findings." |}.

Definition poor_report : RunAnalysis.ReportQuality :=
  {| RunAnalysis.overall_score := 35;
     RunAnalysis.completeness_score := 0;
     RunAnalysis.clarity_score := 45 |}.

Definition good_report : RunAnalysis.ReportQuality :=
  {| RunAnalysis.overall_score := 80;
     RunAnalysis.completeness_score := 90;
     RunAnalysis.clarity_score := 85 |}.

(** The confidence a finding of [_extract_findings_from_text] can carry:
    [85 + randint(-10, 15)] when pathological, a table value otherwise. *)
Definition confidence_in_range (f : TextFinding) : Prop :=
  if is_pathological f then 75 <= tf_confidence f <= 99
  else 88 <= tf_confidence f <= 95.

(** The recommendations of [main.py] for the images: one sentence per image
    whose quality is below 70, numbered from [i + 1]. *)
Fixpoint main_image_messages (i : nat) (image_analysis : list Main.ImageAnalysis)
    : list string :=
  match image_analysis with
  | [] => []
  | img :: rest =>
      (if Qltb (Main.overall_quality_or_100 img) 70
       then [ "Image " +:+ str_of_nat (i + 1)
                +:+ " quality may affect diagnostic accuracy - consider repeat imaging" ]
       else [])
      ++ main_image_messages (S i) rest
  end.

Definition main_good_correlation : string :=
  "Analysis shows good correlation between image and text findings".

Definition main_closing : string :=
  "Consider clinical correlation for final diagnosis".

(** The first character of a string, if any. *)
Definition head_char (s : string) : option ascii :=
  match s with
  | EmptyString => None
  | String c _ => Some c
  end.

(** The image-quality scores [run_analysis.py] averages: those of the
    successful images that carry one. *)
Definition run_available_qualities (image_results : list RunAnalysis.ImageResult)
    : list Q :=
  omap (fun r => if RunAnalysis.success r
                 then RunAnalysis.overall_quality_score r else None)
       image_results.

(** The model names [train_models] loops over, with their targets. *)
Definition model_targets : list (string * string) :=
  [ ("pathology_detector", "pathology"); ("severity_classifier", "severity");
    ("quality_assessor", "quality"); ("discrepancy_detector", "discrepancy")
  ]%string.

(** A prediction of a trained model: it has a numeric ['confidence'] and no
    ['error'] key. *)
Definition real_prediction (d : pred) : Prop :=
  d !! "error"%string = None
  /\ exists c : Q, d !! "confidence"%string = Some (PNum c).

(** The exceptions of a failed dictionary or list subscript. *)
Definition lookup_error (exc : string) : Prop :=
  exc = "KeyError"%string \/ exc = "IndexError"%string.

(** What a predictor does on an object whose models are trained: [self] is
    left as it is, and the call returns a real prediction or fails in a
    subscript. *)
Definition trained_predictor {Model Scaler : Type}
    (p : MLModels.M Model Scaler pred)
    (self : MLModels.RadiologyMLModels Model Scaler) : Prop :=
  snd (p self) = self
  /\ match fst (p self) with
     | MLModels.Returned d => real_prediction d
     | MLModels.Raised exc => lookup_error exc
     end.

(** The score [predict_quality] reports beside each label. *)
Definition quality_scores : list (string * Q) :=
  [ ("poor", 25); ("fair", 50); ("good", 75); ("excellent", 100) ]%string.

(** The two shapes of a finding of [extract_clinical_findings]: a
    pathological finding built from an entry of [pathology_keywords], or a
    normal finding. *)
Definition finding_well_formed (f : MedicalNLP.Finding) : Prop :=
  (MedicalNLP.type f = "pathological"%string
   /\ 45 <= MedicalNLP.confidence f <= 95
   /\ (exists kw, In kw MedicalNLP.pathology_keywords
         /\ MedicalNLP.finding f = capitalize (fst kw)
         /\ MedicalNLP.urgency f = Some (MedicalNLP.kw_urgency (snd kw)))
   /\ (exists s, MedicalNLP.severity f = Some s
         /\ In s ["mild"; "moderate"; "severe"; "high"]%string)
   /\ is_Some (MedicalNLP.location f))
  \/ (MedicalNLP.type f = "normal"%string
      /\ MedicalNLP.confidence f == 90
      /\ MedicalNLP.severity f = None
      /\ MedicalNLP.location f = None
      /\ MedicalNLP.urgency f = None).

(** Class probabilities as scikit-learn gives them: between 0 and 1. *)
Definition probabilities_in_range {Model : Type}
    (predict_proba : Model -> list Q -> list Q) : Prop :=
  forall (m : Model) (x : list Q) (p : Q),
    In p (predict_proba m x) -> 0 <= p <= 1.


(** ** Arithmetic of the Python primitives *)

Lemma py_min_Qmin (a b : Q) : py_min a b == Qmin a b.
Proof.
  unfold py_min. destruct (Qlt_le_dec b a) as [H|H].
  - symmetry. apply Q.min_r. now apply Qlt_le_weak.
  - symmetry. now apply Q.min_l.
Qed.

Lemma py_max_Qmax (a b : Q) : py_max a b == Qmax a b.
Proof.
  unfold py_max. destruct (Qlt_le_dec a b) as [H|H].
  - symmetry. apply Q.max_r. now apply Qlt_le_weak.
  - symmetry. now apply Q.max_l.
Qed.

Lemma py_min_le_l (a b : Q) : py_min a b <= a.
Proof. rewrite py_min_Qmin. apply Q.le_min_l. Qed.

Lemma py_max_ge_l (a b : Q) : a <= py_max a b.
Proof. rewrite py_max_Qmax. apply Q.le_max_l. Qed.

Lemma round_half_even_int (x : Q) (z : Z) :
  x == inject_Z z -> round_half_even x = z.
Proof.
  intros Hx. unfold round_half_even.
  rewrite (Qfloor_comp _ _ Hx), Qfloor_Z.
  assert (Hc : Qcompare (x - inject_Z z) (1 # 2) = Lt).
  { apply (proj1 (Qlt_alt _ _)). rewrite Hx. lra. }
  now rewrite Hc.
Qed.

(** Rounding leaves a whole number as it is. *)
Lemma py_round1_int (x : Q) (z : Z) : x == inject_Z z -> py_round1 x == x.
Proof.
  intros Hx. unfold py_round1.
  rewrite (round_half_even_int (x * 10) (z * 10)).
  - rewrite inject_Z_mult, Hx. field.
  - rewrite inject_Z_mult, Hx. reflexivity.
Qed.

Lemma round_half_even_le (x : Q) (k : Z) :
  x <= inject_Z k -> (round_half_even x <= k)%Z.
Proof.
  intros Hx. unfold round_half_even.
  pose proof (Qfloor_le x) as Hf.
  assert (Hfk : (Qfloor x <= k)%Z).
  { rewrite <- (Qfloor_Z k). now apply Qfloor_resp_le. }
  destruct (Z.eq_dec (Qfloor x) k) as [E|N].
  - assert (Hc : Qcompare (x - inject_Z (Qfloor x)) (1 # 2) = Lt).
    { apply (proj1 (Qlt_alt _ _)). rewrite E in *.
      pose proof (Qlt_floor x) as Hl. lra. }
    rewrite Hc. lia.
  - destruct (Qcompare _ _); [destruct (Z.even _)| |]; lia.
Qed.

(** Rounding does not cross a whole number from below. *)
Lemma py_round1_le (x : Q) (k : Z) : x <= inject_Z k -> py_round1 x <= inject_Z k.
Proof.
  intros Hx. unfold py_round1.
  assert (H : (round_half_even (x * 10) <= k * 10)%Z).
  { apply round_half_even_le. rewrite inject_Z_mult. 
    change (inject_Z 10) with 10. lra. }
  apply Qle_shift_div_r; [reflexivity|].
  change 10 with (inject_Z 10). rewrite <- inject_Z_mult.
  now rewrite <- Zle_Qle.
Qed.

(** ** The two loops of a reconciler

    Both reconcilers run the same pair of loops and differ in the matcher
    and in the records they build, so the loops are analysed once, for any
    loop bodies of that shape. *)

Lemma find_existsb {A : Type} (p : A -> bool) (l : list A) :
  existsb p l = bool_decide (is_Some (List.find p l)).
Proof.
  induction l as [|a l IH]; simpl; [reflexivity|].
  destruct (p a); simpl; [reflexivity|exact IH].
Qed.

Lemma find_none_existsb {A : Type} (p : A -> bool) (l : list A) :
  List.find p l = None -> existsb p l = false.
Proof. intros H. rewrite find_existsb, H. reflexivity. Qed.

Lemma find_some_existsb {A : Type} (p : A -> bool) (l : list A) (a : A) :
  List.find p l = Some a -> existsb p l = true.
Proof. intros H. rewrite find_existsb, H. reflexivity. Qed.

Section Loops.

Context {A : Type}.
Variable matches : TextFinding -> ImageFinding -> bool.
Variable fp : TextFinding -> Discrepancy.
Variable fn : ImageFinding -> Discrepancy.
Variable agree : TextFinding -> ImageFinding -> A.
Variable text_step : list ImageFinding -> Lists A -> TextFinding -> Lists A.
Variable image_step : list TextFinding -> Lists A -> ImageFinding -> Lists A.

Hypothesis text_step_eq : forall image st tf,
  text_step image st tf =
  match List.find (matches tf) image with
  | Some imf => mkLists (acc_discrepancies st) (acc_agreements st ++ [agree tf imf])
  | None => mkLists (acc_discrepancies st ++ [fp tf]) (acc_agreements st)
  end.

Hypothesis image_step_eq : forall text st imf,
  image_step text st imf =
  match List.find (fun tf => matches tf imf) text with
  | Some _ => st
  | None => mkLists (acc_discrepancies st ++ [fn imf]) (acc_agreements st)
  end.

Lemma text_loop (image : list ImageFinding) (text : list TextFinding)
    (st : Lists A) :
  fold_left (text_step image) text st =
  mkLists
    (acc_discrepancies st ++ List.map fp (unmatched_text matches image text))
    (acc_agreements st ++ first_matches matches agree image text).
Proof.
  revert st. induction text as [|tf text IH]; intros st; simpl.
  - rewrite !app_nil_r. now destruct st.
  - rewrite IH, text_step_eq. unfold unmatched_text, first_matches. simpl.
    destruct (List.find (matches tf) image) as [imf|] eqn:E; simpl.
    + rewrite (find_some_existsb _ _ _ E). simpl. now rewrite <- app_assoc.
    + rewrite (find_none_existsb _ _ E). simpl. now rewrite <- app_assoc.
Qed.

Lemma image_loop (text : list TextFinding) (image : list ImageFinding)
    (st : Lists A) :
  fold_left (image_step text) image st =
  mkLists
    (acc_discrepancies st ++ List.map fn (unmatched_image matches text image))
    (acc_agreements st).
Proof.
  revert st. induction image as [|imf image IH]; intros st; simpl.
  - rewrite app_nil_r. now destruct st.
  - rewrite IH, image_step_eq. unfold unmatched_image. simpl.
    destruct (List.find (fun tf => matches tf imf) text) as [tf|] eqn:E; simpl.
    + rewrite (find_some_existsb _ _ _ E). reflexivity.
    + rewrite (find_none_existsb _ _ E). simpl. now rewrite <- app_assoc.
Qed.

(** The state after both loops, started from two empty lists. *)
Lemma both_loops (text : list TextFinding) (image : list ImageFinding) :
  fold_left (image_step text) image
    (fold_left (text_step image) text (mkLists [] [])) =
  mkLists
    (List.map fp (unmatched_text matches image text)
       ++ List.map fn (unmatched_image matches text image))
    (first_matches matches agree image text).
Proof. rewrite text_loop, image_loop. reflexivity. Qed.

(** Each text finding is either paired or unmatched. *)
Lemma paired_or_unmatched (image : list ImageFinding) (text : list TextFinding) :
  (length (first_matches matches agree image text)
   + length (unmatched_text matches image text))%nat = length text.
Proof.
  unfold first_matches, unmatched_text.
  induction text as [|tf text IH]; simpl; [reflexivity|].
  destruct (List.find (matches tf) image) eqn:E; simpl.
  - rewrite (find_some_existsb _ _ _ E). simpl. f_equal. exact IH.
  - rewrite (find_none_existsb _ _ E). simpl. rewrite Nat.add_succ_r.
    f_equal. exact IH.
Qed.

End Loops.

Lemma run_lists (text : list TextFinding) (image : list ImageFinding) :
  fold_left (RunAnalysis.image_step text) image
    (fold_left (RunAnalysis.text_step image) text (mkLists [] [])) =
  mkLists
    (List.map RunAnalysis.false_positive_of
       (unmatched_text RunAnalysis._findings_match image text)
     ++ List.map RunAnalysis.false_negative_of
       (unmatched_image RunAnalysis._findings_match text image))
    (first_matches RunAnalysis._findings_match RunAnalysis.agreement_of image text).
Proof. apply both_loops; reflexivity. Qed.

Lemma main_lists (text : list TextFinding) (image : list ImageFinding) :
  fold_left (Main.image_step text) image
    (fold_left (Main.text_step image) text (mkLists [] [])) =
  mkLists
    (List.map Main.false_positive_of
       (unmatched_text Main.findings_match image text)
     ++ List.map Main.false_negative_of
       (unmatched_image Main.findings_match text image))
    (first_matches Main.findings_match Main.agreement_of image text).
Proof. apply both_loops; reflexivity. Qed.

(** ** What the two reconcilers return *)

Lemma run_discrepancies (nlp_results : list TextFinding)
    (image_results : list RunAnalysis.ImageResult) :
  let text_pathology := List.filter is_pathological nlp_results in
  let image_pathology := RunAnalysis.collect_image_pathology image_results in
  discrepancies (RunAnalysis._perform_cross_modal_analysis nlp_results image_results) =
  List.map RunAnalysis.false_positive_of
    (unmatched_text RunAnalysis._findings_match image_pathology text_pathology)
  ++ List.map RunAnalysis.false_negative_of
    (unmatched_image RunAnalysis._findings_match text_pathology image_pathology).
Proof.
  intros. unfold RunAnalysis._perform_cross_modal_analysis. simpl.
  fold text_pathology image_pathology. now rewrite run_lists.
Qed.

Lemma run_agreements (nlp_results : list TextFinding)
    (image_results : list RunAnalysis.ImageResult) :
  agreements (RunAnalysis._perform_cross_modal_analysis nlp_results image_results) =
  first_matches RunAnalysis._findings_match RunAnalysis.agreement_of
    (RunAnalysis.collect_image_pathology image_results)
    (List.filter is_pathological nlp_results).
Proof.
  unfold RunAnalysis._perform_cross_modal_analysis. simpl. now rewrite run_lists.
Qed.

Lemma main_discrepancies (image_findings : list ImageFinding)
    (text_findings : list TextFinding) :
  let text_pathology := List.filter is_pathological text_findings in
  discrepancies (Main.compare_image_and_text image_findings text_findings) =
  List.map Main.false_positive_of
    (unmatched_text Main.findings_match image_findings text_pathology)
  ++ List.map Main.false_negative_of
    (unmatched_image Main.findings_match text_pathology image_findings).
Proof.
  intros. unfold Main.compare_image_and_text. simpl.
  fold text_pathology. now rewrite main_lists.
Qed.

Lemma main_agreements (image_findings : list ImageFinding)
    (text_findings : list TextFinding) :
  agreements (Main.compare_image_and_text image_findings text_findings) =
  first_matches Main.findings_match Main.agreement_of image_findings
    (List.filter is_pathological text_findings).
Proof.
  unfold Main.compare_image_and_text. simpl. now rewrite main_lists.
Qed.

(** The quotient the code computes is the quotient of the specification. *)
Lemma code_ratio {A : Type} (l : list A) (n_text n_image : nat) :
  Qlen l * 2 / inject_Z (Z.of_nat (Nat.max (n_text + n_image) 1)) * 100
  == agreement_ratio (length l) n_text n_image.
Proof.
  unfold agreement_ratio, Qlen.
  replace (Z.of_nat (Nat.max (n_text + n_image) 1))
    with (Z.max (Z.of_nat n_text + Z.of_nat n_image) 1) by lia.
  rewrite inject_Z_mult. change (inject_Z 2) with 2.
  apply Qmult_comp; [|reflexivity].
  apply Qmult_comp; [ring|reflexivity].
Qed.

Lemma agreement_ratio_nonneg (n_agreements n_text n_image : nat) :
  0 <= agreement_ratio n_agreements n_text n_image.
Proof.
  unfold agreement_ratio.
  apply Qmult_le_0_compat; [|discriminate].
  apply Qle_shift_div_l.
  - change 0 with (inject_Z 0). rewrite <- Zlt_Qlt. lia.
  - rewrite Qmult_0_l. change 0 with (inject_Z 0). rewrite <- Zle_Qle. lia.
Qed.


Lemma py_round1_comp (x y : Q) : x == y -> py_round1 x = py_round1 y.
Proof.
  intros H. unfold py_round1, round_half_even.
  assert (H10 : x * 10 == y * 10) by now rewrite H.
  rewrite (Qfloor_comp _ _ H10).
  assert (Hc : Qcompare (x * 10 - inject_Z (Qfloor (y * 10))) (1 # 2)
             = Qcompare (y * 10 - inject_Z (Qfloor (y * 10))) (1 # 2)).
  { apply Qcompare_comp; [now rewrite H10|reflexivity]. }
  now rewrite Hc.
Qed.

(** ** Empty inputs (C1) *)

(** In [main.py] two empty inputs give no discrepancy and an agreement of
    100: the guard [if total_findings > 0 else 100]. *)
Lemma main_empty_inputs_agreement_100 (image_findings : list ImageFinding)
    (text_findings : list TextFinding) :
  List.filter is_pathological text_findings = [] ->
  image_findings = [] ->
  let r := Main.compare_image_and_text image_findings text_findings in
  discrepancies r = [] /\ agreement_percentage r == 100.
Proof.
  intros Ht Hi. subst image_findings.
  unfold Main.compare_image_and_text. cbv zeta. rewrite Ht.
  split; reflexivity.
Qed.

(** C1, failing path.  With no pathological text finding and no image
    finding, [_perform_cross_modal_analysis] of [run_analysis.py] reports
    no discrepancy but an agreement_percentage of 0, not 100: the quotient
    [0 * 2 / max(0, 1) * 100] is returned as it is. *)
Theorem run_analysis_empty_inputs_agreement_zero
    (nlp_results : list TextFinding)
    (image_results : list RunAnalysis.ImageResult) :
  List.filter is_pathological nlp_results = [] ->
  RunAnalysis.collect_image_pathology image_results = [] ->
  let r := RunAnalysis._perform_cross_modal_analysis nlp_results image_results in
  discrepancies r = [] /\ agreement_percentage r == 0
  /\ ~ agreement_percentage r == 100.
Proof.
  intros Ht Hi.
  unfold RunAnalysis._perform_cross_modal_analysis. cbv zeta. rewrite Ht, Hi.
  split; [reflexivity|]. split; [reflexivity|].
  intros H. vm_compute in H. discriminate H.
Qed.

Lemma run_analysis_empty_inputs_agreement_zero_witness :
  let r := RunAnalysis._perform_cross_modal_analysis [] [] in
  discrepancies r = [] /\ agreement_percentage r == 0
  /\ ~ agreement_percentage r == 100.
Proof.
  apply (run_analysis_empty_inputs_agreement_zero [] []); reflexivity.
Defined.

(** ** The matcher (C2) *)

Lemma synonym_loop_sym (syns : list (string * list string)) (a b : string) :
  RunAnalysis.synonym_loop syns a b = RunAnalysis.synonym_loop syns b a.
Proof.
  induction syns as [|[term synonym_list] rest IH]; simpl; [reflexivity|].
  rewrite IH.
  destruct (str_in term a && existsb (fun syn => str_in syn b) synonym_list);
    destruct (str_in term b && existsb (fun syn => str_in syn a) synonym_list);
    reflexivity.
Qed.

Lemma run_terms_match_sym (a b : string) :
  RunAnalysis.terms_match a b = RunAnalysis.terms_match b a.
Proof.
  unfold RunAnalysis.terms_match.
  rewrite (orb_comm (str_in a b)), (synonym_loop_sym _ a b). reflexivity.
Qed.

Lemma main_terms_match_sym (a b : string) :
  Main.terms_match a b = Main.terms_match b a.
Proof. unfold Main.terms_match. apply orb_comm. Qed.

(** The example of the specification: "pneumonia" against "consolidation"
    fails the substring test and passes through the synonym table. *)
Example pneumonia_matches_consolidation :
  let tf := sample_text "Pneumonia" "moderate" 85 in
  let imf := sample_image "Consolidation" "moderate" 70 in
  Main.findings_match tf imf = false
  /\ RunAnalysis._findings_match tf imf = true.
Proof. split; reflexivity. Qed.

(** C2.  The matcher is symmetric.  On the two terms it compares, the test of
    [_findings_match] (substring, then synonym table) and the substring test
    of [compare_image_and_text] give the same answer when the terms are
    exchanged; and on findings, the answer only depends on the two terms, so
    exchanging the terms between a text finding and an image finding leaves
    it unchanged whatever their confidence, severity and context are. *)
Theorem findings_match_symmetric :
  (forall a b : string,
     RunAnalysis.terms_match a b = RunAnalysis.terms_match b a
     /\ Main.terms_match a b = Main.terms_match b a)
  /\ (forall (tf tf' : TextFinding) (imf imf' : ImageFinding),
        tf_finding tf' = if_type imf ->
        if_type imf' = tf_finding tf ->
        RunAnalysis._findings_match tf imf = RunAnalysis._findings_match tf' imf'
        /\ Main.findings_match tf imf = Main.findings_match tf' imf').
Proof.
  split.
  - intros a b. split; [apply run_terms_match_sym|apply main_terms_match_sym].
  - intros tf tf' imf imf' H1 H2.
    unfold RunAnalysis._findings_match, Main.findings_match.
    rewrite H1, H2. split;
      [apply run_terms_match_sym|apply main_terms_match_sym].
Qed.

Lemma findings_match_symmetric_witness :
  let tf := sample_text "Pneumonia" "moderate" 85 in
  let imf := sample_image "Consolidation" "mild" 70 in
  let tf' := sample_text "Consolidation" "severe" 40 in
  let imf' := sample_image "Pneumonia" "high" 10 in
  RunAnalysis._findings_match tf imf = RunAnalysis._findings_match tf' imf'
  /\ Main.findings_match tf imf = Main.findings_match tf' imf'.
Proof.
  apply (proj2 findings_match_symmetric); reflexivity.
Defined.

(** ** Agreement percentage (C3) *)

Lemma run_agreement_percentage (nlp_results : list TextFinding)
    (image_results : list RunAnalysis.ImageResult) :
  let r := RunAnalysis._perform_cross_modal_analysis nlp_results image_results in
  let n_text := length (List.filter is_pathological nlp_results) in
  let n_image := length (RunAnalysis.collect_image_pathology image_results) in
  agreement_percentage r
  == spec_agreement_percentage (length (agreements r)) n_text n_image
  /\ agreement_percentage r <= 100.
Proof.
  intros r n_text n_image. split.
  - unfold r, RunAnalysis._perform_cross_modal_analysis. cbv zeta.
    cbn [agreement_percentage agreements].
    rewrite py_min_Qmin. unfold spec_agreement_percentage.
    apply Q.min_compat; [reflexivity|]. apply code_ratio.
  - apply py_min_le_l.
Qed.


Lemma main_agreement_percentage_rounded (image_findings : list ImageFinding)
    (text_findings : list TextFinding) :
  let r := Main.compare_image_and_text image_findings text_findings in
  let n_text := length (List.filter is_pathological text_findings) in
  let n_image := length image_findings in
  (0 < n_text + n_image)%nat ->
  agreement_percentage r
  = py_round1 (agreement_ratio (length (agreements r)) n_text n_image).
Proof.
  intros r n_text n_image H.
  unfold r, Main.compare_image_and_text. cbv zeta.
  cbn [agreement_percentage agreements]. fold n_text n_image.
  destruct (Nat.ltb_spec 0 (n_text + n_image)) as [_|Hn]; [|lia].
  apply py_round1_comp, code_ratio.
Qed.

Lemma filter_length_le {A : Type} (p : A -> bool) (l : list A) :
  (length (List.filter p l) <= length l)%nat.
Proof. induction l as [|a l IH]; simpl; [lia|]. destruct (p a); simpl; lia. Qed.







(** ** Cross-modal confidence (C4) *)

(** [_perform_cross_modal_analysis] clamps at zero. *)
Lemma run_cross_modal_confidence (nlp_results : list TextFinding)
    (image_results : list RunAnalysis.ImageResult) :
  let r := RunAnalysis._perform_cross_modal_analysis nlp_results image_results in
  cross_modal_confidence r
  == spec_cross_modal_confidence (length (discrepancies r))
  /\ 0 <= cross_modal_confidence r.
Proof.
  intros r. split.
  - unfold r, RunAnalysis._perform_cross_modal_analysis. cbv zeta.
    cbn [cross_modal_confidence discrepancies].
    rewrite py_max_Qmax. unfold spec_cross_modal_confidence, Qlen.
    apply Q.max_compat; [reflexivity|ring].
  - apply py_max_ge_l.
Qed.

(** [compare_image_and_text] does not: rounding a whole number changes
    nothing, so the result is [100 - 15 * len(discrepancies)] itself. *)
Lemma main_cross_modal_confidence (image_findings : list ImageFinding)
    (text_findings : list TextFinding) :
  let r := Main.compare_image_and_text image_findings text_findings in
  cross_modal_confidence r
  == 100 - 15 * inject_Z (Z.of_nat (length (discrepancies r))).
Proof.
  intros r. unfold r, Main.compare_image_and_text. cbv zeta.
  cbn [cross_modal_confidence discrepancies].
  match goal with |- py_round1 (100 - Qlen ?l * 15) == _ =>
    rewrite (py_round1_int _ (100 - Z.of_nat (length l) * 15)); unfold Qlen
  end.
  - ring.
  - unfold Zminus. rewrite inject_Z_plus, inject_Z_opp, inject_Z_mult.
    reflexivity.
Qed.

(** C4, failing path.  Seven image findings and no text finding give seven
    false negatives; [compare_image_and_text] of [main.py] then returns a
    cross_modal_confidence of -5, where [max(0, 100 − 15 × 7)] is 0. *)
Theorem main_cross_modal_confidence_negative :
  let image := List.repeat (sample_image "Nodule" "mild" 60) 7 in
  let r := Main.compare_image_and_text image [] in
  length (discrepancies r) = 7%nat
  /\ cross_modal_confidence r == -5
  /\ cross_modal_confidence r < 0
  /\ spec_cross_modal_confidence (length (discrepancies r)) == 0.
Proof.
  vm_compute. repeat split; intros; discriminate.
Qed.

(** ** The discrepancy records (C5) *)

(** C5 as stated fails in [main.py]: the severity of a discrepancy is a
    constant there.  A text finding "Fracture" of severity "high" with no
    image finding yields a false_positive of severity "medium"; an image
    finding "Nodule" of severity "mild" with no text finding yields a
    false_negative of severity "high". *)
Lemma discrepancy_severity_fails_in_main :
  (let tf := sample_text "Fracture" "high" 90 in
   let r := Main.compare_image_and_text [] [tf] in
   exists d, discrepancies r = [d] /\ d_type d = false_positive
             /\ d_confidence d == 10
             /\ Some (d_severity d) <> tf_severity tf)
  /\ (let imf := sample_image "Nodule" "mild" 60 in
      let r := Main.compare_image_and_text [imf] [] in
      exists d, discrepancies r = [d] /\ d_type d = false_negative
                /\ d_confidence d == 60
                /\ Some (d_severity d) <> if_severity imf).
Proof.
  split; eexists; (split; [reflexivity|]);
    (split; [reflexivity|]); (split; [reflexivity|]); discriminate.
Qed.

(** C5, amended.  In both reconcilers the discrepancies are: one
    false_positive per pathological text finding that no image finding
    matches, in input order, followed by one false_negative per image
    finding that no pathological text finding matches, in input order.  A
    false_positive has confidence [100 − text_finding.confidence] and a
    false_negative the confidence of its image finding.  In
    [_perform_cross_modal_analysis] the severity is the severity of the
    finding ("unknown" when it has none); in [compare_image_and_text] it is
    "medium" for every false_positive and "high" for every false_negative. *)
Theorem discrepancy_records :
  (forall (nlp_results : list TextFinding)
          (image_results : list RunAnalysis.ImageResult),
     let text_pathology := List.filter is_pathological nlp_results in
     let image_pathology := RunAnalysis.collect_image_pathology image_results in
     discrepancies
       (RunAnalysis._perform_cross_modal_analysis nlp_results image_results) =
     List.map RunAnalysis.false_positive_of
       (unmatched_text RunAnalysis._findings_match image_pathology text_pathology)
     ++ List.map RunAnalysis.false_negative_of
       (unmatched_image RunAnalysis._findings_match text_pathology image_pathology))
  /\ (forall tf : TextFinding,
        let d := RunAnalysis.false_positive_of tf in
        d_type d = false_positive
        /\ d_confidence d = 100 - tf_confidence tf
        /\ d_severity d = default "unknown"%string (tf_severity tf))
  /\ (forall imf : ImageFinding,
        let d := RunAnalysis.false_negative_of imf in
        d_type d = false_negative
        /\ d_confidence d = if_confidence imf
        /\ d_severity d = default "unknown"%string (if_severity imf))
  /\ (forall (image_findings : list ImageFinding)
             (text_findings : list TextFinding),
        let text_pathology := List.filter is_pathological text_findings in
        discrepancies (Main.compare_image_and_text image_findings text_findings) =
        List.map Main.false_positive_of
          (unmatched_text Main.findings_match image_findings text_pathology)
        ++ List.map Main.false_negative_of
          (unmatched_image Main.findings_match text_pathology image_findings))
  /\ (forall tf : TextFinding,
        let d := Main.false_positive_of tf in
        d_type d = false_positive
        /\ d_confidence d = 100 - tf_confidence tf
        /\ d_severity d = "medium"%string)
  /\ (forall imf : ImageFinding,
        let d := Main.false_negative_of imf in
        d_type d = false_negative
        /\ d_confidence d = if_confidence imf
        /\ d_severity d = "high"%string).
Proof.
  split; [exact run_discrepancies|].
  split; [intros tf; repeat split|].
  split; [intros imf; repeat split|].
  split; [exact main_discrepancies|].
  split; [intros tf; repeat split|intros imf; repeat split].
Qed.

(** The two single-finding examples of the specification. *)
Example fracture_false_positive :
  let r := RunAnalysis._perform_cross_modal_analysis
             [sample_text "Fracture" "high" 90] [] in
  List.map d_type (discrepancies r) = [false_positive]
  /\ Forall (fun d => d_confidence d == 10) (discrepancies r).
Proof. split; [reflexivity|]. repeat constructor. Qed.

Example nodule_false_negative :
  let r := RunAnalysis._perform_cross_modal_analysis
             [] [sample_result [sample_image "Nodule" "mild" 60]] in
  List.map d_type (discrepancies r) = [false_negative]
  /\ Forall (fun d => d_confidence d == 60) (discrepancies r).
Proof. split; [reflexivity|]. repeat constructor. Qed.

(** ** One output record per text finding (C10) *)

Lemma filter_false_positive (ds : list Discrepancy) :
  Forall (fun d => d_type d = false_positive) ds ->
  List.filter is_false_positive ds = ds.
Proof.
  induction 1 as [|d ds Hd _ IH]; simpl; [reflexivity|].
  unfold is_false_positive at 1. rewrite Hd. simpl. now rewrite IH.
Qed.

Lemma filter_false_negative (ds : list Discrepancy) :
  Forall (fun d => d_type d = false_negative) ds ->
  List.filter is_false_positive ds = [].
Proof.
  induction 1 as [|d ds Hd _ IH]; simpl; [reflexivity|].
  unfold is_false_positive at 1. rewrite Hd. simpl. exact IH.
Qed.

Lemma count_false_positives {T I : Type} (fp : T -> Discrepancy)
    (fn : I -> Discrepancy) (ts : list T) (ims : list I) :
  (forall t, d_type (fp t) = false_positive) ->
  (forall i, d_type (fn i) = false_negative) ->
  length (List.filter is_false_positive (List.map fp ts ++ List.map fn ims))
  = length ts.
Proof.
  intros Hfp Hfn. rewrite List.filter_app, filter_false_positive, filter_false_negative.
  - rewrite app_nil_r. apply List.length_map.
  - apply List.Forall_forall. intros d Hd. apply List.in_map_iff in Hd.
    destruct Hd as [i [<- _]]. apply Hfn.
  - apply List.Forall_forall. intros d Hd. apply List.in_map_iff in Hd.
    destruct Hd as [t [<- _]]. apply Hfp.
Qed.

(** C10.  In the result of either reconciler the agreements and the
    false_positive discrepancies together number the pathological text
    findings: each of these findings yields exactly one of the two.  An image
    finding can be counted in two agreements: in [compare_image_and_text]
    the text findings "Mass" and "Mass effect" both agree with the one image
    finding "Mass". *)
Theorem text_findings_accounted_once :
  (forall (nlp_results : list TextFinding)
          (image_results : list RunAnalysis.ImageResult),
     let r := RunAnalysis._perform_cross_modal_analysis nlp_results image_results in
     (length (agreements r)
      + length (List.filter is_false_positive (discrepancies r)))%nat
     = length (List.filter is_pathological nlp_results))
  /\ (forall (image_findings : list ImageFinding)
             (text_findings : list TextFinding),
        let r := Main.compare_image_and_text image_findings text_findings in
        (length (agreements r)
         + length (List.filter is_false_positive (discrepancies r)))%nat
        = length (List.filter is_pathological text_findings))
  /\ (let image := [sample_image "Mass" "Moderate" 70] in
      let text := [sample_text "Mass" "high" 85;
                   sample_text "Mass effect" "high" 80] in
      length (agreements (Main.compare_image_and_text image text)) = 2%nat
      /\ length (agreements
                   (RunAnalysis._perform_cross_modal_analysis text
                      [sample_result image])) = 2%nat).
Proof.
  split; [|split].
  - intros nlp_results image_results r. unfold r.
    rewrite run_agreements, run_discrepancies.
    rewrite count_false_positives by reflexivity.
    apply paired_or_unmatched.
  - intros image_findings text_findings r. unfold r.
    rewrite main_agreements, main_discrepancies.
    rewrite count_false_positives by reflexivity.
    apply paired_or_unmatched.
  - split; reflexivity.
Qed.

(** ** The weighted risk score of [main.py] (C7) *)

Lemma image_risk_loop (image_analysis : list Main.ImageAnalysis) (s : Z) :
  fold_left Main.image_risk_step image_analysis s
  = (s + 20 * Z.of_nat (length (poor_images image_analysis)))%Z.
Proof.
  revert s. induction image_analysis as [|img l IH]; intros s; simpl.
  - lia.
  - rewrite IH. unfold Main.image_risk_step, Main.overall_quality_or_100,
      poor_images.
    cbn [List.filter]. destruct (Main.quality_metrics img) as [qm|].
    + destruct (Qltb (Main.overall_quality qm) 60); cbn [length]; lia.
    + change (Qltb 100 60) with false. lia.
Qed.

(** C7.  [_calculate_risk_level] computes
    [20 × |discrepancies| + 15 × |text inconsistencies| + 25] (the last only
    when the completeness score is below 70) [+ 20 ×] the number of image
    analyses whose quality metrics give an overall quality below 60 (counted
    on the [quality_metrics] of the inputs), and returns high when the sum is
    at least 60, medium when it is at least 30 and below 60, low
    otherwise. *)
Theorem weighted_risk_level
    (comparison_result : Comparison Main.Agreement)
    (text_analysis : Main.TextAnalysis)
    (image_analysis : list Main.ImageAnalysis) :
  let risk_score :=
    Main.risk_score_of comparison_result text_analysis image_analysis in
  let level :=
    Main._calculate_risk_level comparison_result text_analysis image_analysis in
  risk_score
  = spec_risk_score (length (discrepancies comparison_result))
      (length (Main.inconsistencies text_analysis))
      (Qltb (Main.score (Main.completeness text_analysis)) 70)
      (length (poor_images image_analysis))
  /\ level = spec_risk_level risk_score
  /\ (level = high <-> (60 <= risk_score)%Z)
  /\ (level = medium <-> (30 <= risk_score < 60)%Z)
  /\ (level = low <-> (risk_score < 30)%Z).
Proof.
  intros risk_score level. split; [|split; [reflexivity|]].
  - unfold risk_score, Main.risk_score_of, spec_risk_score. cbv zeta.
    rewrite image_risk_loop.
    destruct (Qltb (Main.score (Main.completeness text_analysis)) 70); lia.
  - unfold level, Main._calculate_risk_level. fold risk_score.
    destruct (Z.leb_spec 60 risk_score); [|destruct (Z.leb_spec 30 risk_score)];
      repeat split; intros; try discriminate; try lia.
Qed.

(** ** Overall confidence (C6) *)

Lemma confidence_loop (image_analysis : list Main.ImageAnalysis) (acc : list Q) :
  fold_left Main.confidence_step image_analysis acc
  = acc ++ available_image_qualities image_analysis.
Proof.
  revert acc. induction image_analysis as [|img l IH]; intros acc; simpl.
  - now rewrite app_nil_r.
  - rewrite IH. unfold Main.confidence_step, available_image_qualities. simpl.
    destruct (Main.quality_metrics img); simpl; [now rewrite <- app_assoc|reflexivity].
Qed.

Lemma clamp_bounds (lo hi x : Q) : lo <= hi -> lo <= clamp lo hi x <= hi.
Proof.
  intros H. unfold clamp. split.
  - apply Q.min_glb; [exact H|apply Q.le_max_l].
  - apply Q.le_min_l.
Qed.

Lemma py_clamp (lo hi x : Q) : py_min hi (py_max lo x) == clamp lo hi x.
Proof.
  unfold clamp. rewrite py_min_Qmin.
  apply Q.min_compat; [reflexivity|apply py_max_Qmax].
Qed.

Lemma main_overall_confidence (text_analysis : Main.TextAnalysis)
    (image_analysis : list Main.ImageAnalysis)
    (comparison_result : Comparison Main.Agreement) :
  let v := Main._calculate_overall_confidence text_analysis image_analysis
             comparison_result in
  v == spec_overall_confidence
         (Main.confidence text_analysis :: available_image_qualities image_analysis)
         (agreement_percentage comparison_result)
         (length (discrepancies comparison_result))
  /\ 30 <= v <= 95.
Proof.
  intros v.
  assert (E : v == spec_overall_confidence
         (Main.confidence text_analysis :: available_image_qualities image_analysis)
         (agreement_percentage comparison_result)
         (length (discrepancies comparison_result))).
  { unfold v, Main._calculate_overall_confidence. cbv zeta.
    rewrite confidence_loop. simpl app. rewrite py_clamp.
    unfold spec_overall_confidence, clamp, Qlen.
    apply Q.min_compat; [reflexivity|].
    apply Q.max_compat; [reflexivity|]. ring. }
  split; [exact E|]. rewrite E. apply clamp_bounds. discriminate.
Qed.

(** C6 as stated fails in [run_analysis.py]: the report built from the
    inputs above has a confidence of 28.3, below 30, although the clamped
    formula of the claim cannot go below 30. *)
Lemma overall_confidence_bounds_fail_in_run_analysis :
  let cross_modal := RunAnalysis._perform_cross_modal_analysis [] seven_nodules in
  let report :=
    RunAnalysis._generate_comprehensive_report poor_report seven_nodules
      weak_ml_analysis cross_modal in
  RunAnalysis.confidence report == 283 # 10
  /\ ~ 30 <= RunAnalysis.confidence report
  /\ ~ RunAnalysis.confidence report
       == spec_overall_confidence
            [MLModels.overall_confidence weak_ml_analysis;
             cross_modal_confidence cross_modal / 100;
             RunAnalysis.overall_score poor_report / 100]
            (agreement_percentage cross_modal)
            (length (discrepancies cross_modal)).
Proof.
  split; [reflexivity|]. split; intros H; vm_compute in H.
  - now apply H.
  - discriminate H.
Qed.

(** C6, amended.  [_calculate_overall_confidence] of [main.py] returns the
    mean of the text confidence and the available image-quality scores, plus
    [0.2 × agreement_percentage], minus [5 × |discrepancies|], clamped to
    [30, 95]; its result always lies in [30, 95].
    [_generate_comprehensive_report] of [run_analysis.py] reports
    [(ml confidence + cross_modal_confidence/100 + report score/100) / 3 × 100]
    rounded to one decimal place, with no bonus, penalty or clamp. *)
Theorem overall_confidence_formula :
  (forall (text_analysis : Main.TextAnalysis)
          (image_analysis : list Main.ImageAnalysis)
          (comparison_result : Comparison Main.Agreement),
     let v := Main._calculate_overall_confidence text_analysis image_analysis
                comparison_result in
     v == spec_overall_confidence
            (Main.confidence text_analysis
               :: available_image_qualities image_analysis)
            (agreement_percentage comparison_result)
            (length (discrepancies comparison_result))
     /\ 30 <= v <= 95)
  /\ (forall (report_quality : RunAnalysis.ReportQuality)
             (image_results : list RunAnalysis.ImageResult)
             (ml_analysis : MLModels.Analysis)
             (cross_modal_analysis : Comparison RunAnalysis.Agreement),
        let report :=
          RunAnalysis._generate_comprehensive_report report_quality
            image_results ml_analysis cross_modal_analysis in
        let raw :=
          (MLModels.overall_confidence ml_analysis
           + cross_modal_confidence cross_modal_analysis / 100
           + RunAnalysis.overall_score report_quality / 100) / 3 * 100 in
        RunAnalysis.confidence report = py_round1 raw).
Proof.
  split; [exact main_overall_confidence|].
  intros report_quality image_results ml_analysis cross_modal_analysis report raw.
  unfold report, RunAnalysis._generate_comprehensive_report. cbv zeta.
  cbn [RunAnalysis.confidence]. apply py_round1_comp.
  unfold raw, RunAnalysis.report_overall_confidence, Qsum, Qlen. simpl.
  field.
Qed.

(** ** The count-based risk level (C8) *)

Lemma risk_by_count_length (l : list string) :
  risk_rank (risk_by_count l) = Nat.min (length l) 2.
Proof. destruct l as [|a [|b [|c l]]]; reflexivity. Qed.

Lemma risk_by_count_insert (l1 l2 : list string) (f : string) :
  (risk_rank (risk_by_count (l1 ++ l2))
   <= risk_rank (risk_by_count (l1 ++ f :: l2)))%nat.
Proof.
  rewrite !risk_by_count_length, !length_app. simpl. lia.
Qed.

Lemma append_if_length (c : bool) (label : string) (l : list string) :
  length (append_if c label l) = (length l + if c then 1 else 0)%nat.
Proof. destruct c; simpl; [rewrite length_app; simpl|]; lia. Qed.

(** Four conditions tested in turn: more conditions true, no lower level. *)
Lemma four_flags_monotone (c1 c2 c3 c4 d1 d2 d3 d4 : bool)
    (a1 a2 a3 a4 b1 b2 b3 b4 : string) :
  (c1 = true -> d1 = true) -> (c2 = true -> d2 = true) ->
  (c3 = true -> d3 = true) -> (c4 = true -> d4 = true) ->
  (risk_rank
     (risk_by_count
        (append_if c4 a4 (append_if c3 a3 (append_if c2 a2 (append_if c1 a1 [])))))
   <= risk_rank
        (risk_by_count
           (append_if d4 b4
              (append_if d3 b3 (append_if d2 b2 (append_if d1 b1 []))))))%nat.
Proof.
  intros H1 H2 H3 H4. rewrite !risk_by_count_length, !append_if_length. simpl.
  assert (forall c d : bool, (c = true -> d = true) ->
            ((if c then 1 else 0) <= (if d then 1 else 0))%nat) as Hle.
  { intros [] [] H; try lia; discriminate (H eq_refl). }
  pose proof (Hle _ _ H1). pose proof (Hle _ _ H2).
  pose proof (Hle _ _ H3). pose proof (Hle _ _ H4). lia.
Qed.

(** C8.  Under the count-based rule, a list of risk factors with one more
    factor, inserted anywhere, never has a lower level.  For the report of
    [run_analysis.py] and for the classifier summary of [ml_models.py]: when
    every condition that holds for one input also holds for another, the
    level of the first is at most the level of the second; turning one
    condition on with the others fixed is the special case. *)
Theorem risk_level_monotone :
  (forall (l1 l2 : list string) (f : string),
     (risk_rank (risk_by_count (l1 ++ l2))
      <= risk_rank (risk_by_count (l1 ++ f :: l2)))%nat)
  /\ (forall (rq rq' : RunAnalysis.ReportQuality)
             (irs irs' : list RunAnalysis.ImageResult)
             (ml ml' : MLModels.Analysis)
             (cm cm' : Comparison RunAnalysis.Agreement),
        (truthy (MLModels.pathology_analysis ml !! "has_pathology"%string) = true ->
         truthy (MLModels.pathology_analysis ml' !! "has_pathology"%string) = true) ->
        ((0 <? total_discrepancies cm)%nat = true ->
         (0 <? total_discrepancies cm')%nat = true) ->
        (Qltb (RunAnalysis.overall_score rq) 70 = true ->
         Qltb (RunAnalysis.overall_score rq') 70 = true) ->
        (RunAnalysis.any_image_quality_issue irs = true ->
         RunAnalysis.any_image_quality_issue irs' = true) ->
        (risk_rank
           (RunAnalysis.risk_level
              (RunAnalysis._generate_comprehensive_report rq irs ml cm))
         <= risk_rank
              (RunAnalysis.risk_level
                 (RunAnalysis._generate_comprehensive_report rq' irs' ml' cm')))%nat)
  /\ (forall p s q d p' s' q' d' : pred,
        (truthy (p !! "has_pathology"%string) = true ->
         truthy (p' !! "has_pathology"%string) = true) ->
        (get_is_str (s !! "severity"%string) "severe" = true ->
         get_is_str (s' !! "severity"%string) "severe" = true) ->
        (MLModels.quality_is_poor_or_fair q = true ->
         MLModels.quality_is_poor_or_fair q' = true) ->
        (truthy (d !! "has_discrepancy"%string) = true ->
         truthy (d' !! "has_discrepancy"%string) = true) ->
        (risk_rank (risk_by_count (MLModels.collect_risk_factors p s q d))
         <= risk_rank (risk_by_count (MLModels.collect_risk_factors p' s' q' d')))%nat).
Proof.
  split; [exact risk_by_count_insert|]. split.
  - intros rq rq' irs irs' ml ml' cm cm' H1 H2 H3 H4.
    unfold RunAnalysis._generate_comprehensive_report,
      RunAnalysis.report_risk_factors.
    cbn [RunAnalysis.risk_level]. now apply four_flags_monotone.
  - intros p s q d p' s' q' d' H1 H2 H3 H4.
    unfold MLModels.collect_risk_factors. now apply four_flags_monotone.
Qed.

Lemma risk_level_monotone_witness :
  let clean := RunAnalysis._perform_cross_modal_analysis [] [] in
  let flagged := RunAnalysis._perform_cross_modal_analysis [] seven_nodules in
  (risk_rank
     (RunAnalysis.risk_level
        (RunAnalysis._generate_comprehensive_report good_report []
           weak_ml_analysis clean))
   <= risk_rank
        (RunAnalysis.risk_level
           (RunAnalysis._generate_comprehensive_report good_report seven_nodules
              weak_ml_analysis flagged)))%nat.
Proof.
  apply (proj1 (proj2 risk_level_monotone)); vm_compute; intros H;
    first [exact H|reflexivity].
Defined.

(** ** Untrained classifiers (C9) *)

Section Untrained.

Context {Model Scaler : Type}.
Variable transform : Scaler -> list Q -> list Q.
Variable predict : Model -> list Q -> nat.
Variable predict_proba : Model -> list Q -> list Q.
Variable format_percent : Q -> string.
Variable format_value : pyval -> string.



End Untrained.


(** * Further properties of the code *)

(** ** Reconciliation without images, and what the reconcilers ignore *)

Lemma first_matches_no_image {A : Type}
    (matches : TextFinding -> ImageFinding -> bool)
    (agree : TextFinding -> ImageFinding -> A) (text : list TextFinding) :
  first_matches matches agree [] text = [].
Proof.
  unfold first_matches. induction text as [|tf text IH]; simpl; [reflexivity|].
  exact IH.
Qed.

Lemma unmatched_text_no_image (matches : TextFinding -> ImageFinding -> bool)
    (text : list TextFinding) :
  unmatched_text matches [] text = text.
Proof.
  unfold unmatched_text. induction text as [|tf text IH]; simpl; [reflexivity|].
  f_equal. exact IH.
Qed.

Lemma py_round1_zero (x : Q) : x == 0 -> py_round1 x == 0.
Proof. intros H. rewrite (py_round1_comp x 0 H). reflexivity. Qed.

Lemma agreement_ratio_zero (n_text n_image : nat) :
  agreement_ratio 0 n_text n_image == 0.
Proof.
  unfold agreement_ratio. change (inject_Z (2 * Z.of_nat 0)) with 0.
  unfold Qdiv. rewrite !Qmult_0_l. reflexivity.
Qed.

(** Without image findings every pathological text finding is reported as a
    false positive and nothing agrees; as soon as there is one such finding
    the agreement percentage is 0. *)
Theorem text_only_all_false_positives :
  (forall text_findings : list TextFinding,
     let r := Main.compare_image_and_text [] text_findings in
     let text_pathology := List.filter is_pathological text_findings in
     agreements r = []
     /\ discrepancies r = List.map Main.false_positive_of text_pathology
     /\ (text_pathology <> [] -> agreement_percentage r == 0))
  /\ (forall (nlp_results : list TextFinding)
             (image_results : list RunAnalysis.ImageResult),
        RunAnalysis.collect_image_pathology image_results = [] ->
        let r := RunAnalysis._perform_cross_modal_analysis nlp_results
                   image_results in
        let text_pathology := List.filter is_pathological nlp_results in
        agreements r = []
        /\ discrepancies r = List.map RunAnalysis.false_positive_of text_pathology
        /\ (text_pathology <> [] -> agreement_percentage r == 0)).
Proof.
  split.
  - intros text_findings r text_pathology.
    assert (Ha : agreements r = []).
    { unfold r. rewrite main_agreements. apply first_matches_no_image. }
    split; [exact Ha|]. split.
    + unfold r. rewrite main_discrepancies. cbv zeta.
      rewrite unmatched_text_no_image. simpl. now rewrite app_nil_r.
    + intros Hne.
      assert (Hpos : (0 < length text_pathology + length (@nil ImageFinding))%nat).
      { destruct text_pathology; [congruence|simpl; lia]. }
      pose proof (main_agreement_percentage_rounded [] text_findings Hpos) as E.
      cbv zeta in E. unfold r. rewrite E.
      rewrite main_agreements, first_matches_no_image.
      apply py_round1_zero, agreement_ratio_zero.
  - intros nlp_results image_results Hi r text_pathology.
    assert (Ha : agreements r = []).
    { unfold r. rewrite run_agreements, Hi. apply first_matches_no_image. }
    split; [exact Ha|]. split.
    + unfold r. rewrite run_discrepancies. cbv zeta.
      rewrite Hi, unmatched_text_no_image. simpl. now rewrite app_nil_r.
    + intros _.
      destruct (run_agreement_percentage nlp_results image_results) as [E _].
      cbv zeta in E. unfold r. rewrite E.
      rewrite run_agreements, Hi, first_matches_no_image.
      unfold spec_agreement_percentage. rewrite agreement_ratio_zero.
      reflexivity.
Qed.

Lemma text_only_all_false_positives_witness :
  let text := [sample_text "Fracture" "high" 90; sample_text "Mass" "high" 80] in
  agreement_percentage (Main.compare_image_and_text [] text) == 0
  /\ agreement_percentage (RunAnalysis._perform_cross_modal_analysis text []) == 0.
Proof.
  split.
  - apply (proj1 text_only_all_false_positives
             [sample_text "Fracture" "high" 90; sample_text "Mass" "high" 80]).
    discriminate.
  - apply (proj2 text_only_all_false_positives
             [sample_text "Fracture" "high" 90; sample_text "Mass" "high" 80] []).
    + reflexivity.
    + discriminate.
Defined.

Lemma py_min_ge (a b c : Q) : c <= a -> c <= b -> c <= py_min a b.
Proof. intros Ha Hb. rewrite py_min_Qmin. now apply Q.min_glb. Qed.

Lemma py_max_le (a b c : Q) : a <= c -> b <= c -> py_max a b <= c.
Proof. intros Ha Hb. rewrite py_max_Qmax. now apply Q.max_lub. Qed.

(** The two numbers [_perform_cross_modal_analysis] reports are
    percentages, and the discrepancies are at most as many as the findings
    compared. *)
Theorem run_metrics_in_range (nlp_results : list TextFinding)
    (image_results : list RunAnalysis.ImageResult) :
  let r := RunAnalysis._perform_cross_modal_analysis nlp_results image_results in
  0 <= agreement_percentage r <= 100
  /\ 0 <= cross_modal_confidence r <= 100
  /\ total_discrepancies r = length (discrepancies r)
  /\ (length (discrepancies r)
      <= length (List.filter is_pathological nlp_results)
         + length (RunAnalysis.collect_image_pathology image_results))%nat.
Proof.
  intros r. repeat split.
  - unfold r, RunAnalysis._perform_cross_modal_analysis. cbv zeta.
    cbn [agreement_percentage]. apply py_min_ge; [discriminate|].
    rewrite code_ratio. apply agreement_ratio_nonneg.
  - apply py_min_le_l.
  - apply py_max_ge_l.
  - unfold r, RunAnalysis._perform_cross_modal_analysis. cbv zeta.
    cbn [cross_modal_confidence]. apply py_max_le; [discriminate|].
    unfold Qlen.
    assert (0 <= inject_Z (Z.of_nat (length (acc_discrepancies
      (fold_left
         (RunAnalysis.image_step (List.filter is_pathological nlp_results))
         (RunAnalysis.collect_image_pathology image_results)
         (fold_left
            (RunAnalysis.text_step
               (RunAnalysis.collect_image_pathology image_results))
            (List.filter is_pathological nlp_results) (mkLists [] []))))))) as H.
    { change 0 with (inject_Z 0). rewrite <- Zle_Qle. lia. }
    lra.
  - unfold r. rewrite run_discrepancies. cbv zeta.
    rewrite length_app, !List.length_map. unfold unmatched_text, unmatched_image.
    pose proof (filter_length_le
      (fun tf => negb (existsb (RunAnalysis._findings_match tf)
                         (RunAnalysis.collect_image_pathology image_results)))
      (List.filter is_pathological nlp_results)).
    pose proof (filter_length_le
      (fun imf => negb (existsb (fun tf => RunAnalysis._findings_match tf imf)
                          (List.filter is_pathological nlp_results)))
      (RunAnalysis.collect_image_pathology image_results)).
    lia.
Qed.





(** ** The two matchers compared *)

Lemma prefix_refl (s : string) : String.prefix s s = true.
Proof.
  induction s as [|c s IH]; simpl; [reflexivity|].
  destruct (ascii_dec c c) as [_|N]; [exact IH|contradiction].
Qed.

Lemma str_in_refl (s : string) : str_in s s = true.
Proof.
  destruct s as [|c s]; [reflexivity|].
  cbn [str_in]. now rewrite prefix_refl.
Qed.

Lemma str_in_empty (s : string) : str_in EmptyString s = true.
Proof. destruct s; reflexivity. Qed.

Lemma main_match_implies_run_match (tf : TextFinding) (imf : ImageFinding) :
  Main.findings_match tf imf = true -> RunAnalysis._findings_match tf imf = true.
Proof.
  unfold Main.findings_match, RunAnalysis._findings_match,
    Main.terms_match, RunAnalysis.terms_match.
  intros H. now rewrite H.
Qed.

Lemma existsb_false_mono {A : Type} (p q : A -> bool) (l : list A) :
  (forall a, q a = true -> p a = true) ->
  existsb p l = false -> existsb q l = false.
Proof.
  intros Hpq. induction l as [|a l IH]; simpl; [reflexivity|].
  intros H. apply orb_false_iff in H. destruct H as [Ha Hl].
  rewrite (IH Hl), orb_false_r.
  destruct (q a) eqn:E; [|reflexivity]. rewrite (Hpq a E) in Ha. discriminate.
Qed.

Lemma filter_length_mono {A : Type} (p q : A -> bool) (l : list A) :
  (forall a, p a = true -> q a = true) ->
  (length (List.filter p l) <= length (List.filter q l))%nat.
Proof.
  intros Hpq. induction l as [|a l IH]; simpl; [lia|].
  destruct (p a) eqn:E.
  - rewrite (Hpq a E). simpl. lia.
  - destruct (q a); simpl; lia.
Qed.

(** Whatever the substring test of [main.py] pairs, the synonym-aware test
    of [run_analysis.py] pairs too; so on the same findings the second
    reconciler never reports more discrepancies than the first. *)
Theorem synonym_matcher_reports_no_more_discrepancies :
  (forall (tf : TextFinding) (imf : ImageFinding),
     Main.findings_match tf imf = true ->
     RunAnalysis._findings_match tf imf = true)
  /\ (forall (text : list TextFinding)
             (image_results : list RunAnalysis.ImageResult),
        (length (discrepancies
                   (RunAnalysis._perform_cross_modal_analysis text image_results))
         <= length (discrepancies
                      (Main.compare_image_and_text
                         (RunAnalysis.collect_image_pathology image_results)
                         text)))%nat).
Proof.
  split; [exact main_match_implies_run_match|].
  intros text image_results.
  rewrite run_discrepancies, main_discrepancies. cbv zeta.
  rewrite !length_app, !List.length_map.
  apply Nat.add_le_mono; apply filter_length_mono; intros a Ha;
    apply negb_true_iff in Ha; apply negb_true_iff;
    (eapply existsb_false_mono; [|exact Ha]); intros b;
    apply main_match_implies_run_match.
Qed.

Lemma synonym_matcher_reports_no_more_discrepancies_witness :
  RunAnalysis._findings_match (sample_text "Mass effect" "high" 80)
    (sample_image "Mass" "mild" 70) = true.
Proof.
  apply (proj1 synonym_matcher_reports_no_more_discrepancies). reflexivity.
Defined.

(** Two findings with the same term up to letter case always match, and a
    finding whose term is empty matches every finding of the other side
    (the empty string is a substring of every string). *)
Theorem matcher_same_term_and_empty_term (tf : TextFinding) (imf : ImageFinding) :
  lower (tf_finding tf) = lower (if_type imf)
  \/ tf_finding tf = EmptyString \/ if_type imf = EmptyString ->
  Main.findings_match tf imf = true
  /\ RunAnalysis._findings_match tf imf = true.
Proof.
  intros H.
  assert (Hm : Main.findings_match tf imf = true).
  { unfold Main.findings_match, Main.terms_match.
    destruct H as [H|[H|H]]; rewrite H; simpl.
    - now rewrite str_in_refl.
    - now rewrite str_in_empty.
    - rewrite str_in_empty. apply orb_true_r. }
  split; [exact Hm|now apply main_match_implies_run_match].
Qed.

Lemma matcher_same_term_and_empty_term_witness :
  Main.findings_match (sample_text "NODULE" "mild" 60)
    (sample_image "Nodule" "mild" 70) = true
  /\ RunAnalysis._findings_match (sample_text "NODULE" "mild" 60)
       (sample_image "Nodule" "mild" 70) = true.
Proof.
  apply (matcher_same_term_and_empty_term (sample_text "NODULE" "mild" 60)
           (sample_image "Nodule" "mild" 70)).
  left. reflexivity.
Defined.

(** ** Report text analysis of [main.py] *)

Lemma py_max_ge_r (a b : Q) : b <= py_max a b.
Proof. rewrite py_max_Qmax. apply Q.le_max_r. Qed.

Lemma py_min_le_r (a b : Q) : py_min a b <= b.
Proof. rewrite py_min_Qmin. apply Q.le_min_r. Qed.

Lemma Qnat_nonneg (n : nat) : 0 <= inject_Z (Z.of_nat n).
Proof. change 0 with (inject_Z 0). rewrite <- Zle_Qle. lia. Qed.

(** The text confidence always lies between 55 and 95: the lowest sum the
    adjustments can reach is 70 - 15, so the floor of 30 in the code is never
    the result. *)
Theorem text_confidence_bounds (text : string) :
  55 <= Main._calculate_text_confidence text <= 95.
Proof.
  unfold Main._calculate_text_confidence. cbv zeta. split.
  - apply py_min_ge; [discriminate|].
    eapply Qle_trans; [|apply py_max_ge_r].
    pose proof (Qnat_nonneg
      (count_terms ["radiograph"; "opacity"; "consolidation"; "pneumonia";
                    "effusion"]%string (lower text))) as Hn.
    destruct (50 <? length (split_ws text))%nat;
      [|destruct (length (split_ws text) <? 20)%nat];
      destruct (existsb _ _); lra.
  - apply py_min_le_l.
Qed.

Lemma section_loop_lengths (text : string) (sections : list string)
    (st : list string * list string) :
  let st' := fold_left (Main.section_step text) sections st in
  (length (fst st') + length (snd st')
   = length (fst st) + length (snd st) + length sections)%nat.
Proof.
  revert st. induction sections as [|s l IH]; intros st; simpl; [lia|].
  rewrite IH. unfold Main.section_step.
  destruct (str_in s text || _); simpl; rewrite length_app; simpl; lia.
Qed.

Lemma Qltb_true (x y : Q) : Qltb x y = true <-> x < y.
Proof.
  unfold Qltb. destruct (Qlt_le_dec x y) as [H|H]; split; intros H';
    try reflexivity; try assumption; try discriminate.
  exfalso. apply (Qlt_irrefl x). eapply Qlt_le_trans; eassumption.
Qed.

Lemma Qltb_false (x y : Q) : Qltb x y = false <-> y <= x.
Proof.
  unfold Qltb. destruct (Qlt_le_dec x y) as [H|H]; split; intros H';
    try reflexivity; try assumption; try discriminate.
  exfalso. apply (Qlt_irrefl x). eapply Qlt_le_trans; eassumption.
Qed.

Lemma Qltb_comp (x x' y : Q) : x == x' -> Qltb x y = Qltb x' y.
Proof.
  intros E. destruct (Qltb x' y) eqn:H.
  - apply Qltb_true. apply Qltb_true in H. now rewrite E.
  - apply Qltb_false. apply Qltb_false in H. now rewrite E.
Qed.

(** The loop over the required sections sorts them, in order, into the
    sections the text holds and the others. *)
Lemma section_loop_lists (text : string) (sections : list string)
    (st : list string * list string) :
  let present := fun section =>
    str_in section text || str_in (remove_char " " section) text in
  let st' := fold_left (Main.section_step text) sections st in
  fst st' = fst st ++ List.filter present sections
  /\ snd st' = snd st ++ List.filter (fun section => negb (present section))
                           sections.
Proof.
  cbv zeta. revert st.
  induction sections as [|section rest IH]; intros st;
    cbn [fold_left List.filter].
  - now rewrite !app_nil_r.
  - destruct (IH (Main.section_step text st section)) as [H1 H2].
    rewrite H1, H2. unfold Main.section_step.
    destruct (str_in section text || str_in (remove_char " " section) text);
      cbn [fst snd negb]; rewrite <- ?app_assoc; split; reflexivity.
Qed.

Lemma filter_complement_Permutation {A : Type} (p : A -> bool) (l : list A) :
  Permutation (List.filter p l ++ List.filter (fun x => negb (p x)) l) l.
Proof.
  induction l as [|x l IH]; cbn [List.filter]; [constructor|].
  destruct (p x); cbn [negb app].
  - now constructor.
  - symmetry. apply Permutation_cons_app. now symmetry.
Qed.

(** For the three study types the code knows, the four required sections
    are split between [sections_found] and [sections_missing]: the two
    lists together are a rearrangement of the four sections, so each
    section is in exactly one of them and nothing else is, and a section
    is found exactly when the text holds it, with or without its spaces.
    The score is 25 per section found, the report is "Complete" exactly
    when no section is missing, and the score is below 70 (the bound of
    the risk score) exactly when two or more are missing. *)
Theorem report_completeness_known_study (text study_type : string) :
  In study_type ["chest-xray"; "ct-scan"; "mri"]%string ->
  let required :=
    ["clinical history"; "technique"; "findings"; "impression"]%string in
  let r := Main._assess_report_completeness text study_type in
  Permutation (Main.cr_sections_found r ++ Main.cr_sections_missing r) required
  /\ (forall section,
        In section (Main.cr_sections_found r)
        <-> In section required
            /\ (str_in section text = true
                \/ str_in (remove_char " " section) text = true))
  /\ (length (Main.cr_sections_found r) + length (Main.cr_sections_missing r)
      = 4)%nat
  /\ Main.cr_score r
     == 25 * inject_Z (Z.of_nat (length (Main.cr_sections_found r)))
  /\ (Main.cr_assessment r = "Complete"%string
      <-> Main.cr_sections_missing r = [])
  /\ (Qltb (Main.cr_score r) 70 = true
      <-> (2 <= length (Main.cr_sections_missing r))%nat).
Proof.
  intros Hin required r.
  assert (Hs : Main.assoc study_type Main.required_sections = Some required).
  { simpl in Hin. destruct Hin as [<-|[<-|[<-|[]]]]; reflexivity. }
  unfold r, Main._assess_report_completeness. cbv zeta. rewrite Hs.
  cbn [default Main.cr_sections_found Main.cr_sections_missing Main.cr_score
       Main.cr_assessment].
  set (st := fold_left _ _ _).
  pose proof (section_loop_lengths text required ([], [])) as Hl.
  cbv zeta in Hl. fold st in Hl.
  change (length (fst st) + length (snd st) = 4)%nat in Hl.
  destruct (section_loop_lists text required ([], [])) as [Hf Hm].
  fold st in Hf, Hm. cbn [fst snd app] in Hf, Hm.
  assert (Hq : Qlen (fst st) / Qlen required * 100
               == inject_Z (25 * Z.of_nat (length (fst st)))).
  { unfold Qlen, required. rewrite inject_Z_mult. cbn [length].
    change (inject_Z (Z.of_nat 4)) with 4. change (inject_Z 25) with 25.
    field. }
  assert (Hsc : py_round1 (Qlen (fst st) / Qlen required * 100)
                == inject_Z (25 * Z.of_nat (length (fst st)))).
  { now rewrite (py_round1_int _ _ Hq). }
  split; [rewrite Hf, Hm; apply filter_complement_Permutation|].
  split.
  { intros section. rewrite Hf, List.filter_In, orb_true_iff. reflexivity. }
  split; [exact Hl|]. split; [|split].
  - rewrite Hsc, inject_Z_mult. reflexivity.
  - destruct (Qltb _ 80) eqn:E.
    + apply Qltb_true in E. rewrite Hq in E.
      change 80 with (inject_Z 80) in E. rewrite <- Zlt_Qlt in E.
      split; [discriminate|]. intros Hm'. rewrite Hm' in Hl.
      cbn [length] in Hl. lia.
    + apply Qltb_false in E. rewrite Hq in E.
      change 80 with (inject_Z 80) in E. rewrite <- Zle_Qle in E.
      split; [|reflexivity]. intros _.
      destruct (snd st); [reflexivity|cbn [length] in Hl; lia].
  - destruct (Qltb _ 70) eqn:E.
    + apply Qltb_true in E. rewrite Hsc in E.
      change 70 with (inject_Z 70) in E. rewrite <- Zlt_Qlt in E.
      split; [lia|reflexivity].
    + apply Qltb_false in E. rewrite Hsc in E.
      change 70 with (inject_Z 70) in E. rewrite <- Zle_Qle in E.
      split; [discriminate|lia].
Qed.

Lemma report_completeness_known_study_witness :
  let r := Main._assess_report_completeness
             "findings: clear lungs. impression: normal." "chest-xray" in
  Permutation (Main.cr_sections_found r ++ Main.cr_sections_missing r)
    ["clinical history"; "technique"; "findings"; "impression"]%string.
Proof.
  destruct (report_completeness_known_study
              "findings: clear lungs. impression: normal." "chest-xray")
    as [H _].
  - left. reflexivity.
  - exact H.
Defined.

(** For any other study type no section is looked for: nothing is found,
    nothing is reported missing, and yet the score is 0 and the report is
    "Incomplete", which counts against it in the risk score. *)
Theorem report_completeness_unknown_study (text study_type : string) :
  ~ In study_type ["chest-xray"; "ct-scan"; "mri"]%string ->
  let r := Main._assess_report_completeness text study_type in
  Main.cr_sections_found r = []
  /\ Main.cr_sections_missing r = []
  /\ Main.cr_score r == 0
  /\ Main.cr_assessment r = "Incomplete"%string
  /\ Qltb (Main.cr_score r) 70 = true.
Proof.
  intros Hin r.
  assert (Hs : Main.assoc study_type Main.required_sections = None).
  { unfold Main.required_sections, Main.assoc.
    repeat case_bool_decide; try reflexivity; subst; exfalso; apply Hin;
      simpl; auto. }
  unfold r, Main._assess_report_completeness. cbv zeta. rewrite Hs.
  repeat split.
Qed.

Lemma report_completeness_unknown_study_witness :
  Main.cr_assessment
    (Main._assess_report_completeness "findings: clear lungs." "ultrasound")
  = "Incomplete"%string.
Proof.
  apply (report_completeness_unknown_study "findings: clear lungs." "ultrasound").
  simpl. intros [H|[H|[H|[]]]]; discriminate H.
Defined.

Lemma pathology_step_range (randint : nat -> Z) (text : string)
    (entry : string * (string * string)) (st : list TextFinding * nat) :
  (forall k, (-10 <= randint k < 15)%Z) ->
  List.Forall confidence_in_range (fst st) ->
  let st' := Main.pathology_step randint text st entry in
  List.Forall confidence_in_range (fst st')
  /\ (snd st' + length (List.filter is_pathological (fst st))
      = snd st + length (List.filter is_pathological (fst st')))%nat.
Proof.
  intros Hr Hst. destruct entry as [term [severity location]].
  unfold Main.pathology_step. destruct (str_in term text); cbv zeta.
  - cbn [fst snd]. split.
    + apply List.Forall_app. split; [exact Hst|].
      constructor; [|constructor]. unfold confidence_in_range. simpl.
      pose proof (Hr (snd st)) as [Hlo Hhi].
      assert (inject_Z (-10) <= inject_Z (randint (snd st)))
        by now rewrite <- Zle_Qle.
      assert (inject_Z (randint (snd st)) <= inject_Z 14)
        by (rewrite <- Zle_Qle; lia).
      change (inject_Z (-10)) with (-10) in *.
      change (inject_Z 14) with 14 in *. split; lra.
    + rewrite List.filter_app, length_app. simpl. lia.
  - split; [exact Hst|lia].
Qed.

Lemma pathology_loop_range (randint : nat -> Z) (text : string)
    (entries : list (string * (string * string)))
    (st : list TextFinding * nat) :
  (forall k, (-10 <= randint k < 15)%Z) ->
  List.Forall confidence_in_range (fst st) ->
  let st' := fold_left (Main.pathology_step randint text) entries st in
  List.Forall confidence_in_range (fst st')
  /\ (snd st' + length (List.filter is_pathological (fst st))
      = snd st + length (List.filter is_pathological (fst st')))%nat.
Proof.
  intros Hr. revert st.
  induction entries as [|entry l IH]; intros st Hst; cbn [fold_left].
  - split; [exact Hst|lia].
  - destruct (pathology_step_range randint text entry st Hr Hst) as [H1 H2].
    destruct (IH _ H1) as [H3 H4]. cbv zeta in *. split; [exact H3|lia].
Qed.

Lemma normal_step_range (text : string) (entry : string * Q)
    (acc : list TextFinding) :
  88 <= snd entry <= 95 ->
  List.Forall confidence_in_range acc ->
  let acc' := Main.normal_step text acc entry in
  List.Forall confidence_in_range acc'
  /\ List.filter is_pathological acc' = List.filter is_pathological acc.
Proof.
  intros Hc Hacc. destruct entry as [term c].
  unfold Main.normal_step. destruct (str_in term text); cbv zeta.
  - split.
    + apply List.Forall_app. split; [exact Hacc|].
      constructor; [|constructor]. exact Hc.
    + rewrite List.filter_app. simpl. apply app_nil_r.
  - split; [exact Hacc|reflexivity].
Qed.

Lemma normal_loop_range (text : string) (entries : list (string * Q))
    (acc : list TextFinding) :
  List.Forall (fun e => 88 <= snd e <= 95) entries ->
  List.Forall confidence_in_range acc ->
  let acc' := fold_left (Main.normal_step text) entries acc in
  List.Forall confidence_in_range acc'
  /\ List.filter is_pathological acc' = List.filter is_pathological acc.
Proof.
  intros He. revert acc.
  induction He as [|entry l Hc _ IH]; intros acc Hacc; cbn [fold_left].
  - split; [exact Hacc|reflexivity].
  - destruct (normal_step_range text entry acc Hc Hacc) as [H1 H2].
    destruct (IH _ H1) as [H3 H4]. cbv zeta in *. split; [exact H3|].
    now rewrite H4.
Qed.

(** The two loops of [_extract_findings_from_text] together. *)
Lemma extract_findings_from_text_ranges (randint : nat -> Z)
    (text : string) (draws : nat) :
  (forall k, (-10 <= randint k < 15)%Z) ->
  let r := Main._extract_findings_from_text randint text draws in
  List.Forall confidence_in_range (fst r)
  /\ snd r = (draws + length (List.filter is_pathological (fst r)))%nat.
Proof.
  intros Hr r. unfold r, Main._extract_findings_from_text. cbv zeta.
  set (st := fold_left (Main.pathology_step randint text) Main.pathology_terms
               ([], draws)).
  destruct (pathology_loop_range randint text Main.pathology_terms ([], draws) Hr)
    as [H1 H2]; [constructor|].
  cbv zeta in H1, H2. fold st in H1, H2.
  cbn [fst snd List.filter length] in H2.
  assert (Hn : List.Forall (fun e : string * Q => 88 <= snd e <= 95)
                 Main.normal_terms).
  { unfold Main.normal_terms.
    repeat (constructor; [split; discriminate|]). constructor. }
  destruct (normal_loop_range text Main.normal_terms (fst st) Hn H1) as [H3 H4].
  cbv zeta in H3, H4. cbn [fst snd]. split; [exact H3|].
  rewrite H4. lia.
Qed.

(** Every pathological finding [_extract_findings_from_text] returns has a
    confidence between 75 and 99 and every normal finding one between 88 and
    95, provided [np.random.randint(-10, 15)] keeps to its range; the
    function draws one random number per pathological finding. *)
Theorem extracted_findings_confidence_range (randint : nat -> Z)
    (text : string) (draws : nat) :
  (forall k, (-10 <= randint k < 15)%Z) ->
  let r := Main._extract_findings_from_text randint text draws in
  List.Forall confidence_in_range (fst r)
  /\ snd r = (draws + length (List.filter is_pathological (fst r)))%nat.
Proof. exact (extract_findings_from_text_ranges randint text draws). Qed.

Lemma extracted_findings_confidence_range_witness :
  let r := Main._extract_findings_from_text (fun _ => 0%Z)
             "focal opacity, no effusion; lungs otherwise clear" 0 in
  List.Forall confidence_in_range (fst r)
  /\ snd r = (0 + length (List.filter is_pathological (fst r)))%nat.
Proof.
  apply (extracted_findings_confidence_range (fun _ => 0%Z)
           "focal opacity, no effusion; lungs otherwise clear" 0).
  intros k. lia.
Defined.

(** ** Recommendations, averages and monotonicity in [main.py] *)

Lemma main_image_loop (image_analysis : list Main.ImageAnalysis)
    (acc : list string) (i : nat) :
  fst (fold_left Main.image_recommendation_step image_analysis (acc, i))
  = acc ++ main_image_messages i image_analysis.
Proof.
  revert acc i. induction image_analysis as [|img l IH]; intros acc i;
    cbn [fold_left main_image_messages].
  - now rewrite app_nil_r.
  - unfold Main.image_recommendation_step at 2. cbn [fst snd].
    rewrite IH. destruct (Qltb _ 70); [now rewrite <- app_assoc|reflexivity].
Qed.

Lemma main_image_messages_nil (i : nat) (image_analysis : list Main.ImageAnalysis) :
  List.Forall (fun img => Qltb (Main.overall_quality_or_100 img) 70 = false)
              image_analysis ->
  main_image_messages i image_analysis = [].
Proof.
  intros H. revert i. induction H as [|img l Hq _ IH]; intros i; simpl;
    [reflexivity|]. rewrite Hq. apply IH.
Qed.

Lemma main_image_messages_head (i : nat) (image_analysis : list Main.ImageAnalysis) :
  List.Forall (fun s => head_char s = Some "I"%char)
              (main_image_messages i image_analysis).
Proof.
  revert i. induction image_analysis as [|img l IH]; intros i;
    cbn [main_image_messages]; [constructor|].
  apply List.Forall_app. split; [|apply IH].
  destruct (Qltb _ 70); constructor; [reflexivity|constructor].
Qed.

Lemma main_image_messages_exists (i : nat) (image_analysis : list Main.ImageAnalysis) :
  List.Exists (fun img => Qltb (Main.overall_quality_or_100 img) 70 = true)
              image_analysis ->
  main_image_messages i image_analysis <> [].
Proof.
  intros H. revert i. induction H as [img l Hq|img l _ IH]; intros i;
    cbn [main_image_messages].
  - rewrite Hq. discriminate.
  - destruct (Qltb _ 70); [discriminate|]. apply IH.
Qed.

(** The recommendations of [main.py] always end with the fixed closing
    sentence and are never that sentence alone.  When nothing is wrong (no
    discrepancy, completeness score at least 80, no inconsistency, every
    image of quality at least 70) they are the "good correlation" sentence
    and the closing one; as soon as something is wrong the "good
    correlation" sentence is absent. *)
Theorem main_recommendations_shape
    (comparison_result : Comparison Main.Agreement)
    (text_analysis : Main.TextAnalysis)
    (image_analysis : list Main.ImageAnalysis) :
  let recs :=
    Main._generate_recommendations comparison_result text_analysis
      image_analysis in
  let quiet :=
    discrepancies comparison_result = []
    /\ Qltb (Main.score (Main.completeness text_analysis)) 80 = false
    /\ Main.inconsistencies text_analysis = []
    /\ List.Forall
         (fun img => Qltb (Main.overall_quality_or_100 img) 70 = false)
         image_analysis in
  let noisy :=
    discrepancies comparison_result <> []
    \/ Qltb (Main.score (Main.completeness text_analysis)) 80 = true
    \/ Main.inconsistencies text_analysis <> []
    \/ List.Exists
         (fun img => Qltb (Main.overall_quality_or_100 img) 70 = true)
         image_analysis in
  (exists body, body <> [] /\ recs = body ++ [main_closing])
  /\ (quiet -> recs = [main_good_correlation; main_closing])
  /\ (noisy -> ~ In main_good_correlation recs).
Proof.
  intros recs quiet noisy.
  unfold recs, Main._generate_recommendations. cbv zeta.
  rewrite main_image_loop.
  set (body0 := append_if _ _ (append_if _ _ (append_if _ _ []))
                  ++ main_image_messages 0 image_analysis).
  assert (Hhead : List.Forall (fun s => head_char s <> Some "A"%char) body0).
  { unfold body0. apply List.Forall_app. split.
    - destruct (discrepancies comparison_result);
        destruct (Qltb _ 80); destruct (Main.inconsistencies text_analysis);
        cbn [append_if negb is_nil app];
        repeat (constructor; [cbn; discriminate|]); constructor.
    - eapply List.Forall_impl; [|apply main_image_messages_head].
      intros s Hs. rewrite Hs. discriminate. }
  split; [|split].
  - destruct body0 as [|b l] eqn:E; cbn [is_nil append_if app].
    + exists [main_good_correlation]. split; [discriminate|reflexivity].
    + exists (b :: l). split; [discriminate|reflexivity].
  - intros (Hd & Hs & Hi & Hq). unfold body0.
    rewrite Hd, Hs, Hi, (main_image_messages_nil 0 _ Hq). reflexivity.
  - intros Hn.
    assert (Hne : body0 <> []).
    { unfold body0. destruct Hn as [H|[H|[H|H]]].
      - destruct (discrepancies comparison_result); [congruence|].
        cbn [is_nil negb append_if app].
        destruct (Qltb _ 80); destruct (Main.inconsistencies text_analysis);
          cbn [is_nil negb append_if app]; discriminate.
      - rewrite H. destruct (discrepancies comparison_result);
          destruct (Main.inconsistencies text_analysis);
          cbn [is_nil negb append_if app]; discriminate.
      - destruct (Main.inconsistencies text_analysis); [congruence|].
        destruct (discrepancies comparison_result); destruct (Qltb _ 80);
          cbn [is_nil negb append_if app]; discriminate.
      - intros E. apply app_eq_nil in E. destruct E as [_ E].
        now apply (main_image_messages_exists 0 _ H). }
    destruct body0 as [|b l] eqn:E; [congruence|].
    cbn [is_nil append_if]. intros Hin. apply in_app_or in Hin.
    destruct Hin as [Hin|[Hin|[]]].
    + rewrite List.Forall_forall in Hhead. apply (Hhead _ Hin). reflexivity.
    + discriminate Hin.
Qed.

Lemma main_recommendations_shape_witness :
  Main._generate_recommendations (Main.compare_image_and_text [] [])
    (Main.mkTextAnalysis [] (Main.mkCompleteness 100 []) [] 80) []
  = [main_good_correlation; main_closing].
Proof.
  apply (proj1 (proj2 (main_recommendations_shape
           (Main.compare_image_and_text [] [])
           (Main.mkTextAnalysis [] (Main.mkCompleteness 100 []) [] 80) []))).
  repeat split. constructor.
Defined.

Lemma Qsum_from (l : list Q) (a : Q) : fold_left Qplus l a == a + Qsum l.
Proof.
  unfold Qsum. revert a. induction l as [|x l IH]; intros a; simpl.
  - ring.
  - rewrite (IH (a + x)), (IH (0 + x)). ring.
Qed.

Lemma Qsum_cons (x : Q) (l : list Q) : Qsum (x :: l) == x + Qsum l.
Proof. unfold Qsum at 1. simpl. rewrite Qsum_from. ring. Qed.

Lemma Qlen_cons {A : Type} (x : A) (l : list A) : Qlen (x :: l) == 1 + Qlen l.
Proof.
  unfold Qlen. cbn [length]. rewrite Nat2Z.inj_succ, <- Z.add_1_l, inject_Z_plus.
  reflexivity.
Qed.

Lemma Qsum_bounds (lo hi : Q) (l : list Q) :
  List.Forall (fun x => lo <= x <= hi) l ->
  Qlen l * lo <= Qsum l <= Qlen l * hi.
Proof.
  induction 1 as [|x l [Hlo Hhi] _ [IHlo IHhi]].
  - split; discriminate.
  - rewrite Qsum_cons, Qlen_cons. split; lra.
Qed.

Lemma Qlen_pos {A : Type} (l : list A) : l <> [] -> 0 < Qlen l.
Proof.
  intros H. destruct l as [|a l]; [congruence|].
  unfold Qlen. change 0 with (inject_Z 0). rewrite <- Zlt_Qlt. simpl. lia.
Qed.

(** The mean of a non-empty list lies between any bounds of its elements. *)
Lemma mean_bounds (lo hi : Q) (l : list Q) :
  l <> [] -> List.Forall (fun x => lo <= x <= hi) l -> lo <= mean l <= hi.
Proof.
  intros Hne Hl. destruct (Qsum_bounds lo hi l Hl) as [H1 H2].
  pose proof (Qlen_pos l Hne) as Hp. unfold mean. split.
  - apply Qle_shift_div_l; [exact Hp|]. rewrite Qmult_comm. exact H1.
  - apply Qle_shift_div_r; [exact Hp|]. rewrite Qmult_comm. exact H2.
Qed.

Lemma run_quality_loop (image_results : list RunAnalysis.ImageResult)
    (acc : list Q) :
  fold_left
    (fun quality_scores img_result =>
       if RunAnalysis.success img_result
       then match RunAnalysis.overall_quality_score img_result with
            | Some score => quality_scores ++ [score]
            | None => quality_scores
            end
       else quality_scores)
    image_results acc
  = acc ++ run_available_qualities image_results.
Proof.
  revert acc. induction image_results as [|r l IH]; intros acc; simpl.
  - now rewrite app_nil_r.
  - rewrite IH. unfold run_available_qualities. simpl.
    destruct (RunAnalysis.success r); [|reflexivity].
    destruct (RunAnalysis.overall_quality_score r); simpl;
      [now rewrite <- app_assoc|reflexivity].
Qed.

(** The average image quality is [None] exactly when no image carries a
    quality score (in [run_analysis.py]: no successful image does);
    otherwise it lies between any two bounds that hold for the scores
    averaged, so scores in [0, 100] give an average in [0, 100]. *)
Theorem average_image_quality_bounds (lo hi : Q) :
  (forall image_analysis : list Main.ImageAnalysis,
     (Main._get_average_image_quality image_analysis = None
      <-> available_image_qualities image_analysis = [])
     /\ (List.Forall (fun q => lo <= q <= hi)
                     (available_image_qualities image_analysis) ->
         forall v, Main._get_average_image_quality image_analysis = Some v ->
                   lo <= v <= hi))
  /\ (forall image_results : list RunAnalysis.ImageResult,
        (RunAnalysis._get_average_image_quality image_results = None
         <-> run_available_qualities image_results = [])
        /\ (List.Forall (fun q => lo <= q <= hi)
                        (run_available_qualities image_results) ->
            forall v,
              RunAnalysis._get_average_image_quality image_results = Some v ->
              lo <= v <= hi)).
Proof.
  split.
  - intros image_analysis. unfold Main._get_average_image_quality,
      Main.quality_scores. rewrite confidence_loop. cbn [app].
    destruct image_analysis as [|img l] eqn:E; cbn [is_nil].
    + split; [split; reflexivity|]. intros _ v Hv. discriminate Hv.
    + rewrite <- E. clear E.
      destruct (available_image_qualities image_analysis) as [|q qs] eqn:Eq;
        cbn [is_nil].
      * split; [split; reflexivity|]. intros _ v Hv. discriminate Hv.
      * split; [split; discriminate|]. intros Hall v Hv.
        injection Hv as <-. apply mean_bounds; [discriminate|exact Hall].
  - intros image_results. unfold RunAnalysis._get_average_image_quality,
      RunAnalysis.image_quality_scores. rewrite run_quality_loop. cbn [app].
    destruct (run_available_qualities image_results) as [|q qs] eqn:Eq;
      cbn [is_nil].
    + split; [split; reflexivity|]. intros _ v Hv. discriminate Hv.
    + split; [split; discriminate|]. intros Hall v Hv.
      injection Hv as <-. apply (mean_bounds lo hi (q :: qs));
        [discriminate|exact Hall].
Qed.

Lemma average_image_quality_bounds_witness :
  0 <= mean [60] <= 100.
Proof.
  apply (proj2 (proj1 (average_image_quality_bounds 0 100)
           [Main.mkImageAnalysis (Some (Main.mkQualityMetrics 50 60 70 60)) [] true;
            Main.mkImageAnalysis None [] false])).
  - repeat constructor; discriminate.
  - reflexivity.
Defined.

Lemma main_risk_score (comparison_result : Comparison Main.Agreement)
    (text_analysis : Main.TextAnalysis)
    (image_analysis : list Main.ImageAnalysis) :
  Main.risk_score_of comparison_result text_analysis image_analysis
  = spec_risk_score (length (discrepancies comparison_result))
      (length (Main.inconsistencies text_analysis))
      (Qltb (Main.score (Main.completeness text_analysis)) 70)
      (length (poor_images image_analysis)).
Proof.
  unfold Main.risk_score_of, spec_risk_score. cbv zeta.
  rewrite image_risk_loop.
  destruct (Qltb (Main.score (Main.completeness text_analysis)) 70); lia.
Qed.

Lemma spec_risk_level_mono (s s' : Z) :
  (s <= s')%Z ->
  (risk_rank (spec_risk_level s) <= risk_rank (spec_risk_level s'))%nat.
Proof.
  intros H. unfold spec_risk_level.
  destruct (Z.leb_spec 60 s); destruct (Z.leb_spec 60 s');
    destruct (Z.leb_spec 30 s); destruct (Z.leb_spec 30 s'); simpl; lia.
Qed.

(** The weighted risk level of [main.py] never goes down when evidence is
    added: more discrepancies, more text inconsistencies, an incomplete
    report or more images of poor quality.  Three discrepancies are enough
    for "high", and a case with nothing wrong is "low". *)
Theorem weighted_risk_level_monotone :
  (forall (cr cr' : Comparison Main.Agreement) (ta ta' : Main.TextAnalysis)
          (ia ia' : list Main.ImageAnalysis),
     (length (discrepancies cr) <= length (discrepancies cr'))%nat ->
     (length (Main.inconsistencies ta) <= length (Main.inconsistencies ta'))%nat ->
     (Qltb (Main.score (Main.completeness ta)) 70 = true ->
      Qltb (Main.score (Main.completeness ta')) 70 = true) ->
     (length (poor_images ia) <= length (poor_images ia'))%nat ->
     (risk_rank (Main._calculate_risk_level cr ta ia)
      <= risk_rank (Main._calculate_risk_level cr' ta' ia'))%nat)
  /\ (forall (cr : Comparison Main.Agreement) (ta : Main.TextAnalysis)
             (ia : list Main.ImageAnalysis),
        (3 <= length (discrepancies cr))%nat ->
        Main._calculate_risk_level cr ta ia = high)
  /\ (forall (cr : Comparison Main.Agreement) (ta : Main.TextAnalysis)
             (ia : list Main.ImageAnalysis),
        discrepancies cr = [] -> Main.inconsistencies ta = [] ->
        Qltb (Main.score (Main.completeness ta)) 70 = false ->
        poor_images ia = [] ->
        Main._calculate_risk_level cr ta ia = low).
Proof.
  split; [|split].
  - intros cr cr' ta ta' ia ia' Hd Hi Hc Hp.
    unfold Main._calculate_risk_level. cbv zeta.
    apply spec_risk_level_mono. rewrite !main_risk_score.
    unfold spec_risk_score.
    destruct (Qltb (Main.score (Main.completeness ta)) 70);
      [rewrite (Hc eq_refl)|destruct (Qltb _ 70)]; lia.
  - intros cr ta ia Hd. unfold Main._calculate_risk_level. cbv zeta.
    rewrite main_risk_score. unfold spec_risk_score.
    destruct (Z.leb_spec 60
      (20 * Z.of_nat (length (discrepancies cr))
       + 15 * Z.of_nat (length (Main.inconsistencies ta))
       + (if Qltb (Main.score (Main.completeness ta)) 70 then 25 else 0)
       + 20 * Z.of_nat (length (poor_images ia)))) as [_|H]; [reflexivity|].
    destruct (Qltb _ 70); lia.
  - intros cr ta ia Hd Hi Hc Hp. unfold Main._calculate_risk_level. cbv zeta.
    rewrite main_risk_score, Hd, Hi, Hc, Hp. reflexivity.
Qed.

Lemma weighted_risk_level_monotone_witness :
  Main._calculate_risk_level
    (Main.compare_image_and_text []
       [sample_text "Mass" "high" 85; sample_text "Nodule" "moderate" 80;
        sample_text "Fracture" "high" 90])
    (Main.mkTextAnalysis [] (Main.mkCompleteness 100 []) [] 80) []
  = high.
Proof.
  apply (proj1 (proj2 weighted_risk_level_monotone)). simpl. lia.
Defined.

Lemma clamp_monotone (lo hi x y : Q) :
  x <= y -> py_min hi (py_max lo x) <= py_min hi (py_max lo y).
Proof.
  intros H. rewrite !py_clamp. unfold clamp.
  apply Q.min_le_compat_l, Q.max_le_compat_l, H.
Qed.

Lemma Qlen_mono {A B : Type} (l : list A) (l' : list B) :
  (length l <= length l')%nat -> Qlen l <= Qlen l'.
Proof. intros H. unfold Qlen. rewrite <- Zle_Qle. lia. Qed.

(** With the same report and images, the overall confidence of [main.py]
    never goes down when the agreement percentage goes up, and never goes
    up when discrepancies are added. *)
Theorem overall_confidence_monotone (text_analysis : Main.TextAnalysis)
    (image_analysis : list Main.ImageAnalysis)
    (cr cr' : Comparison Main.Agreement) :
  agreement_percentage cr <= agreement_percentage cr' ->
  (length (discrepancies cr') <= length (discrepancies cr))%nat ->
  Main._calculate_overall_confidence text_analysis image_analysis cr
  <= Main._calculate_overall_confidence text_analysis image_analysis cr'.
Proof.
  intros Ha Hd. unfold Main._calculate_overall_confidence. cbv zeta.
  apply clamp_monotone. pose proof (Qlen_mono _ _ Hd) as Hq.
  set (base := match fold_left Main.confidence_step image_analysis
                       [Main.confidence text_analysis] with
               | [] => 70
               | _ :: _ => _
               end).
  lra.
Qed.

Lemma overall_confidence_monotone_witness :
  let ta := Main.mkTextAnalysis [] (Main.mkCompleteness 100 []) [] 80 in
  Main._calculate_overall_confidence ta []
    (Main.compare_image_and_text [sample_image "Nodule" "mild" 60] [])
  <= Main._calculate_overall_confidence ta []
       (Main.compare_image_and_text [] []).
Proof.
  apply (overall_confidence_monotone
           (Main.mkTextAnalysis [] (Main.mkCompleteness 100 []) [] 80) []
           (Main.compare_image_and_text [sample_image "Nodule" "mild" 60] [])
           (Main.compare_image_and_text [] [])).
  - vm_compute. discriminate.
  - simpl. lia.
Defined.

(** ** The whole analysis of [main.py] *)

Lemma analyze_report_text_findings (randint : nat -> Z)
    (report_text study_type : string) (draws : nat) :
  Main.findings
    (Main.ra_analysis
       (fst (Main.analyze_report_text randint report_text study_type draws)))
  = fst (Main._extract_findings_from_text randint (lower report_text) draws).
Proof.
  unfold Main.analyze_report_text. cbv zeta.
  destruct (Main._extract_findings_from_text randint (lower report_text) draws).
  reflexivity.
Qed.

Section AnalyzerFacts.

Variable randint : nat -> Z.
Variable preprocess_medical_image : string -> Main.ImageAnalysis.
Variables study_type report_text : string.
Variable self : Main.Analyzer.

Let run (images : option (list string)) :=
  Main.generate_comprehensive_analysis randint preprocess_medical_image
    study_type report_text images self.

Let text_findings :=
  fst (Main._extract_findings_from_text randint (lower report_text)
         (Main.draws self)).

(** Whatever the images, [generate_comprehensive_analysis] appends exactly
    its result to the history, reports a confidence between 30 and 95, counts
    the images it was given, lists the findings of the text extractor, and
    rates the case "high" as soon as it reports three discrepancies. *)
Theorem analysis_result_invariants (images : option (list string)) :
  let result := fst (run images) in
  Main.analysis_history (snd (run images))
  = Main.analysis_history self ++ [result]
  /\ 30 <= Main.ar_confidence result <= 95
  /\ Main.ar_image_count result = length (default [] images)
  /\ Main.ar_findings result = Main.finding_names text_findings
  /\ ((3 <= length (Main.ar_discrepancies result))%nat ->
      Main.ar_risk_level result = high).
Proof.
  unfold run, text_findings, Main.generate_comprehensive_analysis.
  pose proof (analyze_report_text_findings randint report_text study_type
                (Main.draws self)) as Hf.
  destruct (Main.analyze_report_text randint report_text study_type
              (Main.draws self)) as [report draws'].
  cbn [fst] in Hf. cbv zeta.
  destruct (if negb (is_nil (default [] images))
            then fold_left (Main.image_loop_step preprocess_medical_image)
                   (default [] images) ([], [])
            else ([], [])) as [image_analysis all_image_findings].
  cbn [fst snd Main.analysis_history Main.ar_confidence Main.ar_image_count
       Main.ar_findings Main.ar_discrepancies Main.ar_risk_level].
  split; [reflexivity|]. split; [apply main_overall_confidence|].
  split; [reflexivity|]. split; [rewrite Hf; reflexivity|].
  intros H. unfold Main._calculate_risk_level. cbv zeta.
  rewrite main_risk_score. unfold spec_risk_score.
  match goal with |- (if (60 <=? ?s)%Z then _ else _) = _ =>
    destruct (Z.leb_spec 60 s) as [_|Hs]; [reflexivity|] end.
  destruct (Qltb _ 70); lia.
Qed.

(** Without images ([None] or an empty list) the analysis is of type
    "text_only_nlp" with no image finding and no image quality, and every
    pathological finding of the report becomes a false positive; while
    [np.random.randint(-10, 15)] keeps to its range, the confidence of each
    of these false positives lies between 1 and 25. *)
Theorem text_only_analysis (images : option (list string)) :
  images = None \/ images = Some [] ->
  (forall k, (-10 <= randint k < 15)%Z) ->
  let result := fst (run images) in
  Main.ar_analysis_type result = "text_only_nlp"%string
  /\ Main.ar_image_count result = 0%nat
  /\ Main.ar_image_findings result = []
  /\ Main.ar_image_quality result = None
  /\ Main.ar_image_analysis_confidence result = 0
  /\ Main.ar_discrepancies result
     = List.map Main.false_positive_of
         (List.filter is_pathological text_findings)
  /\ List.Forall
       (fun d => d_type d = false_positive /\ 1 <= d_confidence d <= 25)
       (Main.ar_discrepancies result).
Proof.
  intros Hi Hr.
  assert (Hd : default [] images = []) by (destruct Hi as [->| ->]; reflexivity).
  unfold run, text_findings, Main.generate_comprehensive_analysis.
  pose proof (analyze_report_text_findings randint report_text study_type
                (Main.draws self)) as Hf.
  destruct (Main.analyze_report_text randint report_text study_type
              (Main.draws self)) as [report draws'].
  cbn [fst] in Hf. cbv zeta. rewrite Hd. cbn [is_nil negb].
  cbn [fst snd Main.ar_analysis_type Main.ar_image_count Main.ar_image_findings
       Main.ar_image_quality Main.ar_image_analysis_confidence
       Main.ar_discrepancies length List.map].
  assert (Hdisc : discrepancies
                    (Main.compare_image_and_text []
                       (Main.findings (Main.ra_analysis report)))
                  = List.map Main.false_positive_of
                      (List.filter is_pathological
                         (fst (Main._extract_findings_from_text randint
                                 (lower report_text) (Main.draws self))))).
  { rewrite main_discrepancies. cbv zeta. rewrite unmatched_text_no_image, Hf.
    cbn [List.map app]. apply app_nil_r. }
  repeat (split; [reflexivity|]). split; [exact Hdisc|].
  rewrite Hdisc. apply List.Forall_forall. intros d Hin.
  apply List.in_map_iff in Hin. destruct Hin as [tf [<- Hin]].
  apply List.filter_In in Hin. destruct Hin as [Hin Hp].
  destruct (extract_findings_from_text_ranges randint (lower report_text)
              (Main.draws self) Hr) as [Hall _].
  cbv zeta in Hall. rewrite List.Forall_forall in Hall.
  specialize (Hall tf Hin). unfold confidence_in_range in Hall.
  rewrite Hp in Hall. split; [reflexivity|].
  cbn [Main.false_positive_of d_confidence]. split; lra.
Qed.

End AnalyzerFacts.

Lemma analysis_result_invariants_witness :
  let out :=
    Main.generate_comprehensive_analysis (fun _ => 0%Z)
      (fun _ => Main.mkImageAnalysis None [] false) "chest-xray"
      "Mass, nodule and fracture." None (Main.mkAnalyzer [] 0) in
  Main.ar_risk_level (fst out) = high.
Proof.
  apply (analysis_result_invariants (fun _ => 0%Z)
           (fun _ => Main.mkImageAnalysis None [] false) "chest-xray"
           "Mass, nodule and fracture." (Main.mkAnalyzer [] 0) None).
  vm_compute. lia.
Defined.

Lemma text_only_analysis_witness :
  let out :=
    Main.generate_comprehensive_analysis (fun _ => 0%Z)
      (fun _ => Main.mkImageAnalysis None [] false) "chest-xray"
      "Mass, nodule and fracture." None (Main.mkAnalyzer [] 0) in
  Main.ar_analysis_type (fst out) = "text_only_nlp"%string.
Proof.
  apply (text_only_analysis (fun _ => 0%Z)
           (fun _ => Main.mkImageAnalysis None [] false) "chest-xray"
           "Mass, nodule and fracture." (Main.mkAnalyzer [] 0) None).
  - left. reflexivity.
  - intros k. lia.
Defined.

(** ** [ml_models.py]: training and prediction *)

Section TrainFacts.

Context {Model Scaler TrainingData : Type}.
Variable generate_synthetic_training_data : nat -> TrainingData.
Variable training_feature_names : TrainingData -> list string.
Variable fit_scaler : Scaler -> TrainingData -> string -> Scaler.
Variable fit_model : Model -> Scaler -> TrainingData -> string -> Model.

Let train :=
  MLModels.train_models generate_synthetic_training_data
    training_feature_names fit_scaler fit_model.

(** One round of the training loop, by cases on the two subscripts. *)
Lemma train_one_cases (training_data : TrainingData) (name target : string)
    (self : MLModels.RadiologyMLModels Model Scaler) :
  MLModels.train_one Model Scaler TrainingData fit_scaler fit_model
    training_data (name, target) self
  = match MLModels.scalers self !! name with
    | Some scaler =>
        let scaler' := fit_scaler scaler training_data target in
        let scalers' := <[ name := scaler' ]> (MLModels.scalers self) in
        match MLModels.models self !! name with
        | Some model =>
            (MLModels.Returned tt,
             {| MLModels.models :=
                  <[ name := fit_model model scaler' training_data target ]>
                  (MLModels.models self);
                MLModels.scalers := scalers';
                MLModels.feature_names := MLModels.feature_names self;
                MLModels.is_trained := MLModels.is_trained self |})
        | None =>
            (MLModels.Raised "KeyError",
             {| MLModels.models := MLModels.models self;
                MLModels.scalers := scalers';
                MLModels.feature_names := MLModels.feature_names self;
                MLModels.is_trained := MLModels.is_trained self |})
        end
    | None => (MLModels.Raised "KeyError", self)
    end.
Proof.
  cbv beta iota zeta delta
    [MLModels.bind MLModels.train_one MLModels.get_self MLModels.put_self
     MLModels.subscript MLModels.ret MLModels.raise].
  destruct (MLModels.scalers self !! name);
    destruct (MLModels.models self !! name); reflexivity.
Qed.

(** The training loop keeps the flag, the feature names and the key sets;
    it fails with [KeyError] only, and it returns only when every name of
    the list has a model and a scaler. *)
Lemma for_each_train_one (training_data : TrainingData)
    (l : list (string * string))
    (self : MLModels.RadiologyMLModels Model Scaler) :
  let r :=
    MLModels.for_each Model Scaler
      (MLModels.train_one Model Scaler TrainingData fit_scaler fit_model
         training_data) l self in
  MLModels.is_trained (snd r) = MLModels.is_trained self
  /\ MLModels.feature_names (snd r) = MLModels.feature_names self
  /\ dom (MLModels.models (snd r)) = dom (MLModels.models self)
  /\ dom (MLModels.scalers (snd r)) = dom (MLModels.scalers self)
  /\ (fst r = MLModels.Raised "KeyError"
      \/ (fst r = MLModels.Returned tt
          /\ forall name target, In (name, target) l ->
               is_Some (MLModels.models self !! name)
               /\ is_Some (MLModels.scalers self !! name))).
Proof.
  revert self. induction l as [|[name target] rest IH]; intros self.
  - cbn. repeat split; try reflexivity. right. split; [reflexivity|].
    intros ? ? [].
  - cbn [MLModels.for_each]. unfold MLModels.bind.
    rewrite !train_one_cases.
    destruct (MLModels.scalers self !! name) as [scaler|] eqn:Hs;
      [|cbn [fst snd]; repeat split; try reflexivity; left; reflexivity].
    destruct (MLModels.models self !! name) as [model|] eqn:Hm;
      [|cbn [fst snd MLModels.models MLModels.scalers MLModels.feature_names
             MLModels.is_trained];
        repeat split; try reflexivity;
        [apply dom_insert_lookup_L; eauto|left; reflexivity]].
    cbv beta iota zeta.
    match goal with |- context [MLModels.for_each _ _ _ rest ?s] =>
      specialize (IH s); cbv zeta in IH;
      destruct (MLModels.for_each Model Scaler
                  (MLModels.train_one Model Scaler TrainingData fit_scaler
                     fit_model training_data) rest s) as [o s']
    end.
    cbn [fst snd MLModels.models MLModels.scalers MLModels.feature_names
         MLModels.is_trained] in IH |- *.
    destruct IH as (Ht & Hf & Hdm & Hds & Ho).
    rewrite dom_insert_lookup_L in Hdm by eauto.
    rewrite dom_insert_lookup_L in Hds by eauto.
    repeat split; try assumption.
    destruct Ho as [Ho|[Ho Hall]]; [left; exact Ho|right].
    split; [exact Ho|]. intros n t [E|Hin].
    + injection E as <- <-. split; eauto.
    + destruct (Hall n t Hin) as [H1 H2].
      apply elem_of_dom in H1. apply elem_of_dom in H2.
      rewrite dom_insert_lookup_L in H1 by eauto.
      rewrite dom_insert_lookup_L in H2 by eauto.
      split; apply elem_of_dom; assumption.
Qed.

(** [train_models] either returns with the flag set, or raises [KeyError]
    with the flag as it was. *)
Lemma train_models_outcome (training_data : option TrainingData)
    (self : MLModels.RadiologyMLModels Model Scaler) :
  let r := train training_data self in
  (fst r = MLModels.Returned tt /\ MLModels.is_trained (snd r) = true
   /\ forall name target, In (name, target) model_targets ->
        is_Some (MLModels.models self !! name)
        /\ is_Some (MLModels.scalers self !! name))
  \/ (fst r = MLModels.Raised "KeyError"
      /\ MLModels.is_trained (snd r) = MLModels.is_trained self
      /\ MLModels.feature_names (snd r)
         = training_feature_names
             (default (generate_synthetic_training_data 2000) training_data)).
Proof.
  unfold train, MLModels.train_models.
  set (td := default (generate_synthetic_training_data 2000) training_data).
  cbv beta iota zeta delta
    [MLModels.bind MLModels.get_self MLModels.put_self].
  match goal with |- context [MLModels.for_each _ _ _ ?l ?s] =>
    pose proof (for_each_train_one td l s) as H; cbv zeta in H;
    destruct (MLModels.for_each Model Scaler
                (MLModels.train_one Model Scaler TrainingData fit_scaler
                   fit_model td) l s) as [o s']
  end.
  cbn [fst snd MLModels.models MLModels.scalers MLModels.feature_names
       MLModels.is_trained] in H.
  destruct H as (Ht & Hf & _ & _ & [->|[-> Hall]]).
  - right. cbn [fst snd]. repeat split; assumption.
  - left. cbv beta iota zeta delta
      [MLModels.bind MLModels.get_self MLModels.put_self].
    cbn [fst snd MLModels.is_trained]. repeat split; try reflexivity;
      apply (Hall name target); assumption.
Qed.



End TrainFacts.


Section PredictorFacts.

Context {Model Scaler TrainingData : Type}.
Variable transform : Scaler -> list Q -> list Q.
Variable predict : Model -> list Q -> nat.
Variable predict_proba : Model -> list Q -> list Q.
Variable generate_synthetic_training_data : nat -> TrainingData.
Variable training_feature_names : TrainingData -> list string.
Variable fit_scaler : Scaler -> TrainingData -> string -> Scaler.
Variable fit_model : Model -> Scaler -> TrainingData -> string -> Model.
Variable format_percent : Q -> string.
Variable format_value : pyval -> string.

Ltac unfold_predictor :=
  cbv beta iota zeta delta
    [MLModels.predict_pathology MLModels.predict_severity
     MLModels.predict_quality MLModels.predict_discrepancy MLModels.run_model
     MLModels.bind MLModels.get_self MLModels.subscript MLModels.index
     MLModels.ret MLModels.raise].

Ltac raised :=
  split; [reflexivity|first [left; reflexivity|right; reflexivity]].
Ltac returned :=
  split; [reflexivity|split; [reflexivity|eexists; reflexivity]].

Lemma label_probabilities_state (labels : list string) (i : nat)
    (probabilities : list Q) (self : MLModels.RadiologyMLModels Model Scaler) :
  snd (MLModels.label_probabilities Model Scaler labels i probabilities self)
  = self
  /\ match fst (MLModels.label_probabilities Model Scaler labels i
                  probabilities self) with
     | MLModels.Returned _ => True
     | MLModels.Raised exc => lookup_error exc
     end.
Proof.
  revert i. induction probabilities as [|prob rest IH]; intros i;
    cbn [MLModels.label_probabilities]; [split; [reflexivity|exact I]|].
  cbv beta iota zeta delta
    [MLModels.bind MLModels.index MLModels.ret MLModels.raise].
  destruct (labels !! i) as [label|];
    [|split; [reflexivity|right; reflexivity]].
  specialize (IH (S i)).
  destruct (MLModels.label_probabilities Model Scaler labels (S i) rest self)
    as [[tl|exc] s']; cbn [fst snd] in IH |- *; destruct IH as [-> IH];
    split; auto.
Qed.

Lemma predict_pathology_trained (features : gmap string Q)
    (self : MLModels.RadiologyMLModels Model Scaler) :
  MLModels.is_trained self = true ->
  trained_predictor
    (MLModels.predict_pathology transform predict predict_proba features) self.
Proof.
  intros Ht. unfold trained_predictor. unfold_predictor. rewrite Ht. cbn [negb].
  destruct (MLModels.scalers self !! "pathology_detector"%string) as [sc|];
    [|raised].
  destruct (MLModels.models self !! "pathology_detector"%string) as [m|];
    [|raised].
  destruct (predict_proba m _ !! (if (predict m _ =? 0)%nat then 0%nat else 1%nat))
    as [c|]; [|raised].
  destruct (predict_proba m _ !! 1%nat) as [p1|]; [|raised].
  destruct (predict_proba m _ !! 0%nat) as [p0|]; [|raised].
  returned.
Qed.

Lemma predict_discrepancy_trained (features : gmap string Q)
    (self : MLModels.RadiologyMLModels Model Scaler) :
  MLModels.is_trained self = true ->
  trained_predictor
    (MLModels.predict_discrepancy transform predict predict_proba features)
    self.
Proof.
  intros Ht. unfold trained_predictor. unfold_predictor. rewrite Ht. cbn [negb].
  destruct (MLModels.scalers self !! "discrepancy_detector"%string) as [sc|];
    [|raised].
  destruct (MLModels.models self !! "discrepancy_detector"%string) as [m|];
    [|raised].
  destruct (predict_proba m _ !! (if (predict m _ =? 0)%nat then 0%nat else 1%nat))
    as [c|]; [|raised].
  destruct (predict_proba m _ !! 1%nat) as [p1|]; [|raised].
  returned.
Qed.

Ltac label_loop :=
  match goal with
  | |- context [MLModels.label_probabilities _ _ ?l ?i ?p ?s] =>
      let H := fresh "H" in
      pose proof (label_probabilities_state l i p s) as H;
      destruct (MLModels.label_probabilities Model Scaler l i p s)
        as [[tl|exc] s'];
      cbn [fst snd] in H; destruct H as [-> H];
      [returned|split; [reflexivity|exact H]]
  end.

Lemma predict_severity_trained (features : gmap string Q)
    (self : MLModels.RadiologyMLModels Model Scaler) :
  MLModels.is_trained self = true ->
  trained_predictor
    (MLModels.predict_severity transform predict predict_proba features) self.
Proof.
  intros Ht. unfold trained_predictor. unfold_predictor. rewrite Ht. cbn [negb].
  destruct (MLModels.scalers self !! "severity_classifier"%string) as [sc|];
    [|raised].
  destruct (MLModels.models self !! "severity_classifier"%string) as [m|];
    [|raised].
  destruct (MLModels.severity_labels !! _) as [label|]; [|raised].
  destruct (predict_proba m _ !! _) as [c|]; [|raised].
  label_loop.
Qed.

Lemma predict_quality_trained (features : gmap string Q)
    (self : MLModels.RadiologyMLModels Model Scaler) :
  MLModels.is_trained self = true ->
  trained_predictor
    (MLModels.predict_quality transform predict predict_proba features) self.
Proof.
  intros Ht. unfold trained_predictor. unfold_predictor. rewrite Ht. cbn [negb].
  destruct (MLModels.scalers self !! "quality_assessor"%string) as [sc|];
    [|raised].
  destruct (MLModels.models self !! "quality_assessor"%string) as [m|];
    [|raised].
  destruct (MLModels.quality_labels !! _) as [label|]; [|raised].
  destruct (predict_proba m _ !! _) as [c|]; [|raised].
  label_loop.
Qed.

Lemma real_prediction_confidence (d : pred) :
  real_prediction d -> exists c, MLModels.get_confidence d = Some c.
Proof.
  intros [_ [c Hc]]. exists c. unfold MLModels.get_confidence.
  rewrite Hc. reflexivity.
Qed.

(** The aggregation of four real predictions returns. *)
Lemma aggregate_real (p s q d : pred) :
  real_prediction p -> real_prediction s -> real_prediction q ->
  real_prediction d ->
  exists a,
    MLModels.aggregate format_percent format_value p s q d
    = MLModels.Returned a
    /\ MLModels.pathology_analysis a = p /\ MLModels.severity_analysis a = s
    /\ MLModels.quality_analysis a = q /\ MLModels.discrepancy_analysis a = d
    /\ MLModels.overall_risk_level a
       = risk_by_count (MLModels.risk_factors a).
Proof.
  intros Hp Hs Hq Hd.
  destruct (real_prediction_confidence p Hp) as [c1 E1].
  destruct (real_prediction_confidence s Hs) as [c2 E2].
  destruct (real_prediction_confidence q Hq) as [c3 E3].
  destruct (real_prediction_confidence d Hd) as [c4 E4].
  unfold MLModels.aggregate. rewrite E1, E2, E3, E4.
  assert (Hsum : exists summary,
            MLModels._generate_ml_summary format_percent format_value p s q d
            = MLModels.Returned summary).
  { unfold MLModels._generate_ml_summary, MLModels.confidence_percent.
    destruct Hp as [_ [c Hc]]. rewrite Hc.
    destruct (truthy (p !! "has_pathology"%string)); eexists; reflexivity. }
  destruct Hsum as [summary ->]. eexists. split; [reflexivity|].
  cbn [MLModels.pathology_analysis MLModels.severity_analysis
       MLModels.quality_analysis MLModels.discrepancy_analysis
       MLModels.overall_risk_level MLModels.risk_factors].
  repeat split; reflexivity.
Qed.

Let analysis :=
  MLModels.comprehensive_analysis transform predict predict_proba
    generate_synthetic_training_data training_feature_names fit_scaler
    fit_model format_percent format_value.

(** The part of [comprehensive_analysis] after the training check. *)
Let predictions (features : gmap string Q)
    : MLModels.M Model Scaler MLModels.Analysis :=
  MLModels.bind Model Scaler
    (MLModels.predict_pathology transform predict predict_proba features)
    (fun pathology_pred =>
  MLModels.bind Model Scaler
    (MLModels.predict_severity transform predict predict_proba features)
    (fun severity_pred =>
  MLModels.bind Model Scaler
    (MLModels.predict_quality transform predict predict_proba features)
    (fun quality_pred =>
  MLModels.bind Model Scaler
    (MLModels.predict_discrepancy transform predict predict_proba features)
    (fun discrepancy_pred =>
       match MLModels.aggregate format_percent format_value pathology_pred
               severity_pred quality_pred discrepancy_pred with
       | MLModels.Returned a => MLModels.ret Model Scaler a
       | MLModels.Raised exc => MLModels.raise Model Scaler exc
       end)))).

Lemma comprehensive_analysis_trained (features : gmap string Q)
    (self : MLModels.RadiologyMLModels Model Scaler) :
  MLModels.is_trained self = true ->
  analysis features self = predictions features self.
Proof.
  intros Ht. unfold analysis, MLModels.comprehensive_analysis.
  unfold MLModels.bind at 1, MLModels.get_self at 1.
  unfold MLModels.bind at 1. rewrite Ht. reflexivity.
Qed.

Lemma comprehensive_analysis_untrained (features : gmap string Q)
    (self : MLModels.RadiologyMLModels Model Scaler) :
  MLModels.is_trained self = false ->
  analysis features self
  = match MLModels.train_models generate_synthetic_training_data
            training_feature_names fit_scaler fit_model None self with
    | (MLModels.Returned _, self') => predictions features self'
    | (MLModels.Raised exc, self') => (MLModels.Raised exc, self')
    end.
Proof.
  intros Ht. unfold analysis, MLModels.comprehensive_analysis.
  unfold MLModels.bind at 1, MLModels.get_self at 1.
  unfold MLModels.bind at 1. rewrite Ht. reflexivity.
Qed.

Lemma predictions_on_trained (features : gmap string Q)
    (self : MLModels.RadiologyMLModels Model Scaler) :
  MLModels.is_trained self = true ->
  let r := predictions features self in
  snd r = self
  /\ match fst r with
     | MLModels.Returned a =>
         real_prediction (MLModels.pathology_analysis a)
         /\ real_prediction (MLModels.severity_analysis a)
         /\ real_prediction (MLModels.quality_analysis a)
         /\ real_prediction (MLModels.discrepancy_analysis a)
         /\ MLModels.overall_risk_level a
            = risk_by_count (MLModels.risk_factors a)
     | MLModels.Raised exc => lookup_error exc
     end.
Proof.
  intros Ht. unfold predictions, MLModels.bind.
  destruct (predict_pathology_trained features self Ht) as [E1 H1].
  destruct (MLModels.predict_pathology _ _ _ features self) as [[p|exc] s1];
    cbn [fst snd] in E1, H1 |- *; subst s1; [|split; [reflexivity|exact H1]].
  destruct (predict_severity_trained features self Ht) as [E2 H2].
  destruct (MLModels.predict_severity _ _ _ features self) as [[s|exc] s2];
    cbn [fst snd] in E2, H2 |- *; subst s2; [|split; [reflexivity|exact H2]].
  destruct (predict_quality_trained features self Ht) as [E3 H3].
  destruct (MLModels.predict_quality _ _ _ features self) as [[q|exc] s3];
    cbn [fst snd] in E3, H3 |- *; subst s3; [|split; [reflexivity|exact H3]].
  destruct (predict_discrepancy_trained features self Ht) as [E4 H4].
  destruct (MLModels.predict_discrepancy _ _ _ features self) as [[d|exc] s4];
    cbn [fst snd] in E4, H4 |- *; subst s4; [|split; [reflexivity|exact H4]].
  destruct (aggregate_real p s q d H1 H2 H3 H4)
    as (a & -> & <- & <- & <- & <- & Hrisk).
  cbn [MLModels.ret fst snd]. split; [reflexivity|].
  repeat split; try assumption; first [apply H1|apply H2|apply H3|apply H4].
Qed.



(** Prediction does not modify a trained object: each of the four
    predictors and [comprehensive_analysis] leave the models, the scalers,
    the feature names and the flag as they were, whether they return or
    raise. *)
Theorem prediction_keeps_trained_object
    (features : gmap string Q)
    (self : MLModels.RadiologyMLModels Model Scaler) :
  MLModels.is_trained self = true ->
  snd (MLModels.predict_pathology transform predict predict_proba features
         self) = self
  /\ snd (MLModels.predict_severity transform predict predict_proba features
            self) = self
  /\ snd (MLModels.predict_quality transform predict predict_proba features
            self) = self
  /\ snd (MLModels.predict_discrepancy transform predict predict_proba
            features self) = self
  /\ snd (analysis features self) = self.
Proof.
  intros Ht.
  split; [apply predict_pathology_trained, Ht|].
  split; [apply predict_severity_trained, Ht|].
  split; [apply predict_quality_trained, Ht|].
  split; [apply predict_discrepancy_trained, Ht|].
  rewrite comprehensive_analysis_trained by exact Ht.
  apply (predictions_on_trained features self Ht).
Qed.

Ltac confidence_of_lookup Hprob :=
  cbn [fst]; intros E; injection E as <-;
  eexists; split; [reflexivity|];
  eapply Hprob; apply list_elem_of_In;
  eapply list_elem_of_lookup_2; eassumption.

Lemma predict_pathology_confidence (features : gmap string Q)
    (self : MLModels.RadiologyMLModels Model Scaler) (d : pred) :
  probabilities_in_range predict_proba -> MLModels.is_trained self = true ->
  fst (MLModels.predict_pathology transform predict predict_proba features
         self) = MLModels.Returned d ->
  exists c, d !! "confidence"%string = Some (PNum c) /\ 0 <= c <= 1.
Proof.
  intros Hprob Ht. unfold_predictor. rewrite Ht. cbn [negb].
  destruct (MLModels.scalers self !! "pathology_detector"%string) as [sc|];
    [|discriminate].
  destruct (MLModels.models self !! "pathology_detector"%string) as [m|];
    [|discriminate].
  destruct (predict_proba m _ !! (if (predict m _ =? 0)%nat then 0%nat else 1%nat))
    as [c|] eqn:Ec; [|discriminate].
  destruct (predict_proba m _ !! 1%nat) as [p1|]; [|discriminate].
  destruct (predict_proba m _ !! 0%nat) as [p0|]; [|discriminate].
  confidence_of_lookup Hprob.
Qed.

Lemma predict_discrepancy_confidence (features : gmap string Q)
    (self : MLModels.RadiologyMLModels Model Scaler) (d : pred) :
  probabilities_in_range predict_proba -> MLModels.is_trained self = true ->
  fst (MLModels.predict_discrepancy transform predict predict_proba features
         self) = MLModels.Returned d ->
  exists c, d !! "confidence"%string = Some (PNum c) /\ 0 <= c <= 1.
Proof.
  intros Hprob Ht. unfold_predictor. rewrite Ht. cbn [negb].
  destruct (MLModels.scalers self !! "discrepancy_detector"%string) as [sc|];
    [|discriminate].
  destruct (MLModels.models self !! "discrepancy_detector"%string) as [m|];
    [|discriminate].
  destruct (predict_proba m _ !! (if (predict m _ =? 0)%nat then 0%nat else 1%nat))
    as [c|] eqn:Ec; [|discriminate].
  destruct (predict_proba m _ !! 1%nat) as [p1|]; [|discriminate].
  confidence_of_lookup Hprob.
Qed.

Lemma predict_severity_confidence (features : gmap string Q)
    (self : MLModels.RadiologyMLModels Model Scaler) (d : pred) :
  probabilities_in_range predict_proba -> MLModels.is_trained self = true ->
  fst (MLModels.predict_severity transform predict predict_proba features
         self) = MLModels.Returned d ->
  exists c, d !! "confidence"%string = Some (PNum c) /\ 0 <= c <= 1.
Proof.
  intros Hprob Ht. unfold_predictor. rewrite Ht. cbn [negb].
  destruct (MLModels.scalers self !! "severity_classifier"%string) as [sc|];
    [|discriminate].
  destruct (MLModels.models self !! "severity_classifier"%string) as [m|];
    [|discriminate].
  destruct (MLModels.severity_labels !! _) as [label|]; [|discriminate].
  destruct (predict_proba m _ !! _) as [c|] eqn:Ec; [|discriminate].
  destruct (MLModels.label_probabilities Model Scaler _ _ _ self)
    as [[probs|exc] s']; [|discriminate].
  confidence_of_lookup Hprob.
Qed.

Lemma predict_quality_confidence (features : gmap string Q)
    (self : MLModels.RadiologyMLModels Model Scaler) (d : pred) :
  probabilities_in_range predict_proba -> MLModels.is_trained self = true ->
  fst (MLModels.predict_quality transform predict predict_proba features
         self) = MLModels.Returned d ->
  exists c, d !! "confidence"%string = Some (PNum c) /\ 0 <= c <= 1.
Proof.
  intros Hprob Ht. unfold_predictor. rewrite Ht. cbn [negb].
  destruct (MLModels.scalers self !! "quality_assessor"%string) as [sc|];
    [|discriminate].
  destruct (MLModels.models self !! "quality_assessor"%string) as [m|];
    [|discriminate].
  destruct (MLModels.quality_labels !! _) as [label|]; [|discriminate].
  destruct (predict_proba m _ !! _) as [c|] eqn:Ec; [|discriminate].
  destruct (MLModels.label_probabilities Model Scaler _ _ _ self)
    as [[probs|exc] s']; [|discriminate].
  confidence_of_lookup Hprob.
Qed.

Lemma get_confidence_of (d : pred) (c : Q) :
  d !! "confidence"%string = Some (PNum c) ->
  MLModels.get_confidence d = Some c.
Proof. intros H. unfold MLModels.get_confidence. now rewrite H. Qed.

Lemma predictions_confidence (features : gmap string Q)
    (self : MLModels.RadiologyMLModels Model Scaler)
    (a : MLModels.Analysis) :
  probabilities_in_range predict_proba -> MLModels.is_trained self = true ->
  fst (predictions features self) = MLModels.Returned a ->
  0 <= MLModels.overall_confidence a <= 1.
Proof.
  intros Hprob Ht. unfold predictions, MLModels.bind.
  destruct (predict_pathology_trained features self Ht) as [E1 _].
  pose proof (predict_pathology_confidence features self) as C1.
  destruct (MLModels.predict_pathology _ _ _ features self) as [[p|exc] s1];
    cbn [fst snd] in E1, C1 |- *; subst s1; [|discriminate].
  destruct (C1 p Hprob Ht eq_refl) as (c1 & Hc1 & Hb1). clear C1.
  destruct (predict_severity_trained features self Ht) as [E2 _].
  pose proof (predict_severity_confidence features self) as C2.
  destruct (MLModels.predict_severity _ _ _ features self) as [[s|exc] s2];
    cbn [fst snd] in E2, C2 |- *; subst s2; [|discriminate].
  destruct (C2 s Hprob Ht eq_refl) as (c2 & Hc2 & Hb2). clear C2.
  destruct (predict_quality_trained features self Ht) as [E3 _].
  pose proof (predict_quality_confidence features self) as C3.
  destruct (MLModels.predict_quality _ _ _ features self) as [[q|exc] s3];
    cbn [fst snd] in E3, C3 |- *; subst s3; [|discriminate].
  destruct (C3 q Hprob Ht eq_refl) as (c3 & Hc3 & Hb3). clear C3.
  destruct (predict_discrepancy_trained features self Ht) as [E4 _].
  pose proof (predict_discrepancy_confidence features self) as C4.
  destruct (MLModels.predict_discrepancy _ _ _ features self) as [[d|exc] s4];
    cbn [fst snd] in E4, C4 |- *; subst s4; [|discriminate].
  destruct (C4 d Hprob Ht eq_refl) as (c4 & Hc4 & Hb4). clear C4.
  unfold MLModels.aggregate.
  rewrite (get_confidence_of p c1 Hc1), (get_confidence_of s c2 Hc2),
    (get_confidence_of q c3 Hc3), (get_confidence_of d c4 Hc4).
  destruct (MLModels._generate_ml_summary _ _ p s q d); [|discriminate].
  cbn [MLModels.ret fst]. intros E. injection E as <-.
  cbn [MLModels.overall_confidence].
  apply mean_bounds; [discriminate|].
  repeat (apply List.Forall_cons; [assumption|]). apply List.Forall_nil.
Qed.

(** The overall confidence of a returned analysis is a mean of class
    probabilities. *)
Lemma comprehensive_analysis_confidence (features : gmap string Q)
    (self : MLModels.RadiologyMLModels Model Scaler)
    (a : MLModels.Analysis) :
  probabilities_in_range predict_proba ->
  fst (analysis features self) = MLModels.Returned a ->
  0 <= MLModels.overall_confidence a <= 1.
Proof.
  intros Hprob. destruct (MLModels.is_trained self) eqn:Ht.
  - rewrite comprehensive_analysis_trained by exact Ht.
    now apply predictions_confidence.
  - rewrite comprehensive_analysis_untrained by exact Ht.
    destruct (train_models_outcome generate_synthetic_training_data
                training_feature_names fit_scaler fit_model None self)
      as [(E & Ht' & _)|(E & _)]; cbv zeta in E;
      destruct (MLModels.train_models _ _ _ _ None self) as [o s1];
      cbn [fst snd] in *; subst o; [|discriminate].
    now apply predictions_confidence.
Qed.

End PredictorFacts.
(** A trained object that lost its estimators: the calls raise and leave
    it alone. *)
Lemma prediction_keeps_trained_object_witness :
  let self : MLModels.RadiologyMLModels unit unit :=
    MLModels.mkModels ∅ ∅ ["contrast"%string] true in
  snd (MLModels.predict_pathology (fun _ v => v) (fun _ _ => 1%nat)
         (fun _ _ => [3 # 10; 7 # 10]) ∅ self) = self
  /\ snd (MLModels.predict_severity (fun _ v => v) (fun _ _ => 1%nat)
            (fun _ _ => [3 # 10; 7 # 10]) ∅ self) = self
  /\ snd (MLModels.predict_quality (fun _ v => v) (fun _ _ => 1%nat)
            (fun _ _ => [3 # 10; 7 # 10]) ∅ self) = self
  /\ snd (MLModels.predict_discrepancy (fun _ v => v) (fun _ _ => 1%nat)
            (fun _ _ => [3 # 10; 7 # 10]) ∅ self) = self
  /\ snd (MLModels.comprehensive_analysis (fun _ v => v) (fun _ _ => 1%nat)
            (fun _ _ => [3 # 10; 7 # 10]) (fun _ : nat => tt)
            (fun _ : unit => ["contrast"%string]) (fun sc _ _ => sc)
            (fun m _ _ _ => m) (fun _ => "70.0%"%string)
            (fun _ => "value"%string) ∅ self) = self.
Proof.
  intros self.
  apply (prediction_keeps_trained_object (fun _ v => v) (fun _ _ => 1%nat)
           (fun _ _ => [3 # 10; 7 # 10]) (fun _ : nat => tt)
           (fun _ : unit => ["contrast"%string]) (fun sc _ _ => sc)
           (fun m _ _ _ => m) (fun _ => "70.0%"%string)
           (fun _ => "value"%string) ∅ self).
  reflexivity.
Defined.

Section QualityFacts.

Context {Model Scaler : Type}.
Variable transform : Scaler -> list Q -> list Q.
Variable predict : Model -> list Q -> nat.
Variable predict_proba : Model -> list Q -> list Q.


End QualityFacts.


Section SaveLoad.

Context {Model Scaler : Type}.

(** Saving and loading.  A trained object is written to the path, the
    other paths keep their content, and loading that path into any object
    gives the saved object back.  An untrained object raises [ValueError]
    and nothing is written.  Loading a path that holds nothing leaves the
    object as it is. *)
Theorem save_models_then_load (filepath : string)
    (self other : MLModels.RadiologyMLModels Model Scaler)
    (files : MLModels.Files Model Scaler) :
  let r := MLModels.save_models filepath self files in
  (if MLModels.is_trained self
   then fst r = MLModels.Returned tt
        /\ MLModels.load_models filepath other (snd r) = self
        /\ forall path, path <> filepath -> snd r !! path = files !! path
   else fst r = MLModels.Raised "ValueError" /\ snd r = files)
  /\ (files !! filepath = None ->
      MLModels.load_models filepath other files = other).
Proof.
  cbv zeta. split.
  - unfold MLModels.save_models.
    destruct (MLModels.is_trained self) eqn:Ht; cbn [negb fst snd].
    + split; [reflexivity|]. split.
      * unfold MLModels.load_models, MLModels.Files.
        rewrite lookup_insert_eq.
        destruct self as [ms ss fs t]. cbn in Ht |- *. subst t. reflexivity.
      * intros path Hne. unfold MLModels.Files.
        apply lookup_insert_ne. congruence.
    + split; reflexivity.
  - intros Hnone. unfold MLModels.load_models. rewrite Hnone. reflexivity.
Qed.

End SaveLoad.

(** The features [_prepare_ml_features] builds have exactly the
    fourteen names for which [_prepare_feature_vector] holds defaults, so
    for an object trained on those names every entry of the feature vector
    is the prepared feature of its name and no default is used. *)
Theorem prepared_features_cover_feature_names
    {Model Scaler : Type}
    (nlp_results : list MedicalNLP.Finding)
    (report_quality : MedicalNLP.ReportQuality)
    (image_features : gmap string Q) (image_count : nat)
    (self : MLModels.RadiologyMLModels Model Scaler) :
  (forall name, In name (MLModels.feature_names self) ->
     is_Some (MLModels.default_values !! name)) ->
  let features :=
    RunAnalysis._prepare_ml_features nlp_results report_quality image_features
      image_count in
  dom features = dom MLModels.default_values
  /\ Forall2 (fun name value => features !! name = Some value)
       (MLModels.feature_names self)
       (MLModels._prepare_feature_vector Model Scaler self features).
Proof.
  intros Hnames features.
  assert (Hdom : dom features = dom MLModels.default_values).
  { unfold features, RunAnalysis._prepare_ml_features,
      MLModels.default_values.
    rewrite !dom_list_to_map_L. reflexivity. }
  split; [exact Hdom|].
  unfold MLModels._prepare_feature_vector.
  induction (MLModels.feature_names self) as [|name rest IH];
    [constructor|].
  cbn [List.map]. constructor.
  - assert (Hin : name ∈ dom features).
    { rewrite Hdom. apply elem_of_dom. apply Hnames. left. reflexivity. }
    apply elem_of_dom in Hin. destruct Hin as [v Hv]. rewrite Hv. reflexivity.
  - apply IH. intros n Hn. apply Hnames. right. exact Hn.
Qed.

(** An object trained on two of the names. *)
Lemma prepared_features_cover_feature_names_witness :
  let self : MLModels.RadiologyMLModels unit unit :=
    MLModels.mkModels ∅ ∅ ["word_count"; "confidence_variance"]%string true in
  let features :=
    RunAnalysis._prepare_ml_features []
      (MedicalNLP.mkReportQuality 80 90 85 75 42 5 3 [] "Good") ∅ 0 in
  dom features = dom MLModels.default_values
  /\ Forall2 (fun name value => features !! name = Some value)
       ["word_count"; "confidence_variance"]%string
       (MLModels._prepare_feature_vector unit unit self features).
Proof.
  intros self features.
  apply (prepared_features_cover_feature_names []
           (MedicalNLP.mkReportQuality 80 90 85 75 42 5 3 [] "Good") ∅ 0%nat
           self).
  intros name Hin. simpl in Hin.
  destruct Hin as [<-|[<-|[]]]; eexists; vm_compute; reflexivity.
Defined.

(** ** [medical_nlp.py]: findings and report quality *)

(** The merging loop, from any state in which the set holds the keys of
    the findings kept so far. *)
Lemma merge_loop (findings acc : list MedicalNLP.Finding) (seen : gset string) :
  (forall k, k ∈ seen <-> In k (List.map MedicalNLP.finding_key acc)) ->
  List.NoDup (List.map MedicalNLP.finding_key acc) ->
  let st := fold_left MedicalNLP.merge_step findings (acc, seen) in
  (forall k, k ∈ snd st <-> In k (List.map MedicalNLP.finding_key (fst st)))
  /\ List.NoDup (List.map MedicalNLP.finding_key (fst st))
  /\ (exists kept, fst st = acc ++ kept /\ sublist kept findings)
  /\ (forall f, In f findings ->
        In (MedicalNLP.finding_key f)
           (List.map MedicalNLP.finding_key (fst st))).
Proof.
  revert acc seen.
  induction findings as [|f rest IH]; intros acc seen Hseen Hnd; cbn [fold_left].
  - cbn [fst snd]. split; [exact Hseen|]. split; [exact Hnd|]. split.
    + exists []. rewrite app_nil_r. split; [reflexivity|constructor].
    + intros f [].
  - change (MedicalNLP.merge_step (acc, seen) f)
      with (if bool_decide (MedicalNLP.finding_key f ∈ seen) then (acc, seen)
            else (acc ++ [f], seen ∪ {[ MedicalNLP.finding_key f ]})).
    destruct (bool_decide (MedicalNLP.finding_key f ∈ seen)) eqn:Hk.
    + apply bool_decide_eq_true in Hk.
      destruct (IH acc seen Hseen Hnd) as (H1 & H2 & (kept & Hk1 & Hk2) & H4).
      split; [exact H1|]. split; [exact H2|]. split.
      * exists kept. split; [exact Hk1|]. now constructor.
      * intros g [<-|Hg]; [|now apply H4].
        rewrite Hk1, List.map_app. apply List.in_or_app. left.
        now apply Hseen.
    + apply bool_decide_eq_false in Hk.
      destruct (IH (acc ++ [f]) (seen ∪ {[ MedicalNLP.finding_key f ]}))
        as (H1 & H2 & (kept & Hk1 & Hk2) & H4).
      * intros k. rewrite List.map_app, List.in_app_iff, elem_of_union,
          elem_of_singleton, Hseen. cbn. intuition.
      * rewrite List.map_app. cbn [List.map].
        apply NoDup_ListNoDup. apply NoDup_app.
        split; [now apply NoDup_ListNoDup|]. split.
        -- intros k Hin Hin'. apply list_elem_of_singleton in Hin'. subst k.
           apply Hk, Hseen. now apply list_elem_of_In.
        -- apply NoDup_singleton.
      * split; [exact H1|]. split; [exact H2|]. split.
        -- exists (f :: kept). rewrite Hk1, <- app_assoc. split; [reflexivity|].
           now constructor.
        -- intros g [<-|Hg]; [|now apply H4].
           rewrite Hk1, !List.map_app. apply List.in_or_app. left.
           apply List.in_or_app. right. now left.
Qed.

(** The loop keeps findings whose keys are new and pairwise different. *)
Lemma merge_loop_distinct (findings acc : list MedicalNLP.Finding)
    (seen : gset string) :
  (forall k, k ∈ seen <-> In k (List.map MedicalNLP.finding_key acc)) ->
  List.NoDup (List.map MedicalNLP.finding_key (acc ++ findings)) ->
  fst (fold_left MedicalNLP.merge_step findings (acc, seen)) = acc ++ findings.
Proof.
  revert acc seen.
  induction findings as [|f rest IH]; intros acc seen Hseen Hnd; cbn [fold_left].
  - now rewrite app_nil_r.
  - change (MedicalNLP.merge_step (acc, seen) f)
      with (if bool_decide (MedicalNLP.finding_key f ∈ seen) then (acc, seen)
            else (acc ++ [f], seen ∪ {[ MedicalNLP.finding_key f ]})).
    assert (Hnew : MedicalNLP.finding_key f ∉ seen).
    { intros Hin. apply Hseen in Hin.
      rewrite List.map_app in Hnd. cbn [List.map] in Hnd.
      apply List.NoDup_remove_2 in Hnd. apply Hnd.
      apply List.in_or_app. now left. }
    rewrite bool_decide_eq_false_2 by exact Hnew.
    rewrite IH; [now rewrite <- app_assoc| |now rewrite <- app_assoc].
    intros k. rewrite List.map_app, List.in_app_iff, elem_of_union,
      elem_of_singleton, Hseen. cbn. intuition.
Qed.

(** What the loop adds are findings with keys not seen before, each the
    first of its key among the findings still to come. *)
Lemma merge_loop_first (findings acc : list MedicalNLP.Finding)
    (seen : gset string) :
  exists kept,
    fst (fold_left MedicalNLP.merge_step findings (acc, seen)) = acc ++ kept
    /\ forall g, In g kept ->
         (MedicalNLP.finding_key g ∉ seen)
         /\ List.find
              (fun f => bool_decide
                          (MedicalNLP.finding_key f = MedicalNLP.finding_key g))
              findings
            = Some g.
Proof.
  revert acc seen.
  induction findings as [|f rest IH]; intros acc seen; cbn [fold_left].
  - exists []. rewrite app_nil_r. split; [reflexivity|]. intros g [].
  - change (MedicalNLP.merge_step (acc, seen) f)
      with (if bool_decide (MedicalNLP.finding_key f ∈ seen) then (acc, seen)
            else (acc ++ [f], seen ∪ {[ MedicalNLP.finding_key f ]})).
    destruct (bool_decide (MedicalNLP.finding_key f ∈ seen)) eqn:Hk.
    + apply bool_decide_eq_true in Hk.
      destruct (IH acc seen) as (kept & Hkept & Hfirst).
      exists kept. split; [exact Hkept|]. intros g Hg.
      destruct (Hfirst g Hg) as [Hnew Hfind]. split; [exact Hnew|].
      cbn [List.find]. rewrite bool_decide_eq_false_2; [exact Hfind|].
      intros E. apply Hnew. rewrite <- E. exact Hk.
    + apply bool_decide_eq_false in Hk.
      destruct (IH (acc ++ [f]) (seen ∪ {[ MedicalNLP.finding_key f ]}))
        as (kept & Hkept & Hfirst).
      exists (f :: kept). rewrite Hkept, <- app_assoc.
      split; [reflexivity|]. intros g [<-|Hg].
      * split; [exact Hk|]. cbn [List.find].
        now rewrite bool_decide_eq_true_2.
      * destruct (Hfirst g Hg) as [Hnew Hfind].
        rewrite elem_of_union, elem_of_singleton in Hnew.
        split; [tauto|]. cbn [List.find].
        rewrite bool_decide_eq_false_2; [exact Hfind|].
        intros E. apply Hnew. right. now symmetry.
Qed.

(** Merging keeps, in order, the first finding of every key: every finding
    of the result is the first finding of the input with its key, the keys
    of the result are pairwise different, the result is a sublist of the
    input, every finding of the input has a finding with its key in the
    result, and merging a second time changes nothing. *)
Theorem merge_similar_findings_first_of_each_key
    (findings : list MedicalNLP.Finding) :
  let merged := MedicalNLP._merge_similar_findings findings in
  (forall g, In g merged ->
     List.find
       (fun f => bool_decide
                   (MedicalNLP.finding_key f = MedicalNLP.finding_key g))
       findings
     = Some g)
  /\ List.NoDup (List.map MedicalNLP.finding_key merged)
  /\ sublist merged findings
  /\ (forall f, In f findings ->
        exists g, In g merged
          /\ MedicalNLP.finding_key g = MedicalNLP.finding_key f)
  /\ MedicalNLP._merge_similar_findings merged = merged.
Proof.
  cbv zeta. unfold MedicalNLP._merge_similar_findings.
  destruct (merge_loop findings [] ∅) as (H1 & H2 & (kept & Hk1 & Hk2) & H4).
  - intros k. cbn. rewrite elem_of_empty. tauto.
  - constructor.
  - split; [|split; [exact H2|split; [|split]]].
    + destruct (merge_loop_first findings [] ∅) as (kept' & Hk' & Hfirst).
      rewrite Hk'. cbn [app]. intros g Hg. apply (Hfirst g Hg).
    + rewrite Hk1. exact Hk2.
    + intros f Hf. apply H4 in Hf. apply List.in_map_iff in Hf.
      destruct Hf as (g & Hg & Hin). exists g. split; [exact Hin|exact Hg].
    + apply (merge_loop_distinct _ [] ∅).
      * intros k. cbn. rewrite elem_of_empty. tauto.
      * exact H2.
Qed.

Lemma extract_severity_loop_values (modifiers : list (string * Z))
    (sentence default_severity : string) :
  In (MedicalNLP._extract_severity_loop modifiers sentence default_severity)
     ["mild"; "moderate"; "severe"; default_severity]%string.
Proof.
  induction modifiers as [|[modifier level] rest IH];
    cbn [MedicalNLP._extract_severity_loop].
  - right. right. right. left. reflexivity.
  - destruct (str_in modifier sentence); [|exact IH].
    destruct (level =? 1)%Z; [left; reflexivity|].
    destruct (level =? 2)%Z; [right; left; reflexivity|].
    right. right. left. reflexivity.
Qed.

(** The confidence of a pathological finding: the adjustments keep the
    base of 80 between 45 and 105, so the floor of 30 is never reached. *)
Lemma finding_confidence_bounds (sentence finding : string) :
  45 <= MedicalNLP._calculate_finding_confidence sentence finding <= 95.
Proof.
  unfold MedicalNLP._calculate_finding_confidence. cbv zeta.
  destruct (MedicalNLP.any_in ["consistent with"; _; _]%string sentence);
    destruct (MedicalNLP.any_in ["possible"; _; _; _; _]%string sentence);
    destruct (MedicalNLP.any_in ["definite"; _; _; _]%string sentence);
    destruct (MedicalNLP.any_in ["no"; _; _; _; _]%string sentence);
    try destruct (str_in finding sentence);
    (split;
     [eapply Qle_trans; [|apply py_max_ge_r]; apply py_min_ge; lra
     |apply py_max_le; [lra|apply py_min_le_l]]).
Qed.

Lemma keyword_default_severities :
  Forall (fun kw : string * MedicalNLP.Keyword =>
            In (MedicalNLP.kw_severity (snd kw))
               ["mild"; "moderate"; "high"]%string)
         MedicalNLP.pathology_keywords.
Proof.
  unfold MedicalNLP.pathology_keywords.
  repeat (apply List.Forall_cons;
            [cbn; first [left; reflexivity | right; left; reflexivity
                        | right; right; left; reflexivity]|]).
  apply List.Forall_nil.
Qed.

(** A property kept by every round of a loop holds when the loop ends. *)
Lemma fold_left_invariant {A B : Type} (Inv : A -> Prop) (f : A -> B -> A)
    (l : list B) (a : A) :
  Inv a -> (forall a b, Inv a -> In b l -> Inv (f a b)) ->
  Inv (fold_left f l a).
Proof.
  revert a. induction l as [|b rest IH]; intros a Ha Hstep; cbn [fold_left];
    [exact Ha|].
  apply IH.
  - apply Hstep; [exact Ha|left; reflexivity].
  - intros a' b' Ha' Hb'. apply Hstep; [exact Ha'|right; exact Hb'].
Qed.

Section ExtractionFacts.

Variable re_sub : string -> string -> string -> string.
Variable re_split : string -> string -> list string.
Variable re_search : string -> string -> option string.

Lemma pathology_from_sentence_well_formed (sentence : string) :
  Forall finding_well_formed
    (MedicalNLP._extract_pathology_from_sentence re_search sentence).
Proof.
  unfold MedicalNLP._extract_pathology_from_sentence.
  apply (fold_left_invariant (Forall finding_well_formed));
    [apply List.Forall_nil|].
  intros acc [pathology details] Hacc Hin.
  destruct (str_in pathology sentence); [|exact Hacc].
  apply Forall_app. split; [exact Hacc|].
  apply List.Forall_cons; [|apply List.Forall_nil]. left.
  cbn [MedicalNLP.type MedicalNLP.confidence MedicalNLP.finding
       MedicalNLP.severity MedicalNLP.location MedicalNLP.urgency].
  split; [reflexivity|]. split; [apply finding_confidence_bounds|].
  split; [exists (pathology, details); repeat split; [exact Hin|reflexivity..]|].
  split; [|eexists; reflexivity].
  eexists. split; [reflexivity|].
  pose proof (proj1 (List.Forall_forall _ _) keyword_default_severities
                _ Hin) as Hd.
  cbn [snd] in Hd.
  pose proof (extract_severity_loop_values MedicalNLP.severity_modifiers
                sentence (MedicalNLP.kw_severity details)) as Hs.
  unfold MedicalNLP._extract_severity.
  destruct Hs as [<-|[<-|[<-|[<-|[]]]]];
    [left; reflexivity|right; left; reflexivity
    |right; right; left; reflexivity|].
  destruct Hd as [<-|[<-|[<-|[]]]];
    [left; reflexivity|right; left; reflexivity
    |right; right; right; left; reflexivity].
Qed.

Lemma normal_findings_well_formed (sentence : string) :
  Forall finding_well_formed (MedicalNLP._extract_normal_findings sentence).
Proof.
  unfold MedicalNLP._extract_normal_findings.
  destruct (List.find _ MedicalNLP.normal_indicators);
    [|apply List.Forall_nil].
  apply List.Forall_cons; [|apply List.Forall_nil]. right.
  cbn [MedicalNLP.type MedicalNLP.confidence MedicalNLP.severity
       MedicalNLP.location MedicalNLP.urgency].
  repeat split; reflexivity.
Qed.

(** Every finding [extract_clinical_findings] returns is either a
    pathological finding named after a keyword of the table, with the
    urgency of that keyword, a confidence between 45 and 95, a location and
    a severity among mild, moderate, severe and high (the default of three
    keywords), or a normal finding with confidence 90 and no severity,
    location or urgency; and no two findings returned share the key made
    of finding and location. *)
Theorem extract_clinical_findings_well_formed (text : string) :
  let findings :=
    MedicalNLP.extract_clinical_findings re_sub re_split re_search text in
  Forall finding_well_formed findings
  /\ List.NoDup (List.map MedicalNLP.finding_key findings).
Proof.
  cbv zeta. unfold MedicalNLP.extract_clinical_findings. cbv zeta.
  set (sentences := MedicalNLP._split_into_sentences re_sub re_split text).
  match goal with
  | |- context [MedicalNLP._merge_similar_findings ?l] => set (all := l)
  end.
  assert (Hall : Forall finding_well_formed all).
  { unfold all.
    apply (fold_left_invariant (Forall finding_well_formed));
      [apply List.Forall_nil|].
    intros acc sentence Hacc _.
    apply Forall_app. split; [apply Forall_app; split|].
    - exact Hacc.
    - apply pathology_from_sentence_well_formed.
    - apply normal_findings_well_formed. }
  clearbody all. unfold MedicalNLP._merge_similar_findings.
  destruct (merge_loop all [] ∅) as (_ & H2 & (kept & Hk1 & Hk2) & _).
  - intros k. cbn. rewrite elem_of_empty. tauto.
  - constructor.
  - split; [|exact H2]. rewrite Hk1. cbn [app].
    apply List.Forall_forall. intros f Hf.
    apply (proj1 (List.Forall_forall _ _) Hall).
    apply list_elem_of_In. apply (elem_of_sublist kept); [|exact Hk2].
    now apply list_elem_of_In.
Qed.

End ExtractionFacts.

Lemma round_half_even_ge (x : Q) (k : Z) :
  inject_Z k <= x -> (k <= round_half_even x)%Z.
Proof.
  intros Hx. unfold round_half_even.
  assert (Hfk : (k <= Qfloor x)%Z).
  { rewrite <- (Qfloor_Z k). now apply Qfloor_resp_le. }
  destruct (Qcompare _ _); [destruct (Z.even _)| |]; lia.
Qed.

(** Rounding does not cross a whole number from above. *)
Lemma py_round1_ge (x : Q) (k : Z) :
  inject_Z k <= x -> inject_Z k <= py_round1 x.
Proof.
  intros Hx. unfold py_round1.
  assert (H : (k * 10 <= round_half_even (x * 10))%Z).
  { apply round_half_even_ge. rewrite inject_Z_mult.
    change (inject_Z 10) with 10. lra. }
  apply Qle_shift_div_l; [reflexivity|].
  change 10 with (inject_Z 10). rewrite <- inject_Z_mult.
  now rewrite <- Zle_Qle.
Qed.

Lemma assess_completeness_bounds (sections : list string) (word_count : nat) :
  0 <= MedicalNLP._assess_completeness sections word_count <= 100.
Proof.
  unfold MedicalNLP._assess_completeness. cbv zeta. cbn [fold_left].
  destruct (MedicalNLP.mem "findings" sections);
    destruct (MedicalNLP.mem "impression" sections);
    destruct (MedicalNLP.mem "clinical_history" sections);
    destruct (MedicalNLP.mem "technique" sections);
    (destruct (50 <=? word_count)%nat; [|destruct (30 <=? word_count)%nat]);
    (split; [apply py_min_ge; lra|apply py_min_le_l]).
Qed.

Lemma assess_clarity_bounds (text : string) (sentence_count word_count : nat) :
  45 <= MedicalNLP._assess_clarity text sentence_count word_count <= 95.
Proof.
  unfold MedicalNLP._assess_clarity. cbv zeta.
  destruct (0 <? sentence_count)%nat;
    [destruct (MedicalNLP.between 8 _ 25)|];
    destruct (MedicalNLP.any_in _ (lower text));
    destruct (3 <=? MedicalNLP._count_medical_terms text)%nat;
    (split;
     [eapply Qle_trans; [|apply py_max_ge_r]; apply py_min_ge; lra
     |apply py_max_le; [lra|eapply Qle_trans; [apply py_min_le_r|lra]]]).
Qed.

Section QualityBounds.

Variable re_sub : string -> string -> string -> string.
Variable re_split : string -> string -> list string.

Lemma readability_values (text : string) :
  let r := MedicalNLP._calculate_readability re_sub re_split text in
  r = 0 \/ r = 60 \/ r = 75 \/ r = 85.
Proof.
  cbv zeta. unfold MedicalNLP._calculate_readability. cbv zeta.
  destruct (is_nil _); [left; reflexivity|].
  destruct (MedicalNLP.between 10 _ 20); [right; right; right; reflexivity|].
  destruct (MedicalNLP.between 8 _ 25); [right; right; left; reflexivity|].
  right. left. reflexivity.
Qed.

(** The four scores of [assess_report_quality] together. *)
Lemma assess_report_quality_ranges (text : string) :
  let q := MedicalNLP.assess_report_quality re_sub re_split text in
  0 <= MedicalNLP.completeness_score q <= 100
  /\ 45 <= MedicalNLP.clarity_score q <= 95
  /\ (MedicalNLP.readability_score q == 0
      \/ MedicalNLP.readability_score q == 60
      \/ MedicalNLP.readability_score q == 75
      \/ MedicalNLP.readability_score q == 85)
  /\ 15 <= MedicalNLP.overall_score q <= 94.
Proof.
  cbv zeta. unfold MedicalNLP.assess_report_quality. cbv zeta.
  cbn [MedicalNLP.completeness_score MedicalNLP.clarity_score
       MedicalNLP.readability_score MedicalNLP.overall_score].
  set (sections := MedicalNLP._identify_report_sections text).
  set (words := length (split_ws text)).
  set (sentences :=
         length (MedicalNLP._split_into_sentences re_sub re_split text)).
  pose proof (assess_completeness_bounds sections words) as [Hc1 Hc2].
  pose proof (assess_clarity_bounds text sentences words) as [Hl1 Hl2].
  pose proof (readability_values text) as Hr. cbv zeta in Hr.
  set (c := MedicalNLP._assess_completeness sections words) in *.
  set (l := MedicalNLP._assess_clarity text sentences words) in *.
  set (r := MedicalNLP._calculate_readability re_sub re_split text) in *.
  clearbody c l r. clear sections words sentences.
  assert (Hr' : 0 <= r <= 85) by (destruct Hr as [->|[->|[->| ->]]]; lra).
  split; [split; [apply (py_round1_ge c 0)|apply (py_round1_le c 100)];
            assumption|].
  split; [split; [apply (py_round1_ge l 45)|apply (py_round1_le l 95)];
            assumption|].
  split.
  - destruct Hr as [->|[->|[->| ->]]];
      [left; apply (py_round1_int 0 0)
      |right; left; apply (py_round1_int 60 60)
      |right; right; left; apply (py_round1_int 75 75)
      |right; right; right; apply (py_round1_int 85 85)]; reflexivity.
  - split; [apply (py_round1_ge _ 15)|apply (py_round1_le _ 94)];
      change (inject_Z 15) with 15; change (inject_Z 94) with 94;
      apply Qle_shift_div_l || apply Qle_shift_div_r; try reflexivity; lra.
Qed.

(** The scores of [assess_report_quality], for any text: completeness lies
    in [0, 100], clarity in [45, 95], readability is 0, 60, 75 or 85, and
    the overall score, their rounded mean, lies in [15, 94]. *)
Theorem report_quality_scores_in_range (text : string) :
  let q := MedicalNLP.assess_report_quality re_sub re_split text in
  0 <= MedicalNLP.completeness_score q <= 100
  /\ 45 <= MedicalNLP.clarity_score q <= 95
  /\ (MedicalNLP.readability_score q == 0
      \/ MedicalNLP.readability_score q == 60
      \/ MedicalNLP.readability_score q == 75
      \/ MedicalNLP.readability_score q == 85)
  /\ 15 <= MedicalNLP.overall_score q <= 94.
Proof. exact (assess_report_quality_ranges text). Qed.

End QualityBounds.

(** ** [computer_vision.py]: the quality score *)

(** The image quality score lies between 0 and 100 for non-negative
    contrast, sharpness and signal-to-noise ratio, and does not decrease
    when any of the three increases. *)
Theorem image_quality_score_bounded_and_monotone
    (contrast sharpness snr contrast' sharpness' snr' : Q) :
  0 <= contrast <= contrast' -> 0 <= sharpness <= sharpness' ->
  0 <= snr <= snr' ->
  0 <= ComputerVision._calculate_overall_quality_score contrast sharpness snr
  /\ ComputerVision._calculate_overall_quality_score contrast sharpness snr
     <= ComputerVision._calculate_overall_quality_score contrast' sharpness'
          snr'
  /\ ComputerVision._calculate_overall_quality_score contrast' sharpness' snr'
     <= 100.
Proof.
  intros [Hc Hc'] [Hs Hs'] [Hn Hn'].
  unfold ComputerVision._calculate_overall_quality_score. cbv zeta.
  rewrite !py_min_Qmin.
  assert (M : forall a b, a <= b -> Qmin 100 a <= Qmin 100 b).
  { intros a b H. apply Q.min_le_compat_l. exact H. }
  assert (P : forall a, 0 <= a -> 0 <= Qmin 100 a).
  { intros a H. apply Q.min_glb; [discriminate|exact H]. }
  assert (U : forall a, Qmin 100 a <= 100) by (intros a; apply Q.le_min_l).
  assert (Ec : forall x, x / 64 * 100 == x * (25 # 16)) by (intros; field).
  assert (Es : forall x, x / 1000 * 100 == x * (1 # 10)) by (intros; field).
  assert (Dc : contrast / 64 * 100 <= contrast' / 64 * 100)
    by (rewrite !Ec; lra).
  assert (Ds : sharpness / 1000 * 100 <= sharpness' / 1000 * 100)
    by (rewrite !Es; lra).
  assert (Pc : 0 <= contrast / 64 * 100) by (rewrite Ec; lra).
  assert (Ps : 0 <= sharpness / 1000 * 100) by (rewrite Es; lra).
  pose proof (M _ _ Dc) as M1. pose proof (M _ _ Ds) as M2.
  pose proof (M _ _ Hn') as M3.
  pose proof (P _ Pc) as P1. pose proof (P _ Ps) as P2.
  pose proof (P _ Hn) as P3.
  pose proof (U (contrast' / 64 * 100)) as U1.
  pose proof (U (sharpness' / 1000 * 100)) as U2.
  pose proof (U snr') as U3.
  repeat split; lra.
Qed.

Lemma image_quality_score_bounded_and_monotone_witness :
  0 <= ComputerVision._calculate_overall_quality_score 32 500 40
  /\ ComputerVision._calculate_overall_quality_score 32 500 40
     <= ComputerVision._calculate_overall_quality_score 64 2000 40
  /\ ComputerVision._calculate_overall_quality_score 64 2000 40 <= 100.
Proof.
  apply (image_quality_score_bounded_and_monotone 32 500 40 64 2000 40);
    split; discriminate.
Defined.

(** ** [run_analysis.py]: the whole case *)




Section SystemFacts.

Context {Model Scaler TrainingData : Type}.
Variable transform : Scaler -> list Q -> list Q.
Variable predict : Model -> list Q -> nat.
Variable predict_proba : Model -> list Q -> list Q.
Variable generate_synthetic_training_data : nat -> TrainingData.
Variable training_feature_names : TrainingData -> list string.
Variable fit_scaler : Scaler -> TrainingData -> string -> Scaler.
Variable fit_model : Model -> Scaler -> TrainingData -> string -> Model.
Variable format_percent : Q -> string.
Variable format_value : pyval -> string.
Variable re_sub : string -> string -> string -> string.
Variable re_split : string -> string -> list string.
Variable re_search : string -> string -> option string.
Variable process_medical_image : string -> ComputerVision.ProcessedImage.



End SystemFacts.

Lemma run_cross_modal_confidence_range (nlp_results : list TextFinding)
    (image_results : list RunAnalysis.ImageResult) :
  0 <= cross_modal_confidence
         (RunAnalysis._perform_cross_modal_analysis nlp_results image_results)
    <= 100.
Proof.
  destruct (run_cross_modal_confidence nlp_results image_results) as [E H].
  cbv zeta in E, H. split; [exact H|]. rewrite E.
  unfold spec_cross_modal_confidence. apply Q.max_lub; [discriminate|].
  match goal with |- _ - _ * inject_Z (Z.of_nat ?n) <= _ =>
    pose proof (Qnat_nonneg n) end.
  lra.
Qed.

Section CaseConfidence.

Context {Model Scaler TrainingData : Type}.
Variable transform : Scaler -> list Q -> list Q.
Variable predict : Model -> list Q -> nat.
Variable predict_proba : Model -> list Q -> list Q.
Variable generate_synthetic_training_data : nat -> TrainingData.
Variable training_feature_names : TrainingData -> list string.
Variable fit_scaler : Scaler -> TrainingData -> string -> Scaler.
Variable fit_model : Model -> Scaler -> TrainingData -> string -> Model.
Variable format_percent : Q -> string.
Variable format_value : pyval -> string.
Variable re_sub : string -> string -> string -> string.
Variable re_split : string -> string -> list string.
Variable re_search : string -> string -> option string.
Variable process_medical_image : string -> ComputerVision.ProcessedImage.

(** The confidence of a case report.  [_generate_comprehensive_report]
    does not clamp its confidence, but inside the whole analysis its three
    inputs are bounded: when the class probabilities of the estimators lie
    between 0 and 1, the ML confidence is a mean of four of them, the
    cross-modal confidence lies in [0, 100] and the report score in
    [15, 94], so every report returned has a confidence between 5 and
    98. *)
Theorem case_report_confidence_range (report_text : string)
    (images : list string)
    (self : MLModels.RadiologyMLModels Model Scaler)
    (report : RunAnalysis.CaseReport) :
  probabilities_in_range predict_proba ->
  fst (RunAnalysis.analyze_complete_case transform predict predict_proba
         generate_synthetic_training_data training_feature_names fit_scaler
         fit_model format_percent format_value re_sub re_split re_search
         process_medical_image report_text (Some images) self)
  = MLModels.Returned report ->
  5 <= RunAnalysis.confidence (RunAnalysis.cr_report report) <= 98.
Proof.
  intros Hprob. unfold RunAnalysis.analyze_complete_case. cbv zeta.
  cbn [default].
  destruct (if negb (is_nil images) then _ else _) as [image_results features].
  unfold MLModels.bind.
  match goal with
  | |- context [MLModels.comprehensive_analysis _ _ _ _ _ _ _ _ _ ?f self] =>
      pose proof (comprehensive_analysis_confidence transform predict
                    predict_proba generate_synthetic_training_data
                    training_feature_names fit_scaler fit_model
                    format_percent format_value f self) as C;
      destruct (MLModels.comprehensive_analysis transform predict
                  predict_proba generate_synthetic_training_data
                  training_feature_names fit_scaler fit_model
                  format_percent format_value f self) as [[a|exc] s1]
  end; cbn [fst snd] in C |- *; [|discriminate].
  specialize (C a Hprob eq_refl).
  cbn [MLModels.ret fst]. intros E. injection E as <-.
  unfold RunAnalysis.full_report. cbv zeta. cbn [RunAnalysis.cr_report].
  unfold RunAnalysis._generate_comprehensive_report. cbv zeta.
  cbn [RunAnalysis.confidence].
  unfold RunAnalysis.report_overall_confidence. cbv zeta.
  unfold RunAnalysis.to_report_quality. cbn [RunAnalysis.overall_score].
  destruct (assess_report_quality_ranges re_sub re_split report_text)
    as (_ & _ & _ & Hs). cbv zeta in Hs.
  match goal with
  | |- context [cross_modal_confidence
                  (RunAnalysis._perform_cross_modal_analysis ?n ?i)] =>
      pose proof (run_cross_modal_confidence_range n i) as Hc;
      set (cm := cross_modal_confidence
                   (RunAnalysis._perform_cross_modal_analysis n i)) in *
  end.
  set (score := MedicalNLP.overall_score
                  (MedicalNLP.assess_report_quality re_sub re_split
                     report_text)) in *.
  set (ml := MLModels.overall_confidence a) in *.
  clearbody cm score ml.
  assert (Hcm : 0 <= cm / 100 <= 1).
  { split; [apply Qle_shift_div_l|apply Qle_shift_div_r];
      try reflexivity; lra. }
  assert (Hsc : 15 # 100 <= score / 100 <= 94 # 100).
  { split; [apply Qle_shift_div_l|apply Qle_shift_div_r];
      try reflexivity; lra. }
  set (x := cm / 100) in *. set (y := score / 100) in *. clearbody x y.
  assert (Hm : Qsum [ml; x; y] / Qlen [ml; x; y] * 100
               == (ml + x + y) * (100 # 3)).
  { unfold Qsum, Qlen. cbn [fold_left length]. field. }
  split; [apply (py_round1_ge _ 5)|apply (py_round1_le _ 98)];
    rewrite Hm; change (inject_Z 5) with 5; change (inject_Z 98) with 98; lra.
Qed.

End CaseConfidence.

(** A case without images, analysed by a system whose estimators always
    answer class 1 with probability 0.7. *)
Lemma case_report_confidence_range_witness :
  match
    fst (RunAnalysis.analyze_complete_case (fun _ v => v) (fun _ _ => 1%nat)
           (fun _ _ => [3 # 10; 7 # 10]) (fun _ : nat => tt)
           (fun _ : unit => ["contrast"%string]) (fun sc _ _ => sc)
           (fun m _ _ _ => m) (fun _ => "70.0%"%string)
           (fun _ => "value"%string) (fun _ _ s => s) (fun _ s => [s])
           (fun _ _ => None)
           (fun _ => ComputerVision.mkProcessedImage false ∅ [] None)
           "Findings: small nodule." (Some [])
           (MLModels.init tt tt tt tt tt
            : MLModels.RadiologyMLModels unit unit))
  with
  | MLModels.Returned report =>
      5 <= RunAnalysis.confidence (RunAnalysis.cr_report report) <= 98
  | MLModels.Raised _ => False
  end.
Proof.
  remember
    (fst (RunAnalysis.analyze_complete_case (fun _ v => v) (fun _ _ => 1%nat)
            (fun _ _ => [3 # 10; 7 # 10]) (fun _ : nat => tt)
            (fun _ : unit => ["contrast"%string]) (fun sc _ _ => sc)
            (fun m _ _ _ => m) (fun _ => "70.0%"%string)
            (fun _ => "value"%string) (fun _ _ s => s) (fun _ s => [s])
            (fun _ _ => None)
            (fun _ => ComputerVision.mkProcessedImage false ∅ [] None)
            "Findings: small nodule." (Some [])
            (MLModels.init tt tt tt tt tt
             : MLModels.RadiologyMLModels unit unit)))
    as r eqn:E.
  destruct r as [report|exc].
  - apply (case_report_confidence_range (fun _ v => v) (fun _ _ => 1%nat)
             (fun _ _ => [3 # 10; 7 # 10]) (fun _ : nat => tt)
             (fun _ : unit => ["contrast"%string]) (fun sc _ _ => sc)
             (fun m _ _ _ => m) (fun _ => "70.0%"%string)
             (fun _ => "value"%string) (fun _ _ s => s) (fun _ s => [s])
             (fun _ _ => None)
             (fun _ => ComputerVision.mkProcessedImage false ∅ [] None)
             "Findings: small nodule." []
             (MLModels.init tt tt tt tt tt) report).
    + intros m x p Hin. simpl in Hin.
      destruct Hin as [<-|[<-|[]]]; split; discriminate.
    + symmetry. exact E.
  - vm_compute in E. discriminate E.
Defined.
